(** * talos_order.py: a shallow embedding and its verified properties

    The development follows the layout of [talos_order.py]: string
    helpers, the semantic-version key, the asset locator, cache retention,
    and then, over an explicit world, version resolution, download,
    decompression, push, the batch processor and [main].

    Data.  A Python [str] is a [string] whose characters are code points
    below 256; on these [\d] is the ASCII digits.  A Python [int] is a
    [Z], without a bound on the number of digits.  What YAML and JSON
    documents hold is a [pyval]; an attribute or an operation that a value
    lacks raises as in Python.

    Effects.  A computation is a function from the world to a result and
    a world.  The world holds the regular files of the disk and the log of
    the calls made.  What lies outside the program (the remote services,
    the subprocesses, the faults of the disk, the clock, the YAML printer)
    is a record [Env] of functions of the history, over which every
    theorem is quantified.  An exception is its class name and message;
    [except Exception] catches all of them. *)

From Stdlib Require Import ZArith List Ascii String Lia Bool Permutation Sorted DecimalString.
From stdpp Require Import gmap strings.
Import ListNotations.
Open Scope string_scope.
Open Scope Z_scope.
Set Warnings "-register-all".
Arguments String.append !_ _ : simpl nomatch.

(** ** Python string primitives *)

Module PyStr.

Definition is_digit (a : ascii) : bool :=
  (Ascii.leb "0" a && Ascii.leb a "9")%bool.

Fixpoint all_digits (s : string) : bool :=
  match s with
  | EmptyString => true
  | String a r => is_digit a && all_digits r
  end.

(** [s.lstrip(c)] for a one-character strip set. *)
Fixpoint lstrip_char (c : ascii) (s : string) : string :=
  match s with
  | EmptyString => EmptyString
  | String a r => if Ascii.eqb a c then lstrip_char c r else s
  end.

Fixpoint string_rev_acc (s acc : string) : string :=
  match s with
  | EmptyString => acc
  | String a r => string_rev_acc r (String a acc)
  end.

Definition string_rev (s : string) : string := string_rev_acc s EmptyString.

(** [s.rstrip(c)] for a one-character strip set. *)
Definition rstrip_char (c : ascii) (s : string) : string :=
  string_rev (lstrip_char c (string_rev s)).

(** [s.split(c, 1)]: the part before the first [c] and, when [c] occurs,
    the part after it. *)
Fixpoint split_once (c : ascii) (s : string) : string * option string :=
  match s with
  | EmptyString => (EmptyString, None)
  | String a r =>
      if Ascii.eqb a c then (EmptyString, Some r)
      else let '(h, t) := split_once c r in (String a h, t)
  end.

(** [s.split(c)[-1]]: the part after the last [c] (all of [s] without any). *)
Fixpoint last_segment (c : ascii) (s : string) : string :=
  match s with
  | EmptyString => EmptyString
  | String a r =>
      if Ascii.eqb a c then last_segment c r
      else match snd (split_once c r) with
           | None => s
           | Some _ => last_segment c r
           end
  end.

(** The longest prefix of decimal digits, and what follows it. *)
Fixpoint span_digits (s : string) : string * string :=
  match s with
  | EmptyString => (EmptyString, EmptyString)
  | String a r =>
      if is_digit a then let '(d, t) := span_digits r in (String a d, t)
      else (EmptyString, s)
  end.

Definition digit_value (a : ascii) : Z := Z.of_N (N_of_ascii a) - 48.

Fixpoint int_digits_acc (s : string) (acc : Z) : option Z :=
  match s with
  | EmptyString => Some acc
  | String a r =>
      if is_digit a then int_digits_acc r (10 * acc + digit_value a) else None
  end.

(** The default of [sys.int_max_str_digits]: [int] refuses a string with
    more digits, zeros in front included. *)
Definition INT_MAX_STR_DIGITS : Z := 4300.

(** [int(s)] on a string of decimal digits.  A string of more than 4300
    digits is refused ([None], Python's ValueError), and so is any string
    that is not a number; the call sites of the program only pass groups
    matched by [\d+]. *)
Definition int_of_decimal (s : string) : option Z :=
  match s with
  | EmptyString => None
  | _ =>
      if INT_MAX_STR_DIGITS <? Z.of_nat (String.length s) then None
      else int_digits_acc s 0
  end.

Definition startswith (s p : string) : bool := String.prefix p s.

Definition endswith (s p : string) : bool :=
  String.prefix (string_rev p) (string_rev s).

Definition nl : ascii := ascii_of_N 10.

End PyStr.
Import PyStr.

(** ** The semantic-version key *)

(** A key is the tuple [(major, minor, patch, preflag, pre)]. *)
Definition key : Type := Z * Z * Z * Z * string.

(** Python's [<] on two such tuples: lexicographic, integers by value and
    the string by code points. *)
Definition key_ltb (a b : key) : bool :=
  let '(a1, a2, a3, a4, a5) := a in
  let '(b1, b2, b3, b4, b5) := b in
  if a1 <? b1 then true else if b1 <? a1 then false else
  if a2 <? b2 then true else if b2 <? a2 then false else
  if a3 <? b3 then true else if b3 <? a3 then false else
  if a4 <? b4 then true else if b4 <? a4 then false else
  String.ltb a5 b5.

Definition key_lt (a b : key) : Prop := key_ltb a b = true.

(** Numeric lexicographic order on [(major, minor, patch)]. *)
Definition core_lt (a b : Z * Z * Z) : Prop :=
  let '(a1, a2, a3) := a in
  let '(b1, b2, b3) := b in
  a1 < b1 \/ (a1 = b1 /\ (a2 < b2 \/ (a2 = b2 /\ a3 < b3))).

Definition key_core (k : key) : Z * Z * Z :=
  let '(a1, a2, a3, _, _) := k in (a1, a2, a3).

(** [_SEMVER_CORE.match(core)] for [^(\d+)\.(\d+)\.(\d+)$]: the three
    groups.  [$] also matches just before one final newline. *)
Definition _SEMVER_CORE (core : string) : option (string * string * string) :=
  let '(g1, r1) := span_digits core in
  match g1, r1 with
  | String _ _, String "." r1' =>
      let '(g2, r2) := span_digits r1' in
      match g2, r2 with
      | String _ _, String "." r2' =>
          let '(g3, r3) := span_digits r2' in
          match g3 with
          | String _ _ =>
              if (String.eqb r3 "" || String.eqb r3 (String nl ""))%bool
              then Some (g1, g2, g3) else None
          | EmptyString => None
          end
      | _, _ => None
      end
  | _, _ => None
  end.

(** The sortable key of a tag such as [v1.11.0-beta.1] or [v1.11.0].
    [None] stands for an exception raised by one of the [int(...)]
    conversions. *)
Definition _semver_key (tag : string) : option key :=
  let t := lstrip_char "v" tag in
  let parts := split_once "-" t in
  let core := fst parts in
  let pre := snd parts in
  match _SEMVER_CORE core with
  | None =>
      (* (0, 0, 0, -1 if pre else 0, pre or "") *)
      Some (0, 0, 0,
            match pre with
            | Some (String _ _) => -1
            | _ => 0
            end,
            match pre with Some p => p | None => "" end)
  | Some (g1, g2, g3) =>
      match int_of_decimal g1, int_of_decimal g2, int_of_decimal g3 with
      | Some major, Some minor, Some patch =>
          let preflag := match pre with None => 0 | Some _ => -1 end in
          Some (major, minor, patch, preflag,
                match pre with Some p => p | None => "" end)
      | _, _, _ => None
      end
  end.

(** The same body, written a second time in the source for the cache. *)
Definition _parse_semver_for_sort (tag : string) : option key :=
  let t := lstrip_char "v" tag in
  let parts := split_once "-" t in
  let core := fst parts in
  let pre := snd parts in
  match _SEMVER_CORE core with
  | None =>
      (* (0, 0, 0, -1 if pre else 0, pre or "") *)
      Some (0, 0, 0,
            match pre with
            | Some (String _ _) => -1
            | _ => 0
            end,
            match pre with Some p => p | None => "" end)
  | Some (g1, g2, g3) =>
      match int_of_decimal g1, int_of_decimal g2, int_of_decimal g3 with
      | Some major, Some minor, Some patch =>
          let preflag := match pre with None => 0 | Some _ => -1 end in
          Some (major, minor, patch, preflag,
                match pre with Some p => p | None => "" end)
      | _, _, _ => None
      end
  end.

(** ** [sorted(items, key=..., reverse=True)] *)

Section PySorted.
Context {A : Type}.

(** Insertion into a list that is descending by key; an element goes in
    front of the entries whose key is not greater than its own. *)
Fixpoint insert_desc (x : key * A) (l : list (key * A)) : list (key * A) :=
  match l with
  | [] => [x]
  | y :: r => if key_ltb (fst x) (fst y) then y :: insert_desc x r else x :: l
  end.

(** A stable sort, newest first: entries with equal keys keep their
    order, as [list.sort(reverse=True)] guarantees. *)
Definition sort_desc (l : list (key * A)) : list (key * A) :=
  fold_right insert_desc [] l.

(** The keys are computed first, one call per element; a key function
    that raises makes the whole call raise. *)
Fixpoint decorate (keyf : A -> option key) (l : list A) : option (list (key * A)) :=
  match l with
  | [] => Some []
  | x :: r =>
      match keyf x with
      | None => None
      | Some k =>
          match decorate keyf r with
          | None => None
          | Some kr => Some ((k, x) :: kr)
          end
      end
  end.

Definition py_sorted_rev (keyf : A -> option key) (l : list A) : option (list A) :=
  match decorate keyf l with
  | None => None
  | Some kl => Some (map snd (sort_desc kl))
  end.
End PySorted.

(** ** Python values and exceptions *)

(** Values as [yaml.safe_load] and [json.loads] produce them.  A mapping
    keeps its insertion order; lookup takes the first binding of a key.
    Floats, dates and byte strings are outside the model. *)
Inductive pyval : Type :=
| VNone
| VBool (b : bool)
| VInt (z : Z)
| VStr (s : string)
| VList (l : list pyval)
| VDict (d : list (string * pyval)).

(** An exception: its class name and [str(e)]. *)
Record exc : Type := Exc { exc_class : string; exc_msg : string }.

Inductive result (A : Type) : Type :=
| Ok (a : A)
| Raise (e : exc).
Arguments Ok {A} a.
Arguments Raise {A} e.

Definition ValueError (msg : string) : exc := Exc "ValueError" msg.
Definition RuntimeError (msg : string) : exc := Exc "RuntimeError" msg.
Definition TypeError (msg : string) : exc := Exc "TypeError" msg.
Definition AttributeError (msg : string) : exc := Exc "AttributeError" msg.

Definition type_name (v : pyval) : string :=
  match v with
  | VNone => "NoneType"
  | VBool _ => "bool"
  | VInt _ => "int"
  | VStr _ => "str"
  | VList _ => "list"
  | VDict _ => "dict"
  end.

(** Truth value of a Python object. *)
Definition truthy (v : pyval) : bool :=
  match v with
  | VNone => false
  | VBool b => b
  | VInt z => negb (z =? 0)
  | VStr s => negb (String.eqb s "")
  | VList l => match l with [] => false | _ => true end
  | VDict d => match d with [] => false | _ => true end
  end.

(** [a or b] *)
Definition py_or (a b : pyval) : pyval := if truthy a then a else b.

Fixpoint assoc (k : string) (d : list (string * pyval)) : option pyval :=
  match d with
  | [] => None
  | (k', v) :: r => if String.eqb k k' then Some v else assoc k r
  end.

(** [d[k] = v]: replaces the binding in place, or appends a new one. *)
Fixpoint dict_set (k : string) (v : pyval) (d : list (string * pyval)) : list (string * pyval) :=
  match d with
  | [] => [(k, v)]
  | (k', v') :: r => if String.eqb k k' then (k, v) :: r else (k', v') :: dict_set k v r
  end.

Definition no_attribute (v : pyval) (attr : string) : exc :=
  AttributeError ("'" ++ type_name v ++ "' object has no attribute '" ++ attr ++ "'").

(** [v.get(k, dflt)]; only a mapping has the method. *)
Definition py_get (v : pyval) (k : string) (dflt : pyval) : result pyval :=
  match v with
  | VDict d => Ok (match assoc k d with Some x => x | None => dflt end)
  | _ => Raise (no_attribute v "get")
  end.

Definition str_eq (v : pyval) (s : string) : bool :=
  match v with
  | VStr s' => String.eqb s' s
  | _ => false
  end.

Definition hex_digit (n : N) : ascii :=
  ascii_of_N (if (n <? 10)%N then 48 + n else 87 + n).

(** [repr] of one character inside a string literal quoted by [q]. *)
Definition repr_char (q : ascii) (c : ascii) : string :=
  let n := N_of_ascii c in
  if (Ascii.eqb c q || Ascii.eqb c "\")%bool%char then String "\" (String c "")
  else if (n =? 9)%N then "\t"
  else if (n =? 10)%N then "\n"
  else if (n =? 13)%N then "\r"
  else if ((n <? 32) || ((127 <=? n) && (n <=? 160)) || (n =? 173))%N%bool
       then String "\" (String "x" (String (hex_digit (n / 16)) (String (hex_digit (n mod 16)) "")))
  else String c "".

Fixpoint string_mem (c : ascii) (s : string) : bool :=
  match s with
  | EmptyString => false
  | String a r => (Ascii.eqb a c || string_mem c r)%bool
  end.

Fixpoint string_flat_map (f : ascii -> string) (s : string) : string :=
  match s with
  | EmptyString => EmptyString
  | String a r => f a ++ string_flat_map f r
  end.

(** The double quote. *)
Definition dquote : ascii := ascii_of_N 34.

(** [repr(s)] for a string. *)
Definition repr_str (s : string) : string :=
  let q : ascii :=
    if (string_mem "'" s && negb (string_mem dquote s))%bool%char then dquote else "'"%char in
  String q (string_flat_map (repr_char q) s) ++ String q "".

Definition string_of_Z (z : Z) : string := NilZero.string_of_int (Z.to_int z).

Fixpoint join (sep : string) (l : list string) : string :=
  match l with
  | [] => ""
  | [x] => x
  | x :: r => x ++ sep ++ join sep r
  end.

(** [repr(v)] *)
Fixpoint py_repr (v : pyval) : string :=
  match v with
  | VNone => "None"
  | VBool true => "True"
  | VBool false => "False"
  | VInt z => string_of_Z z
  | VStr s => repr_str s
  | VList l => "[" ++ join ", " (map py_repr l) ++ "]"
  | VDict d =>
      "{" ++ join ", " (map (fun kv => repr_str (fst kv) ++ ": " ++ py_repr (snd kv)) d) ++ "}"
  end.

(** [str(v)], which is also how an f-string renders [{v}]. *)
Definition py_str (v : pyval) : string :=
  match v with
  | VStr s => s
  | _ => py_repr v
  end.

(** ** The asset locator *)

Definition build_asset_url (schematic_id version platform image_format arch : pyval)
    (secureboot : bool) : result string :=
  let base := "https://factory.talos.dev/image/" ++ py_str schematic_id ++ "/" ++ py_str version in
  if str_eq platform "nocloud" then
    if str_eq image_format "iso" then
      let name := "nocloud-" ++ py_str arch ++ (if secureboot then "-secureboot" else "") ++ ".iso" in
      Ok (base ++ "/" ++ name)
    else if (str_eq image_format "raw" || str_eq image_format "raw.xz"
             || str_eq image_format "rawxz")%bool then
      let name := "nocloud-" ++ py_str arch ++ (if secureboot then "-secureboot" else "") ++ ".raw.xz" in
      Ok (base ++ "/" ++ name)
    else Raise (ValueError "unsupported image_format for nocloud (use iso or raw.xz)")
  else if (str_eq platform "metal" && str_eq image_format "iso")%bool then
    Ok (base ++ "/metal-" ++ py_str arch ++ ".iso")
  else Raise (ValueError "unsupported platform/image_format combination").

(** ** Paths *)

(** [posixpath.join(a, b)] *)
Definition path_join (a b : string) : string :=
  if startswith b "/" then b
  else if (String.eqb a "" || endswith a "/")%bool then a ++ b
  else a ++ "/" ++ b.

(** The index just after the last [/] of [s] (0 without any), counted at
    position [i]. *)
Fixpoint after_last_slash (s : string) (i : nat) (found : nat) : nat :=
  match s with
  | EmptyString => found
  | String a r => after_last_slash r (S i) (if Ascii.eqb a "/" then S i else found)
  end.

Fixpoint all_slashes (s : string) : bool :=
  match s with
  | EmptyString => true
  | String a r => (Ascii.eqb a "/" && all_slashes r)%bool
  end.

(** [posixpath.dirname(p)] *)
Definition path_dirname (p : string) : string :=
  let i := after_last_slash p 0 0 in
  let head := String.substring 0 i p in
  if (negb (String.eqb head "") && negb (all_slashes head))%bool
  then rstrip_char "/" head else head.

(** ** When a version key raises *)

(** The ValueError of [int(s)] for a string [s] of more than 4300 digits. *)
Definition int_limit_error (s : string) : exc :=
  ValueError ("Exceeds the limit (4300 digits) for integer string conversion: value has "
              ++ string_of_Z (Z.of_nat (String.length s))
              ++ " digits; use sys.set_int_max_str_digits() to increase the limit").

(** The digit group at which the key function stops for [tag]: the first
    of major, minor and patch that [int] refuses, if any. *)
Definition refused_group (tag : string) : option string :=
  match _SEMVER_CORE (fst (split_once "-" (lstrip_char "v" tag))) with
  | Some (g1, g2, g3) =>
      match int_of_decimal g1, int_of_decimal g2, int_of_decimal g3 with
      | None, _, _ => Some g1
      | _, None, _ => Some g2
      | _, _, None => Some g3
      | _, _, _ => None
      end
  | None => None
  end.

(** [sorted] computes the keys from left to right, so that the first
    element whose key raises decides the exception. *)
Fixpoint first_refused {A : Type} (version : A -> string) (l : list A) : option string :=
  match l with
  | [] => None
  | x :: r =>
      match refused_group (version x) with
      | Some g => Some g
      | None => first_refused version r
      end
  end.

(** The exception of [sorted(l, key=...)] when a key raises. *)
Definition sort_key_error {A : Type} (version : A -> string) (l : list A) : exc :=
  int_limit_error (match first_refused version l with Some g => g | None => "" end).

(** ** Cache retention: the plan *)

(** Whether [s] has no newline, or exactly one and at its very end; the
    part before it is what the final group [.*] followed by [$] captures. *)
Fixpoint dot_star_end (s : string) : option string :=
  match s with
  | EmptyString => Some EmptyString
  | String a r =>
      if Ascii.eqb a nl then
        match r with EmptyString => Some EmptyString | _ => None end
      else match dot_star_end r with
           | Some t => Some (String a t)
           | None => None
           end
  end.

(** [_FILE_RE.match(name)]: the literal [talos-], the version group
    [v[^-]+], a dash, and the artifact tail [.*] up to [$]. *)
Definition _FILE_RE (name : string) : option (string * string) :=
  if startswith name "talos-" then
    let rest := String.substring 6 (String.length name - 6) name in
    match rest with
    | String "v" _ =>
        match split_once "-" rest with
        | (String "v" (String _ _) as ver, Some tailfull) =>
            match dot_star_end tailfull with
            | Some tail => Some (ver, tail)
            | None => None
            end
        | _ => None
        end
    | _ => None
    end
  else None.

(** The dictionary [groups]: artifact tail to its [(version_tag, full)]
    items, in insertion order. *)
Definition groups_t : Type := list (string * list (string * string)).

(** [groups.setdefault(tail, []).append(x)] *)
Fixpoint groups_append (tail : string) (x : string * string) (g : groups_t) : groups_t :=
  match g with
  | [] => [(tail, [x])]
  | (t, items) :: r =>
      if String.eqb t tail then (t, (items ++ [x])%list) :: r
      else (t, items) :: groups_append tail x r
  end.

(** The scan loop of [plan_cache_cleanup]. *)
Fixpoint scan_entries (cache_dir : string) (entries : list string) (groups : groups_t) : groups_t :=
  match entries with
  | [] => groups
  | name :: rest =>
      if endswith name ".sha256" then scan_entries cache_dir rest groups
      else match _FILE_RE name with
           | None => scan_entries cache_dir rest groups
           | Some (version_tag, tail) =>
               let full := path_join cache_dir name in
               scan_entries cache_dir rest (groups_append tail (version_tag, full) groups)
           end
  end.

(** The inner loop over the victims of one family. *)
Fixpoint add_victims (on_disk : string -> bool) (victims : list (string * string))
    (to_delete : list string) : list string :=
  match victims with
  | [] => to_delete
  | (ver, victim) :: rest =>
      let to_delete := (to_delete ++ [victim])%list in
      let sha := victim ++ ".sha256" in
      add_victims on_disk rest
        (if on_disk sha then (to_delete ++ [sha])%list else to_delete)
  end.

(** The loop over [groups.items()]; it raises when a sort key does. *)
Fixpoint select_victims (on_disk : string -> bool) (keep_versions : Z) (groups : groups_t)
    (to_delete : list string) : result (list string) :=
  match groups with
  | [] => Ok to_delete
  | (tail, items) :: rest =>
      match py_sorted_rev (fun x => _parse_semver_for_sort (fst x)) items with
      | None => Raise (sort_key_error fst items)
      | Some items_sorted =>
          let victims := skipn (Z.to_nat keep_versions) items_sorted in
          select_victims on_disk keep_versions rest
            (add_victims on_disk victims to_delete)
      end
  end.

(** [plan_cache_cleanup] once the directory listing [entries] is known;
    [on_disk] answers [os.path.exists]. *)
Definition plan_from_listing (on_disk : string -> bool) (cache_dir : string)
    (keep_versions : Z) (entries : list string) : result (list string) :=
  if keep_versions <=? 0 then Ok []
  else
    let groups := scan_entries cache_dir entries [] in
    select_victims on_disk keep_versions groups [].

(** ** More operations on Python values *)

(** [iter(v)]: the elements a [for] loop visits. *)
Fixpoint chars_of (s : string) : list pyval :=
  match s with
  | EmptyString => []
  | String a r => VStr (String a "") :: chars_of r
  end.

Definition py_iter (v : pyval) : result (list pyval) :=
  match v with
  | VList l => Ok l
  | VDict d => Ok (map (fun kv => VStr (fst kv)) d)
  | VStr s => Ok (chars_of s)
  | _ => Raise (TypeError ("'" ++ type_name v ++ "' object is not iterable"))
  end.

Fixpoint contains_sub (needle s : string) : bool :=
  (String.prefix needle s ||
   match s with
   | EmptyString => false
   | String _ r => contains_sub needle r
   end)%bool.

(** [k in v] for a string [k]. *)
Definition py_contains (k : string) (v : pyval) : result bool :=
  match v with
  | VDict d => Ok (match assoc k d with Some _ => true | None => false end)
  | VList l => Ok (existsb (fun x => str_eq x k) l)
  | VStr s => Ok (contains_sub k s)
  | _ => Raise (TypeError ("argument of type '" ++ type_name v ++ "' is not iterable"))
  end.

(** [v[k]] for a string [k]. *)
Definition py_getitem (v : pyval) (k : string) : result pyval :=
  match v with
  | VDict d =>
      match assoc k d with
      | Some x => Ok x
      | None => Raise (Exc "KeyError" (repr_str k))
      end
  | VList _ => Raise (TypeError "list indices must be integers or slices, not str")
  | VStr _ => Raise (TypeError "string indices must be integers, not 'str'")
  | _ => Raise (TypeError ("'" ++ type_name v ++ "' object is not subscriptable"))
  end.

Definition lower_char (a : ascii) : ascii :=
  let n := N_of_ascii a in
  if (((65 <=? n) && (n <=? 90)) || ((192 <=? n) && (n <=? 222) && negb (n =? 215)))%N%bool
  then ascii_of_N (n + 32) else a.

(** [s.lower()] *)
Definition lower (s : string) : string :=
  string_flat_map (fun a => String (lower_char a) "") s.

(** [v.lower()]; only a string has the method. *)
Definition py_lower (v : pyval) : result string :=
  match v with
  | VStr s => Ok (lower s)
  | _ => Raise (no_attribute v "lower")
  end.

Definition is_space (a : ascii) : bool :=
  let n := N_of_ascii a in
  (((9 <=? n) && (n <=? 13)) || ((28 <=? n) && (n <=? 32)) || (n =? 133) || (n =? 160))%N%bool.

Fixpoint lstrip_space (s : string) : string :=
  match s with
  | EmptyString => EmptyString
  | String a r => if is_space a then lstrip_space r else s
  end.

(** [s.strip()] *)
Definition strip (s : string) : string :=
  string_rev (lstrip_space (string_rev (lstrip_space s))).

(** [shlex_quote(s)] of the program: [s.replace] needs a string. *)
Definition shlex_quote (v : pyval) : result string :=
  match v with
  | VStr s =>
      Ok ("'" ++ string_flat_map
                   (fun a => if Ascii.eqb a "'"
                             then String "'" (String dquote (String "'" (String dquote "'")))
                             else String a "") s
              ++ "'")
  | _ => Raise (no_attribute v "replace")
  end.

(** [re.sub(r"\.xz$", "", s)]: a final [.xz] is dropped, also when one
    newline follows it. *)
Definition strip_xz_suffix (s : string) : string :=
  let n := String.length s in
  if endswith s ".xz" then String.substring 0 (n - 3) s
  else if endswith s (".xz" ++ String nl "") then String.substring 0 (n - 4) s ++ String nl ""
  else s.

(** ** The world and its effects *)

(** What the program does to its surroundings, one constructor per kind
    of call. *)
Inductive io : Type :=
| IoMakedirs (path : string)           (* os.makedirs(path, exist_ok=True) *)
| IoRead (path : string)               (* a file opened and read *)
| IoWrite (path content : string)      (* a file created or replaced *)
| IoReplace (src dst : string)         (* os.replace *)
| IoRemove (path : string)             (* os.remove *)
| IoRmtree (path : string)             (* shutil.rmtree *)
| IoListdir (path : string)            (* os.listdir *)
| IoHttpJson (url : string)            (* GET by http_json *)
| IoHttpPost (url body : string)       (* POST by http_post_yaml_get_json *)
| IoHttpDownload (url : string)        (* GET by http_download *)
| IoRun (cmd : list string)            (* a subprocess *)
| IoPrint (text : string)              (* print to stdout *)
| IoPrintErr (text : string).          (* print to stderr *)

(** The regular files of the local disk, and the calls made so far, oldest
    first.  A file is known by the path it is opened with, as written:
    two spellings of one place (through [..], a doubled slash or a link)
    are two keys, so what is said of a file is said of a path string.
    Directories are not tracked: creating one is only logged, and a path
    that names a directory holds no file here. *)
Record world : Type := World { files : gmap string string; log : list io }.

(** How streaming a body into a file can end. *)
Inductive transfer : Type :=
| Refused (e : exc)                    (* nothing was opened *)
| Broken (partial : string) (e : exc)  (* failed after [partial] was written *)
| Complete (body : string).

(** Everything outside the program.  The answers may depend on the whole
    history, so a remote service or a tool can change between calls. *)
Record Env : Type := {
  fs_fault : world -> io -> option exc;      (* an OSError for a local call *)
  http_json_resp : world -> string -> result pyval;
  http_post_resp : world -> string -> string -> result pyval;
  http_fetch : world -> string -> transfer;
  run_resp : world -> list string -> result (Z * string * string);
  listdir_resp : world -> string -> result (list string);
  isdir : world -> string -> bool;           (* a directory and not a link *)
  sha256_hex : string -> string;             (* hexdigest of the whole file *)
  HAVE_LZMA : bool;
  lzma_decode : string -> transfer;
  gmtime_now : world -> string;              (* time.strftime(..., time.gmtime()) *)
  yaml_safe_dump : pyval -> string;
  str_format_orderid : string -> string -> result string; (* tmpl.format(orderid=..) *)
  splitext : string -> string * string;      (* os.path.splitext *)
  abspath : string -> string                 (* os.path.abspath *)
}.

(** A computation: it reads and changes the world, and returns or raises. *)
Definition M (A : Type) : Type := world -> result A * world.

Definition ret {A} (a : A) : M A := fun w => (Ok a, w).

Definition raise {A} (e : exc) : M A := fun w => (Raise e, w).

Definition bind {A B} (m : M A) (k : A -> M B) : M B :=
  fun w =>
    match m w with
    | (Ok a, w') => k a w'
    | (Raise e, w') => (Raise e, w')
    end.

(** [try: m  except Exception as e: h e] *)
Definition try_except {A} (m : M A) (h : exc -> M A) : M A :=
  fun w =>
    match m w with
    | (Ok a, w') => (Ok a, w')
    | (Raise e, w') => h e w'
    end.

Definition lift {A} (r : result A) : M A := fun w => (r, w).

Declare Scope py_scope.
Delimit Scope py_scope with py.
Notation "x <- m ;; k" := (bind m (fun x => k))
  (at level 100, m at next level, right associativity) : py_scope.
Notation "m ;;; k" := (bind m (fun _ => k))
  (at level 100, right associativity) : py_scope.
Open Scope py_scope.

Definition add_log (ev : io) (w : world) : world :=
  {| files := files w; log := (log w ++ [ev])%list |}.

Definition FileNotFoundError (path : string) : exc :=
  Exc "FileNotFoundError" ("[Errno 2] No such file or directory: " ++ repr_str path).

Definition GITHUB_LATEST : string := "https://api.github.com/repos/siderolabs/talos/releases/latest".
Definition GITHUB_TAGS : string := "https://api.github.com/repos/siderolabs/talos/tags".
Definition FACTORY_SCHEMATICS : string := "https://factory.talos.dev/schematics".

Section WithEnv.
Context (E : Env).

(** *** Local files *)

(** A local call that only needs logging, unless the disk refuses it. *)
Definition fs_step (ev : io) : M unit :=
  fun w =>
    match fs_fault E w ev with
    | Some e => (Raise e, w)
    | None => (Ok tt, add_log ev w)
    end.

Definition print (text : string) : M unit := fun w => (Ok tt, add_log (IoPrint text) w).

Definition print_err (text : string) : M unit :=
  fun w => (Ok tt, add_log (IoPrintErr text) w).

(** A path argument must be a string. *)
Definition path_arg (v : pyval) : M string :=
  match v with
  | VStr s => ret s
  | _ => raise (TypeError ("expected str, bytes or os.PathLike object, not "
                           ++ type_name v))
  end.

(** [os.makedirs(path, exist_ok=True)]; the empty path names no
    directory and is always refused. *)
Definition makedirs (path : string) : M unit :=
  if String.eqb path "" then raise (FileNotFoundError "")
  else fs_step (IoMakedirs path).

(** [os.path.exists(path)] *)
Definition path_exists (w : world) (path : string) : bool :=
  match files w !! path with Some _ => true | None => false end.

(** [os.path.getsize(path)] *)
Definition getsize (path : string) : M Z :=
  fun w =>
    match files w !! path with
    | Some c => (Ok (Z.of_nat (String.length c)), w)
    | None => (Raise (FileNotFoundError path), w)
    end.

Definition read_file (path : string) : M string :=
  fun w =>
    match fs_fault E w (IoRead path) with
    | Some e => (Raise e, w)
    | None =>
        match files w !! path with
        | Some c => (Ok c, add_log (IoRead path) w)
        | None => (Raise (FileNotFoundError path), w)
        end
    end.

Definition write_file (path content : string) : M unit :=
  fun w =>
    match fs_fault E w (IoWrite path content) with
    | Some e => (Raise e, w)
    | None =>
        (Ok tt, {| files := <[path := content]> (files w);
                   log := (log w ++ [IoWrite path content])%list |})
    end.

(** [os.replace(src, dst)] *)
Definition replace_file (src dst : string) : M unit :=
  fun w =>
    match fs_fault E w (IoReplace src dst) with
    | Some e => (Raise e, w)
    | None =>
        match files w !! src with
        | Some c =>
            (Ok tt, {| files := <[dst := c]> (delete src (files w));
                       log := (log w ++ [IoReplace src dst])%list |})
        | None => (Raise (FileNotFoundError src), w)
        end
    end.

(** [os.remove(path)] *)
Definition remove_file (path : string) : M unit :=
  fun w =>
    match fs_fault E w (IoRemove path) with
    | Some e => (Raise e, w)
    | None =>
        match files w !! path with
        | Some _ =>
            (Ok tt, {| files := delete path (files w);
                       log := (log w ++ [IoRemove path])%list |})
        | None => (Raise (FileNotFoundError path), w)
        end
    end.

(** [shutil.rmtree(path, ignore_errors=True)]: everything below [path]. *)
Definition rmtree (path : string) : M unit :=
  fun w =>
    (Ok tt, {| files := filter (fun kv => negb (startswith (fst kv) (path ++ "/")) = true)
                               (files w);
               log := (log w ++ [IoRmtree path])%list |}).

(** [os.listdir(path)] *)
Definition listdir (path : string) : M (list string) :=
  fun w => (listdir_resp E w path, add_log (IoListdir path) w).

(** *** HTTP helpers *)

Definition http_json (url : string) : M pyval :=
  fun w => (http_json_resp E w url, add_log (IoHttpJson url) w).

Definition http_post_yaml_get_json (url yaml_body : string) : M pyval :=
  fun w => (http_post_resp E w url yaml_body, add_log (IoHttpPost url yaml_body) w).

(** The body goes to [dest_path.part], which is renamed at the end. *)
Definition http_download (url dest_path : string) : M unit :=
  makedirs (path_dirname dest_path) ;;;
  let tmp := dest_path ++ ".part" in
  outcome <- (fun w => (Ok (http_fetch E w url), add_log (IoHttpDownload url) w)) ;;
  match outcome with
  | Refused e => raise e
  | Broken partial e => write_file tmp partial ;;; raise e
  | Complete body => write_file tmp body ;;; replace_file tmp dest_path
  end.

(** *** Utilities *)

Definition sha256_file (path : string) : M string :=
  c <- read_file path ;;
  ret (sha256_hex E c).

(** [run(cmd)]: return code, stdout and stderr. *)
Definition run (cmd : list string) : M (Z * string * string) :=
  fun w => (run_resp E w cmd, add_log (IoRun cmd) w).

(** *** Version resolution *)

(** The exception of [minor + "."] when [minor] is not a string. *)
Definition concat_type_error (v : pyval) : exc :=
  match v with
  | VList _ => TypeError ("can only concatenate list (not " ++ String dquote "str"
                          ++ String dquote ") to list")
  | _ => TypeError ("unsupported operand type(s) for +: '" ++ type_name v ++ "' and 'str'")
  end.

(** [[t["name"] for t in tags if t.get("name","").startswith(minor + ".")]] *)
Fixpoint matching_tags (minor : pyval) (tags : list pyval) : result (list string) :=
  match tags with
  | [] => Ok []
  | t :: rest =>
      match py_get t "name" (VStr "") with
      | Raise e => Raise e
      | Ok (VStr n) =>
          match minor with
          | VStr m =>
              match matching_tags minor rest with
              | Raise e => Raise e
              | Ok r => Ok (if startswith n (m ++ ".") then n :: r else r)
              end
          | _ => Raise (concat_type_error minor)
          end
      | Ok name => Raise (no_attribute name "startswith")
      end
  end.

Definition resolve_version (spec : pyval) : M (pyval * string) :=
  t <- lift (py_get (py_or spec (VDict [])) "type" (VStr "latest")) ;;
  if str_eq t "exact" then
    v <- lift (py_get spec "value" VNone) ;;
    if negb (truthy v) then raise (ValueError "version.type=exact requires version.value")
    else ret (v, "exact")
  else if str_eq t "latest" then
    data <- http_json GITHUB_LATEST ;;
    tag <- lift (py_get data "tag_name" VNone) ;;
    if negb (truthy tag) then raise (RuntimeError "Failed to resolve latest version from GitHub")
    else ret (tag, "latest")
  else if str_eq t "latest-in-minor" then
    minor <- lift (py_get spec "minor" VNone) ;;
    if negb (truthy minor) then
      raise (ValueError "version.type=latest-in-minor requires version.minor (e.g., v1.11)")
    else
      tags <- http_json GITHUB_TAGS ;;
      tag_list <- lift (py_iter tags) ;;
      matching <- lift (matching_tags minor tag_list) ;;
      match matching with
      | [] => raise (RuntimeError ("No tags found for minor " ++ py_str minor))
      | _ =>
          match py_sorted_rev _semver_key matching with
          | Some (best :: _) => ret (VStr best, "latest-in-minor")
          | Some [] => raise (Exc "IndexError" "list index out of range")
          | None => raise (sort_key_error (fun t => t) matching)
          end
      end
  else raise (ValueError ("Unknown version.type: " ++ py_str t)).

(** *** Schematics *)

Definition post_schematic_and_get_id (customization : pyval) : M pyval :=
  let body := yaml_safe_dump E (VDict [("customization", customization)]) in
  data <- http_post_yaml_get_json FACTORY_SCHEMATICS body ;;
  has_id <- lift (py_contains "id" data) ;;
  if negb has_id then raise (RuntimeError ("Factory did not return an ID: " ++ py_str data))
  else lift (py_getitem data "id").

(** *** Decompression *)

Definition decompress_raw_xz (src_path dst_path : string) : M unit :=
  makedirs (path_dirname dst_path) ;;;
  let tmp := dst_path ++ ".part" in
  if HAVE_LZMA E then
    c <- read_file src_path ;;
    match lzma_decode E c with
    | Refused e => raise e
    | Broken partial e => write_file tmp partial ;;; raise e
    | Complete body => write_file tmp body ;;; replace_file tmp dst_path
    end
  else
    r <- run ["bash"; "-lc"; "xz --version >/dev/null 2>&1"] ;;
    let '(rc, _, _) := r in
    if negb (rc =? 0) then
      raise (RuntimeError "Cannot decompress: python lzma unavailable and 'xz' not installed")
    else
      write_file tmp "" ;;;
      r <- run ["xz"; "-dkc"; src_path] ;;
      let '(returncode, out, stderr) := r in
      write_file tmp out ;;;
      if negb (returncode =? 0) then
        try_except (remove_file tmp)
          (fun e => if String.eqb (exc_class e) "FileNotFoundError" then ret tt else raise e) ;;;
        raise (RuntimeError ("xz failed: " ++ stderr))
      else replace_file tmp dst_path.

(** *** Push helpers *)

Definition ensure_tools_for_push : M (bool * string) :=
  r <- run ["bash"; "-lc"; "command -v rsync"] ;;
  let '(rc, _, _) := r in
  if negb (rc =? 0) then ret (false, "Missing dependency: rsync")
  else
    r <- run ["bash"; "-lc"; "command -v ssh"] ;;
    let '(rc, _, _) := r in
    if negb (rc =? 0) then ret (false, "Missing dependency: ssh")
    else ret (true, "").

Definition host_result (host : pyval) (status stderr : string) : pyval :=
  VDict [("host", host); ("status", VStr status); ("stderr", VStr stderr)].

Fixpoint push_hosts_loop (local_file : string) (hosts : list pyval)
    (default_iso_dir rsync_opts ssh_opts : pyval) (results : list pyval) : M (list pyval) :=
  match hosts with
  | [] => ret results
  | h :: rest =>
      host <- lift (py_getitem h "host") ;;
      dest_dir <- lift (py_get h "iso_dir" default_iso_dir) ;;
      qdir <- lift (shlex_quote dest_dir) ;;
      r <- run ["bash"; "-lc";
                "ssh " ++ py_str ssh_opts ++ " " ++ py_str host ++ " 'mkdir -p " ++ qdir ++ "'"] ;;
      let '(rc, _, err) := r in
      if negb (rc =? 0) then
        push_hosts_loop local_file rest default_iso_dir rsync_opts ssh_opts
          (results ++ [host_result host "mkdir-failed" err])%list
      else
        qfile <- lift (shlex_quote (VStr local_file)) ;;
        r <- run ["bash"; "-lc";
                  "rsync " ++ py_str rsync_opts ++ " " ++ qfile ++ " " ++ py_str host
                  ++ ":" ++ qdir ++ "/"] ;;
        let '(rc, _, err) := r in
        push_hosts_loop local_file rest default_iso_dir rsync_opts ssh_opts
          (results ++ [host_result host (if rc =? 0 then "ok" else "rsync-failed") err])%list
  end.

Definition push_file_to_hosts (local_file : string) (hosts default_iso_dir rsync_opts ssh_opts : pyval)
    : M (list pyval) :=
  host_list <- lift (py_iter hosts) ;;
  push_hosts_loop local_file host_list default_iso_dir rsync_opts ssh_opts [].

(** *** Core processing *)

(** A manifest entry under construction: a dictionary. *)
Definition entry_t : Type := list (string * pyval).

(** [entry[k1][k2] = v] *)
Definition entry_set2 (entry : entry_t) (k1 k2 : string) (v : pyval) : entry_t :=
  match assoc k1 entry with
  | Some (VDict d) => dict_set k1 (VDict (dict_set k2 v d)) entry
  | _ => entry
  end.

(** The locals of [process_positions] that the loop body reads. *)
Record ctx : Type := {
  orderid : string;
  defaults : pyval;
  dry_run : bool;
  cache_dir : string;
  proxmox_default_iso_dir : pyval;
  push_enabled_default : bool;
  rsync_opts : pyval;
  ssh_opts : pyval;
  prefer_decompressed_default : bool
}.

(** One element of the generator given to [any]. *)
Definition requests_push (push_enabled_default : bool) (it : pyval) : result bool :=
  match py_get it "push" (VDict []) with
  | Raise e => Raise e
  | Ok p =>
      match py_get p "hosts" VNone with
      | Raise e => Raise e
      | Ok hosts =>
          if truthy hosts then
            match py_get p "enabled" (VBool push_enabled_default) with
            | Raise e => Raise e
            | Ok en => Ok (truthy en)
            end
          else Ok false
      end
  end.

(** [any(... for it in positions)]: stops at the first true element. *)
Fixpoint any_requests_push (push_enabled_default : bool) (items : list pyval) : result bool :=
  match items with
  | [] => Ok false
  | it :: rest =>
      match requests_push push_enabled_default it with
      | Raise e => Raise e
      | Ok true => Ok true
      | Ok false => any_requests_push push_enabled_default rest
      end
  end.

(** The schematic id of an item: given, created, or a placeholder. *)
Definition obtain_schematic (dry : bool) (it : pyval) : M pyval :=
  schematic_id <- lift (py_get it "schematic_id" VNone) ;;
  customization <- lift (py_get it "customization" VNone) ;;
  if negb (truthy schematic_id) then
    if negb (truthy customization) then
      raise (ValueError "missing schematic_id or customization")
    else if dry then ret (VStr "<to-be-created>")
    else post_schematic_and_get_id customization
  else ret schematic_id.

(** [os.path.exists(p) and os.path.getsize(p) > 0], for a path that names
    a regular file or nothing.  A directory under that name, which the
    program would take for a cached image and then fail to read, is not
    in the model; what is proved of a fetch is proved of disks where no
    local call fails. *)
Definition cached_nonempty (w : world) (path : string) : bool :=
  match files w !! path with
  | Some c => 0 <? Z.of_nat (String.length c)
  | None => false
  end.

(** Download if needed, then checksum, size and sidecar. *)
Definition fetch_artifact (oid url local_path : string) (entry : entry_t) : M entry_t :=
  cached <- (fun w => (Ok (cached_nonempty w local_path), w)) ;;
  entry <- (if negb cached then
              print ("[" ++ oid ++ "] Downloading " ++ url ++ " -> " ++ local_path) ;;;
              http_download url local_path ;;;
              ret (entry_set2 entry "download" "done" (VBool true))
            else
              print ("[" ++ oid ++ "] Cached: " ++ local_path) ;;;
              ret entry) ;;
  sha <- sha256_file local_path ;;
  let entry := entry_set2 entry "download" "sha256" (VStr sha) in
  size <- getsize local_path ;;
  let entry := entry_set2 entry "download" "size_bytes" (VInt size) in
  write_file (local_path ++ ".sha256") (sha ++ String nl "") ;;;
  ret entry.

(** Decompress if requested. *)
Definition decompress_stage (oid : string) (it image_format : pyval) (local_path : string)
    (entry : entry_t) : M entry_t :=
  wanted <- lift (if (str_eq image_format "raw.xz" || str_eq image_format "rawxz")%bool
                  then match py_get it "decompress_raw" (VBool false) with
                       | Raise e => Raise e
                       | Ok d => Ok (truthy d)
                       end
                  else Ok false) ;;
  if wanted : bool then
    let decompressed_path := strip_xz_suffix local_path in
    print ("[" ++ oid ++ "] Decompressing " ++ local_path ++ " -> " ++ decompressed_path) ;;;
    decompress_raw_xz local_path decompressed_path ;;;
    sha <- sha256_file decompressed_path ;;
    size <- getsize decompressed_path ;;
    let entry :=
      dict_set "decompressed"
        (VDict [("path", VStr decompressed_path); ("sha256", VStr sha); ("size_bytes", VInt size)])
        entry in
    write_file (decompressed_path ++ ".sha256") (sha ++ String nl "") ;;;
    ret entry
  else ret entry.

(** Push if enabled and hosts are given. *)
Definition push_stage (c : ctx) (it : pyval) (entry : entry_t) : M entry_t :=
  push_cfg0 <- lift (py_get it "push" (VDict [])) ;;
  let push_cfg := py_or push_cfg0 (VDict []) in
  push_enabled <- lift (py_get push_cfg "enabled" (VBool (push_enabled_default c))) ;;
  hosts <- lift (py_get push_cfg "hosts" (VList [])) ;;
  prefer_decompressed <-
    lift (py_get push_cfg "prefer_decompressed" (VBool (prefer_decompressed_default c))) ;;
  if (truthy push_enabled && truthy hosts)%bool then
    decomp <- lift (py_get (VDict entry) "decompressed" VNone) ;;
    decomp_path <- lift (py_get (py_or decomp (VDict [])) "path" VNone) ;;
    artifact_to_push <-
      (if (truthy prefer_decompressed && truthy decomp_path)%bool then ret decomp_path
       else
         download <- lift (py_getitem (VDict entry) "download") ;;
         lift (py_getitem download "path")) ;;
    res <- push_file_to_hosts (py_str artifact_to_push) hosts
             (proxmox_default_iso_dir c) (rsync_opts c) (ssh_opts c) ;;
    ret (dict_set "pushed" (VList res) entry)
  else ret entry.

(** The body of the [try] for one item; [None] is the [continue] of an
    item of another product. *)
Definition process_item (c : ctx) (it pos_name : pyval) : M (option entry_t) :=
  product <- lift (py_get it "product" VNone) ;;
  product_lower <- lift (py_lower (py_or product (VStr ""))) ;;
  if negb (String.eqb product_lower "talos") then ret None
  else
    default_arch <- lift (py_get (defaults c) "arch" (VStr "amd64")) ;;
    arch <- lift (py_get it "arch" default_arch) ;;
    version_spec <- lift (py_get it "version" VNone) ;;
    resolved <- resolve_version version_spec ;;
    let '(version, version_source) := resolved in
    schematic_id <- obtain_schematic (dry_run c) it ;;
    platform <- lift (py_get it "platform" (VStr "nocloud")) ;;
    secureboot_v <- lift (py_get it "secureboot" (VBool false)) ;;
    let secureboot := truthy secureboot_v in
    image_format <- lift (py_get it "image_format" (VStr "iso")) ;;
    url <- lift (build_asset_url schematic_id version platform image_format arch secureboot) ;;
    let basename := last_segment "/" (rstrip_char "/" url) in
    let local_path := path_join (cache_dir c) ("talos-" ++ py_str version ++ "-" ++ basename) in
    makedirs (path_dirname local_path) ;;;
    customization <- lift (py_get it "customization" (VDict [])) ;;
    features <- lift (py_get customization "systemExtensions" (VDict [])) ;;
    now <- (fun w => (Ok (gmtime_now E w), w)) ;;
    let entry : entry_t :=
      [ ("name", pos_name);
        ("product", VStr "talos");
        ("platform", platform);
        ("arch", arch);
        ("version", version);
        ("version_source", VStr version_source);
        ("secureboot", VBool secureboot);
        ("image_format", image_format);
        ("schematic_id", schematic_id);
        ("url", VStr url);
        ("cache_dir", VStr (cache_dir c));
        ("download", VDict [("path", VStr local_path); ("done", VBool false);
                            ("sha256", VNone); ("size_bytes", VNone)]);
        ("decompressed", VDict []);
        ("pushed", VList []);
        ("features", features);
        ("timestamp_utc", VStr now) ] in
    if dry_run c then ret (Some entry)
    else
      entry <- fetch_artifact (orderid c) url local_path entry ;;
      entry <- decompress_stage (orderid c) it image_format local_path entry ;;
      entry <- push_stage c it entry ;;
      ret (Some entry).

(** The entry that replaces a failed item. *)
Definition err_entry (pos_name : pyval) (e : exc) : pyval :=
  VDict [ ("name", pos_name);
          ("status", VStr "error");
          ("error", VStr ("position failed: " ++ exc_class e ++ ": " ++ exc_msg e)) ].

(** One round of the [for] loop: the name, then the guarded body. *)
Definition process_one (c : ctx) (it : pyval) (entries : list pyval) : M (list pyval) :=
  name0 <- lift (py_get it "name" VNone) ;;
  let pos_name := py_or name0 (VStr "<unnamed>") in
  try_except
    (r <- process_item c it pos_name ;;
     match r with
     | None => ret entries
     | Some entry => ret (entries ++ [VDict entry])%list
     end)
    (fun e =>
       print_err ("[" ++ orderid c ++ "] ERROR in position '" ++ py_str pos_name ++ "': "
                  ++ exc_msg e) ;;;
       ret (entries ++ [err_entry pos_name e])%list).

Fixpoint process_loop (c : ctx) (items : list pyval) (entries : list pyval) : M (list pyval) :=
  match items with
  | [] => ret entries
  | it :: rest =>
      entries <- process_one c it entries ;;
      process_loop c rest entries
  end.

(** Everything of [process_positions] before the tool check: the
    settings, the cache directory and whether a push is requested. *)
Definition prepare (oid : string) (positions dflts : pyval) (dry : bool)
    : M (ctx * list pyval * bool) :=
  cache_dir_v <- lift (py_get dflts "cache_dir" (VStr "/var/cache/talos-sync")) ;;
  iso_dir <- lift (py_get dflts "proxmox_default_iso_dir" (VStr "/var/lib/vz/template/iso")) ;;
  cdir <- path_arg cache_dir_v ;;
  makedirs cdir ;;;
  push_defaults0 <- lift (py_get dflts "push" (VDict [])) ;;
  let push_defaults := py_or push_defaults0 (VDict []) in
  enabled <- lift (py_get push_defaults "enabled" (VBool false)) ;;
  ropts <- lift (py_get push_defaults "rsync_opts" (VStr "-av --progress --inplace")) ;;
  sopts <- lift (py_get push_defaults "ssh_opts" (VStr "-o BatchMode=yes")) ;;
  prefer <- lift (py_get push_defaults "prefer_decompressed" (VBool false)) ;;
  items <- lift (py_iter positions) ;;
  need_push <- lift (any_requests_push (truthy enabled) items) ;;
  ret ({| orderid := oid; defaults := dflts; dry_run := dry; cache_dir := cdir;
          proxmox_default_iso_dir := iso_dir; push_enabled_default := truthy enabled;
          rsync_opts := ropts; ssh_opts := sopts;
          prefer_decompressed_default := truthy prefer |}, items, need_push).

(** The tool check in front of the loop. *)
Definition check_push_tools (need_push dry : bool) : M unit :=
  if (need_push && negb dry)%bool then
    r <- ensure_tools_for_push ;;
    let '(ok, msg) := r in
    if negb ok then raise (RuntimeError msg) else ret tt
  else ret tt.

Definition process_positions (oid : string) (positions dflts : pyval) (dry : bool)
    : M (list pyval) :=
  p <- prepare oid positions dflts dry ;;
  let '(c, items, need_push) := p in
  check_push_tools need_push dry ;;;
  process_loop c items [].

(** *** Cache management, with effects *)

(** [try: os.listdir(d)  except FileNotFoundError: return []] *)
Definition listdir_or_missing (d : string) : M (option (list string)) :=
  try_except (l <- listdir d ;; ret (Some l))
    (fun e => if String.eqb (exc_class e) "FileNotFoundError" then ret None else raise e).

Definition plan_cache_cleanup (cdir : string) (keep_versions : Z) : M (list string) :=
  if keep_versions <=? 0 then ret []
  else
    listing <- listdir_or_missing cdir ;;
    match listing with
    | None => ret []
    | Some entries =>
        fun w => (plan_from_listing (path_exists w) cdir keep_versions entries, w)
    end.

Fixpoint execute_cache_cleanup_loop (paths : list string) (removed : list string)
    : M (list string) :=
  match paths with
  | [] => ret removed
  | p :: rest =>
      removed <-
        try_except
          (is_dir <- (fun w => (Ok (isdir E w p), w)) ;;
           (if is_dir : bool then rmtree p else remove_file p) ;;;
           ret (removed ++ [p])%list)
          (fun e =>
             if String.eqb (exc_class e) "FileNotFoundError" then ret removed
             else ret (removed ++ [("ERROR:" ++ p ++ ":" ++ exc_msg e)%string])%list) ;;
      execute_cache_cleanup_loop rest removed
  end.

Definition execute_cache_cleanup (paths_to_delete : list string) : M (list string) :=
  execute_cache_cleanup_loop paths_to_delete [].

Definition plan_full_purge (cdir : string) : M (list string) :=
  listing <- listdir_or_missing cdir ;;
  match listing with
  | None => ret []
  | Some entries => ret (map (path_join cdir) entries)
  end.

(** *** Manifest path resolution *)

(** [s.replace(old, new)] for a non-empty [old]; [skip] characters of a
    match just replaced are still to be passed over. *)
Fixpoint replace_from (old new s : string) (skip : nat) : string :=
  match s with
  | EmptyString => EmptyString
  | String a r =>
      match skip with
      | S k => replace_from old new r k
      | O =>
          if String.prefix old s
          then new ++ replace_from old new r (String.length old - 1)
          else String a (replace_from old new r 0)
      end
  end.

Definition str_replace (s old new : string) : string := replace_from old new s 0.

Definition manifest_path_for_order (oid : string) (manifest_cfg : pyval) : M string :=
  tmpl <- lift (py_get manifest_cfg "path_template" VNone) ;;
  if truthy tmpl then
    match tmpl with
    | VStr t => lift (str_format_orderid E t oid)
    | _ => raise (no_attribute tmpl "format")
    end
  else
    mdir <- lift (py_get manifest_cfg "dir" VNone) ;;
    if truthy mdir then
      d <- path_arg mdir ;;
      makedirs d ;;;
      ret (path_join d ("manifest-" ++ oid ++ ".yaml"))
    else
      p <- lift (py_get manifest_cfg "path" VNone) ;;
      if truthy p then
        has <- lift (py_contains "{orderid}" p) ;;
        match p with
        | VStr ps =>
            if has : bool then ret (str_replace ps "{orderid}" oid)
            else
              let '(root, ext) := splitext E ps in
              ret (root ++ "-" ++ oid ++ (if String.eqb ext "" then ".yaml" else ext))
        | _ =>
            if has : bool then raise (no_attribute p "replace")
            else raise (TypeError ("expected str, bytes or os.PathLike object, not "
                                   ++ type_name p))
        end
      else ret (abspath E ("./manifest-" ++ oid ++ ".yaml")).

(** *** main *)

(** The parsed command line. *)
Record args_t : Type := {
  args_config : string;
  args_orders : string;
  args_dry_run : bool;
  args_purge_cache : bool
}.

Fixpoint int_literal_acc (s : string) (acc : Z) (after_digit : bool) : option Z :=
  match s with
  | EmptyString => if after_digit then Some acc else None
  | String a r =>
      if is_digit a then int_literal_acc r (10 * acc + digit_value a) true
      else if (Ascii.eqb a "_" && after_digit)%bool then int_literal_acc r acc false
      else None
  end.

(** The longest prefix made of digits and underscores, and the rest. *)
Fixpoint span_literal (s : string) : string * string :=
  match s with
  | EmptyString => (EmptyString, EmptyString)
  | String a r =>
      if (is_digit a || Ascii.eqb a "_")%bool
      then let '(b, t) := span_literal r in (String a b, t)
      else (EmptyString, s)
  end.

Fixpoint count_digits (s : string) : nat :=
  match s with
  | EmptyString => O
  | String a r => if is_digit a then S (count_digits r) else count_digits r
  end.

(** [int(v)]: spaces around, a sign, digits with single underscores.  The
    digits are read first; a misplaced underscore is reported before the
    limit of 4300 digits, and the limit before anything that follows the
    digits. *)
Definition py_int (v : pyval) : result Z :=
  match v with
  | VInt z => Ok z
  | VBool b => Ok (if b then 1 else 0)
  | VStr s =>
      let t := strip s in
      let '(negative, d) := match t with
                            | String "-" d => (true, d)
                            | String "+" d => (false, d)
                            | _ => (false, t)
                            end in
      let '(body, rest) := span_literal d in
      let invalid := ValueError ("invalid literal for int() with base 10: " ++ repr_str s) in
      match int_literal_acc body 0 false with
      | None => Raise invalid
      | Some z =>
          if INT_MAX_STR_DIGITS <? Z.of_nat (count_digits body) then
            Raise (ValueError
                     ("Exceeds the limit (4300 digits) for integer string conversion: value has "
                      ++ string_of_Z (Z.of_nat (count_digits body))
                      ++ " digits; use sys.set_int_max_str_digits() to increase the limit"))
          else if String.eqb rest "" then Ok (if negative then - z else z)
          else Raise invalid
      end
  | _ => Raise (TypeError ("int() argument must be a string, a bytes-like object or a real number, not '"
                           ++ type_name v ++ "'"))
  end.

(** [len(v)] *)
Definition py_len (v : pyval) : result Z :=
  match v with
  | VList l => Ok (Z.of_nat (List.length l))
  | VDict d => Ok (Z.of_nat (List.length d))
  | VStr s => Ok (Z.of_nat (String.length s))
  | _ => Raise (TypeError ("object of type '" ++ type_name v ++ "' has no len()"))
  end.

Fixpoint print_lines (pre : string) (l : list string) : M unit :=
  match l with
  | [] => ret tt
  | x :: r => print (pre ++ x) ;;; print_lines pre r
  end.

(** The entry that replaces a failed order. *)
Definition order_err_entry (e : exc) : pyval :=
  VDict [ ("status", VStr "error");
          ("error", VStr ("order failed: " ++ exc_class e ++ ": " ++ exc_msg e)) ].

(** [process_positions] under the catch-all of [main]. *)
Definition order_entries (oid : string) (positions dflts : pyval) (dry : bool)
    : M (list pyval) :=
  try_except (process_positions oid positions dflts dry)
    (fun e =>
       print_err ("[" ++ oid ++ "] ORDER ERROR: " ++ exc_msg e) ;;;
       ret [order_err_entry e]).

(** One round of the loop over the orders. *)
Definition process_order (args : args_t) (dflts manifest_cfg : pyval)
    (cache_enabled : bool) (keep_versions : Z) (purge_before : bool) (order : pyval) : M unit :=
  oid_v <- lift (py_get order "orderid" (VStr "")) ;;
  let oid := strip (py_str oid_v) in
  customer <- lift (py_get order "customer" (VStr "")) ;;
  positions0 <- lift (py_get order "positions" (VList [])) ;;
  let positions := py_or positions0 (VList []) in
  if String.eqb oid "" then raise (ValueError "Each order must have a non-empty 'orderid'")
  else
    entries <- order_entries oid positions dflts (args_dry_run args) ;;
    manifest_path <- manifest_path_for_order oid manifest_cfg ;;
    now <- (fun w => (Ok (gmtime_now E w), w)) ;;
    positions_count <- lift (py_len positions) ;;
    let manifest_doc :=
      VDict [ ("generated_at", VStr now);
              ("order", VDict [ ("orderid", VStr oid);
                                ("customer", customer);
                                ("positions_count", VInt positions_count) ]);
              ("source_config", VStr (abspath E (args_config args)));
              ("source_orders", VStr (abspath E (args_orders args)));
              ("cache_policy", VDict [ ("enabled", VBool cache_enabled);
                                       ("keep_versions", VInt keep_versions);
                                       ("purge_before", VBool purge_before) ]);
              ("entries", VList entries) ] in
    makedirs (path_dirname manifest_path) ;;;
    if args_dry_run args then
      print (String nl "" ++ "[DRY-RUN] Manifest for order " ++ oid ++ " -> " ++ manifest_path) ;;;
      print (yaml_safe_dump E manifest_doc)
    else
      write_file manifest_path (yaml_safe_dump E manifest_doc) ;;;
      print (String nl "" ++ "Manifest written for order " ++ oid ++ ": " ++ manifest_path).

Fixpoint orders_loop (args : args_t) (dflts manifest_cfg : pyval)
    (cache_enabled : bool) (keep_versions : Z) (purge_before : bool) (orders : list pyval)
    : M unit :=
  match orders with
  | [] => ret tt
  | order :: rest =>
      process_order args dflts manifest_cfg cache_enabled keep_versions purge_before order ;;;
      orders_loop args dflts manifest_cfg cache_enabled keep_versions purge_before rest
  end.

(** [main], from the two loaded documents on: [cfg_loaded] and
    [orders_doc] are what [yaml.safe_load] returned. *)
Definition main (args : args_t) (cfg_loaded orders_doc : pyval) : M unit :=
  let cfg := py_or cfg_loaded (VDict []) in
  defaults0 <- lift (py_get cfg "defaults" (VDict [])) ;;
  let dflts := py_or defaults0 (VDict []) in
  manifest0 <- lift (py_get cfg "manifest" (VDict [])) ;;
  let manifest_cfg := py_or manifest0 (VDict []) in
  orders_list <-
    match orders_doc with
    | VDict d =>
        match assoc "orders" d with
        | Some l => ret l
        | None =>
            raise (ValueError "orders.yaml must be a list of orders or a dict with key 'orders'")
        end
    | VList _ => ret orders_doc
    | _ => raise (ValueError "orders.yaml must be a list of orders or a dict with key 'orders'")
    end ;;
  cache_dir_v <- lift (py_get dflts "cache_dir" (VStr "/var/cache/talos-sync")) ;;
  cdir <- path_arg cache_dir_v ;;
  makedirs cdir ;;;
  cache_policy0 <- lift (py_get dflts "cache_policy" (VDict [])) ;;
  let cache_policy := py_or cache_policy0 (VDict []) in
  enabled <- lift (py_get cache_policy "enabled" (VBool true)) ;;
  let cache_enabled := truthy enabled in
  keep_v <- lift (py_get cache_policy "keep_versions" (VInt 3)) ;;
  keep_versions <- lift (py_int keep_v) ;;
  purge_v <- lift (py_get cache_policy "purge_before" (VBool false)) ;;
  let purge_before := (args_purge_cache args || truthy purge_v)%bool in
  (if purge_before then
     purge_list <- plan_full_purge cdir ;;
     if args_dry_run args then
       match purge_list with
       | [] => ret tt
       | _ =>
           print "[DRY-RUN] Full cache purge plan (would remove):" ;;;
           print_lines "  - " purge_list
       end
     else
       match purge_list with
       | [] => ret tt
       | _ =>
           print "Purging cache directory contents..." ;;;
           removed <- execute_cache_cleanup purge_list ;;
           print_lines "  removed: " removed
       end
   else ret tt) ;;;
  orders <- lift (py_iter orders_list) ;;
  orders_loop args dflts manifest_cfg cache_enabled keep_versions purge_before orders ;;;
  if cache_enabled then
    cleanup_plan <- plan_cache_cleanup cdir keep_versions ;;
    if args_dry_run args then
      match cleanup_plan with
      | [] => ret tt
      | _ =>
          print (String nl "" ++ "[DRY-RUN] Cache cleanup plan (would remove):") ;;;
          print_lines "  - " cleanup_plan
      end
    else
      match cleanup_plan with
      | [] => ret tt
      | _ =>
          print (String nl "" ++ "Cache cleanup: removing old artifacts...") ;;;
          removed <- execute_cache_cleanup cleanup_plan ;;
          print_lines "  removed: " removed
      end
  else ret tt.

End WithEnv.

(** ** Vocabulary of the statements *)

(** What a decimal digit stands for. *)
Definition digit_number (a : ascii) : Z :=
  match a with
  | "0" => 0 | "1" => 1 | "2" => 2 | "3" => 3 | "4" => 4
  | "5" => 5 | "6" => 6 | "7" => 7 | "8" => 8 | "9" => 9
  | _ => 0
  end%char.

(** The number that a string of decimal digits writes, by place value:
    each digit times the power of ten of its place. *)
Fixpoint numeral (s : string) : Z :=
  match s with
  | EmptyString => 0
  | String a r => digit_number a * 10 ^ Z.of_nat (String.length r) + numeral r
  end.

(** A non-empty string of decimal digits. *)
Definition digits (s : string) : bool :=
  (negb (String.eqb s "") && all_digits s)%bool.

(** A string that is short enough for [int]: at most 4300 characters. *)
Definition fits (s : string) : bool :=
  Z.of_nat (String.length s) <=? INT_MAX_STR_DIGITS.

(** A number as [int] converts it: between 1 and 4300 decimal digits. *)
Definition number (s : string) : bool := (digits s && fits s)%bool.

(** [n] times the character [c]. *)
Fixpoint repeat_char (n : nat) (c : ascii) : string :=
  match n with
  | O => ""
  | S k => String c (repeat_char k c)
  end.

Fixpoint rep_v (n : nat) : string :=
  match n with
  | O => ""
  | S k => String "v" (rep_v k)
  end.

(** The tag [v..vMAJOR.MINOR.PATCH] with an optional [-PRERELEASE]. *)
Definition tag_of (nv : nat) (d1 d2 d3 : string) (pre : option string) : string :=
  rep_v nv ++ d1 ++ "." ++ d2 ++ "." ++ d3
  ++ match pre with None => "" | Some p => "-" ++ p end.

(** The core that the key function hands to [_SEMVER_CORE]. *)
Definition core_of (tag : string) : string := fst (split_once "-" (lstrip_char "v" tag)).

(** A tag whose core is MAJOR.MINOR.PATCH with a number of more than 4300
    digits among the three. *)
Definition overlong (tag : string) : bool :=
  match _SEMVER_CORE (core_of tag) with
  | Some (g1, g2, g3) => negb (fits g1 && fits g2 && fits g3)
  | None => false
  end.

(** The combinations the locator accepts. *)
Definition accepted (platform image_format : pyval) : bool :=
  ((str_eq platform "nocloud"
    && (str_eq image_format "iso" || str_eq image_format "raw"
        || str_eq image_format "raw.xz" || str_eq image_format "rawxz"))
   || (str_eq platform "metal" && str_eq image_format "iso"))%bool.

Definition factory_base (schematic_id version : pyval) : string :=
  "https://factory.talos.dev/image/" ++ py_str schematic_id ++ "/" ++ py_str version.

Definition secureboot_mark (secureboot : bool) : string :=
  if secureboot then "-secureboot" else "".

(** The three combinations that C5 calls supported. *)
Definition documented (platform image_format : pyval) : bool :=
  ((str_eq platform "nocloud" && (str_eq image_format "iso" || str_eq image_format "raw.xz"))
   || (str_eq platform "metal" && str_eq image_format "iso"))%bool.

(** [x] is not older than [y]: the order in which a newest-first list
    may hold them. *)
Definition not_older {A : Type} (x y : key * A) : Prop := key_ltb (fst x) (fst y) = false.

(** *** Retention, said declaratively *)

(** What the scan keeps of one directory entry: its family (the artifact
    tail), its version tag and its full path.  Sidecars and foreign names
    are dropped. *)
Definition scan_name (cache_dir name : string) : option (string * (string * string)) :=
  if endswith name ".sha256" then None
  else match _FILE_RE name with
       | Some (version_tag, tail) => Some (tail, (version_tag, path_join cache_dir name))
       | None => None
       end.

Definition scanned (cache_dir : string) (entries : list string)
    : list (string * (string * string)) :=
  flat_map (fun name => match scan_name cache_dir name with
                        | Some e => [e]
                        | None => []
                        end) entries.

(** The members of a family, in listing order. *)
Definition family (tail : string) (sc : list (string * (string * string)))
    : list (string * string) :=
  map snd (List.filter (fun e => String.eqb (fst e) tail) sc).

(** The distinct elements of a list, in order of first appearance. *)
Definition first_occurrences (l : list string) : list string :=
  fold_left (fun acc t => if existsb (String.eqb t) acc then acc else (acc ++ [t])%list) l [].

(** The sort key of a version tag, where it has one. *)
Definition semver_total (tag : string) : key :=
  match _parse_semver_for_sort tag with
  | Some k => k
  | None => (0, 0, 0, 0, "")
  end.

Definition keyed (items : list (string * string)) : list (key * (string * string)) :=
  map (fun x => (semver_total (fst x), x)) items.

(** A family sorted by version key, newest first. *)
Definition newest_first (items : list (string * string)) : list (string * string) :=
  map snd (sort_desc (keyed items)).

(** A victim and, when it exists, its sidecar. *)
Definition with_sidecar (on_disk : string -> bool) (victim : string * string) : list string :=
  snd victim :: (if on_disk (snd victim ++ ".sha256") then [snd victim ++ ".sha256"] else []).

(** The plan: per family, everything past the first [keep] entries of the
    newest-first order. *)
Definition cleanup_spec (on_disk : string -> bool) (cache_dir : string) (keep : nat)
    (entries : list string) : list string :=
  let sc := scanned cache_dir entries in
  flat_map (fun tail =>
              flat_map (with_sidecar on_disk) (skipn keep (newest_first (family tail sc))))
           (first_occurrences (map fst sc)).

(** Every version found by the scan has a key. *)
Definition versions_convert (cache_dir : string) (entries : list string) : bool :=
  forallb (fun e => negb (overlong (fst (snd e)))) (scanned cache_dir entries).

(** The name under which [process_positions] stores the image
    [basename] of [version]. *)
Definition cache_name (version basename : string) : string :=
  "talos-" ++ version ++ "-" ++ basename.

(** The versions in the order in which the plan sorts them: family by
    family. *)
Definition versions_in_plan_order (cache_dir : string) (entries : list string)
    : list (string * string) :=
  let sc := scanned cache_dir entries in
  flat_map (fun tail => family tail sc) (first_occurrences (map fst sc)).

(** What planning comes to for a listing: the plan or, when a version has
    a number too long for [int], the exception of the first such number
    that a sort meets. *)
Definition planned (on_disk : string -> bool) (cache_dir : string) (keep : nat)
    (entries : list string) : result (list string) :=
  if versions_convert cache_dir entries
  then Ok (cleanup_spec on_disk cache_dir keep entries)
  else Raise (sort_key_error fst (versions_in_plan_order cache_dir entries)).



(** *** Version specifications *)

(** A version specification without a type: absent, or a mapping that
    lacks the key. *)
Definition untyped_spec (spec : pyval) : bool :=
  match spec with
  | VNone => true
  | VDict d => match assoc "type" d with None => true | Some _ => false end
  | _ => false
  end.

Definition known_type (t : pyval) : bool :=
  (str_eq t "exact" || str_eq t "latest" || str_eq t "latest-in-minor")%bool.

(** The variant [latest], said by itself: one GET to the latest-release
    endpoint, whose [tag_name] is the version. *)
Definition resolve_latest (E : Env) : M (pyval * string) :=
  fun w =>
    let w' := add_log (IoHttpJson GITHUB_LATEST) w in
    match http_json_resp E w GITHUB_LATEST with
    | Raise e => (Raise e, w')
    | Ok data =>
        match py_get data "tag_name" VNone with
        | Raise e => (Raise e, w')
        | Ok tag =>
            if truthy tag then (Ok (tag, "latest"), w')
            else (Raise (RuntimeError "Failed to resolve latest version from GitHub"), w')
        end
    end.

(** *** A sample environment

    Nothing fails locally; GitHub answers with v1.11.0 and two tags of
    v1.10; the factory returns the id abc123; every download is the five
    bytes IMAGE; rsync is installed or not as [have_rsync] says.  The
    digest is a stand-in that tags the content. *)
Definition demo_env (have_rsync : bool) : Env := {|
  fs_fault := fun _ _ => None;
  http_json_resp := fun _ url =>
    if String.eqb url GITHUB_LATEST then Ok (VDict [("tag_name", VStr "v1.11.0")])
    else Ok (VList [VDict [("name", VStr "v1.10.1")]; VDict [("name", VStr "v1.10.2-rc.1")]]);
  http_post_resp := fun _ _ _ => Ok (VDict [("id", VStr "abc123")]);
  http_fetch := fun _ _ => Complete "IMAGE";
  run_resp := fun _ cmd =>
    if (negb have_rsync && bool_decide (cmd = ["bash"; "-lc"; "command -v rsync"]))%bool
    then Ok (1, "", "") else Ok (0, "", "");
  listdir_resp := fun _ _ => Ok [];
  isdir := fun _ _ => false;
  sha256_hex := fun c => "digest-of-" ++ c;
  HAVE_LZMA := true;
  lzma_decode := fun c => Complete c;
  gmtime_now := fun _ => "2024-01-01T00:00:00Z";
  yaml_safe_dump := py_repr;
  str_format_orderid := fun t _ => Ok t;
  splitext := fun p => (p, "");
  abspath := fun p => p
|}.

(** An empty disk and no call made yet. *)
Definition empty_world : world := {| files := ∅; log := [] |}.

(** *** Items *)

(** An item as the loop expects it: a mapping. *)
Definition is_mapping (v : pyval) : bool :=
  match v with VDict _ => true | _ => false end.

(** [it.get("name") or "<unnamed>"] *)
Definition pos_name_of (it : pyval) : pyval :=
  match it with
  | VDict d => py_or (match assoc "name" d with Some n => n | None => VNone end)
                     (VStr "<unnamed>")
  | _ => VStr "<unnamed>"
  end.

(** The line that the handler of an item prints. *)
Definition item_error_line (c : ctx) (it : pyval) (e : exc) : io :=
  IoPrintErr ("[" ++ orderid c ++ "] ERROR in position '" ++ py_str (pos_name_of it) ++ "': "
              ++ exc_msg e).

(** [E] with a GitHub that answers [tags] to every listing. *)
Definition with_tags (E : Env) (tags : pyval) : Env := {|
  fs_fault := fs_fault E;
  http_json_resp := fun _ _ => Ok tags;
  http_post_resp := http_post_resp E;
  http_fetch := http_fetch E;
  run_resp := run_resp E;
  listdir_resp := listdir_resp E;
  isdir := isdir E;
  sha256_hex := sha256_hex E;
  HAVE_LZMA := HAVE_LZMA E;
  lzma_decode := lzma_decode E;
  gmtime_now := gmtime_now E;
  yaml_safe_dump := yaml_safe_dump E;
  str_format_orderid := str_format_orderid E;
  splitext := splitext E;
  abspath := abspath E |}.

(** *** A sample batch: the middle item asks for an exact version and
    gives none. *)
Definition sample_ctx : ctx := {|
  orderid := "o1"; defaults := VDict []; dry_run := false;
  cache_dir := "/var/cache/talos-sync";
  proxmox_default_iso_dir := VStr "/var/lib/vz/template/iso";
  push_enabled_default := false;
  rsync_opts := VStr "-av --progress --inplace"; ssh_opts := VStr "-o BatchMode=yes";
  prefer_decompressed_default := false |}.

Definition sample_item (name : string) : pyval :=
  VDict [("name", VStr name); ("product", VStr "talos"); ("schematic_id", VStr "s1");
         ("version", VDict [("type", VStr "exact"); ("value", VStr "v1.11.0")])].

Definition sample_bad_item : pyval :=
  VDict [("name", VStr "second"); ("product", VStr "talos"); ("schematic_id", VStr "s1");
         ("version", VDict [("type", VStr "exact")])].

(** The name and the status of an entry. *)
Definition entry_brief (entry : pyval) : pyval * pyval :=
  match entry with
  | VDict d => (match assoc "name" d with Some n => n | None => VNone end,
                match assoc "status" d with Some s => s | None => VStr "done" end)
  | _ => (VNone, VNone)
  end.

(** *** Fetching *)

(** The checksum recorded in an entry. *)
Definition entry_sha256 (entry : entry_t) : option pyval :=
  match assoc "download" entry with
  | Some (VDict d) => assoc "sha256" d
  | _ => None
  end.

(** An entry with the [download] dictionary that the fetch fills in. *)
Definition has_download (entry : entry_t) : bool :=
  match assoc "download" entry with
  | Some (VDict _) => true
  | _ => false
  end.

(** A call that goes over the network. *)
Definition is_transfer (ev : io) : bool :=
  match ev with
  | IoHttpDownload _ | IoHttpJson _ | IoHttpPost _ _ => true
  | _ => false
  end.

(** The local disk never refuses a call. *)
Definition no_fault (E : Env) : Prop := forall w ev, fs_fault E w ev = None.

(** *** A sample fetch *)

Definition sample_url : string :=
  "https://factory.talos.dev/image/s1/v1.11.0/nocloud-amd64.iso".

Definition sample_path : string := "/var/cache/talos-sync/talos-v1.11.0-nocloud-amd64.iso".

Definition sample_entry : entry_t :=
  [ ("name", VStr "first");
    ("download", VDict [("path", VStr sample_path); ("done", VBool false);
                        ("sha256", VNone); ("size_bytes", VNone)]) ].

(** A disk that already holds the artifact. *)
Definition cached_world : world := {| files := {[ sample_path := "IMAGE" ]}; log := [] |}.

(** The downloads among the calls made after the first [n]. *)
Definition downloads_after (n : nat) (w : world) : list io :=
  List.filter (fun ev => match ev with IoHttpDownload _ => true | _ => false end)
    (skipn n (log w)).

(** The checksums recorded in the entries of a result. *)
Definition recorded_checksums (r : result (list pyval)) : list (option pyval) :=
  match r with
  | Ok entries =>
      map (fun en => match en with VDict d => entry_sha256 d | _ => None end) entries
  | Raise _ => []
  end.

(** *** Push tools *)

(** The probe for one tool. *)
Definition tool_check (tool : string) : list string := ["bash"; "-lc"; "command -v " ++ tool].

(** The probe fails, whenever it is made. *)
Definition tool_absent (E : Env) (tool : string) : Prop :=
  forall w, exists rc out err, run_resp E w (tool_check tool) = Ok (rc, out, err) /\ rc <> 0.

Definition tool_present (E : Env) (tool : string) : Prop :=
  forall w, exists out err, run_resp E w (tool_check tool) = Ok (0, out, err).

(** The value under [k] in the mapping [d], or [dflt]. *)
Definition get_or (d : list (string * pyval)) (k : string) (dflt : pyval) : pyval :=
  match assoc k d with Some x => x | None => dflt end.

(** The settings that [process_positions] takes from the defaults [d] of
    the configuration, with [cdir] the cache directory and [pd] the push
    defaults found there. *)
Definition settings_of (oid : string) (d : list (string * pyval)) (dry : bool)
    (cdir : string) (pd : list (string * pyval)) : ctx :=
  {| orderid := oid; defaults := VDict d; dry_run := dry; cache_dir := cdir;
     proxmox_default_iso_dir :=
       get_or d "proxmox_default_iso_dir" (VStr "/var/lib/vz/template/iso");
     push_enabled_default := truthy (get_or pd "enabled" (VBool false));
     rsync_opts := get_or pd "rsync_opts" (VStr "-av --progress --inplace");
     ssh_opts := get_or pd "ssh_opts" (VStr "-o BatchMode=yes");
     prefer_decompressed_default := truthy (get_or pd "prefer_decompressed" (VBool false)) |}.

(** The defaults [d] name the cache directory [cdir], which can be made,
    and hold the push defaults [pd] (none when the entry is absent or
    falsy). *)
Definition defaults_give (E : Env) (w : world) (d : list (string * pyval))
    (cdir : string) (pd : list (string * pyval)) : Prop :=
  get_or d "cache_dir" (VStr "/var/cache/talos-sync") = VStr cdir
  /\ cdir <> ""
  /\ fs_fault E w (IoMakedirs cdir) = None
  /\ py_or (get_or d "push" (VDict [])) (VDict []) = VDict pd.

(** An item with a [push] that is no mapping, in front of one that
    requests a push. *)
Definition null_push_item : pyval := VDict [("name", VStr "odd"); ("push", VNone)].

(** [tool] is the first of rsync and ssh that is not installed. *)
Definition missing_tool (E : Env) (tool : string) : Prop :=
  (tool = "rsync" /\ tool_absent E "rsync")
  \/ (tool = "ssh" /\ tool_present E "rsync" /\ tool_absent E "ssh").

(** The line that the handler of an order prints. *)
Definition order_error_line (oid : string) (e : exc) : io :=
  IoPrintErr ("[" ++ oid ++ "] ORDER ERROR: " ++ exc_msg e).

Definition is_probe (ev : io) : bool :=
  match ev with
  | IoRun ["bash"; "-lc"; cmd] => startswith cmd "command -v "
  | _ => false
  end.

(** *** A sample run of two orders: the first pushes, the second does not *)

Definition push_item : pyval :=
  VDict [("name", VStr "pushed"); ("product", VStr "talos"); ("schematic_id", VStr "s1");
         ("version", VDict [("type", VStr "exact"); ("value", VStr "v1.11.0")]);
         ("push", VDict [("enabled", VBool true);
                         ("hosts", VList [VDict [("host", VStr "pve1")]])])].

Definition two_orders : pyval :=
  VList [ VDict [("orderid", VStr "o1"); ("positions", VList [push_item])];
          VDict [("orderid", VStr "o2"); ("positions", VList [sample_item "plain"])] ].

Definition sample_args (dry : bool) : args_t :=
  {| args_config := "config.yaml"; args_orders := "orders.yaml";
     args_dry_run := dry; args_purge_cache := false |}.

(** The manifest written for an order, if any. *)
Definition manifest_of (w : world) (oid : string) : string :=
  match files w !! ("./manifest-" ++ oid ++ ".yaml") with
  | Some content => content
  | None => ""
  end.

(** *** Planning-only runs *)

(** The calls a planning-only run may make: ensuring a directory,
    reading a release listing, listing the cache, printing. *)
Definition planning_io (ev : io) : bool :=
  match ev with
  | IoMakedirs _ | IoHttpJson _ | IoListdir _ | IoPrint _ | IoPrintErr _ => true
  | _ => false
  end.

(** [m] leaves every file as it is and makes only calls that [P] allows. *)
Definition effects_within (P : io -> bool) {A : Type} (m : M A) : Prop :=
  forall w,
    files (snd (m w)) = files w
    /\ exists evs, log (snd (m w)) = (log w ++ evs)%list /\ forallb P evs = true.



(** *** A sample plan *)

(** An item without version: the latest release is asked for. *)
Definition latest_item : pyval :=
  VDict [("name", VStr "newest"); ("product", VStr "talos");
         ("customization", VDict [("systemExtensions", VDict [])])].

(** An item with a schematic id and an empty [customization]. *)
Definition null_customization_item : pyval :=
  VDict [("name", VStr "bare"); ("product", VStr "talos"); ("schematic_id", VStr "s1");
         ("customization", VNone);
         ("version", VDict [("type", VStr "exact"); ("value", VStr "v1.11.0")])].

(** An item whose exact version holds a slash. *)
Definition slash_item : pyval :=
  VDict [("name", VStr "branch"); ("product", VStr "talos"); ("schematic_id", VStr "s1");
         ("version", VDict [("type", VStr "exact"); ("value", VStr "rel/v1.0.0")])].



(** *** A sample cache *)

(** Three versions of one artifact, each with its sidecar. *)
Definition sample_cache_names : list string :=
  ["talos-v1.3.0-nocloud-amd64.iso"; "talos-v1.1.0-nocloud-amd64.iso";
   "talos-v1.2.0-nocloud-amd64.iso"].

Definition sample_cache_env : Env := {|
  fs_fault := fun _ _ => None;
  http_json_resp := fun _ _ => Ok VNone;
  http_post_resp := fun _ _ _ => Ok VNone;
  http_fetch := fun _ _ => Complete "";
  run_resp := fun _ _ => Ok (0, "", "");
  listdir_resp := fun _ _ => Ok sample_cache_names;
  isdir := fun _ _ => false;
  sha256_hex := fun c => "digest-of-" ++ c;
  HAVE_LZMA := true;
  lzma_decode := fun c => Complete c;
  gmtime_now := fun _ => "2024-01-01T00:00:00Z";
  yaml_safe_dump := py_repr;
  str_format_orderid := fun t _ => Ok t;
  splitext := fun p => (p, "");
  abspath := fun p => p
|}.

Definition sample_cache_world : world :=
  {| files := {[ "/var/cache/talos-sync/talos-v1.1.0-nocloud-amd64.iso" := "A";
                 "/var/cache/talos-sync/talos-v1.1.0-nocloud-amd64.iso.sha256" := "digest-of-A";
                 "/var/cache/talos-sync/talos-v1.2.0-nocloud-amd64.iso" := "B";
                 "/var/cache/talos-sync/talos-v1.3.0-nocloud-amd64.iso" := "C" ]};
     log := [] |}.

(** *** Pushing to hosts *)

(** A host entry that [push_file_to_hosts] can serve: a mapping with a
    [host], whose target directory (its own or the default) is a string. *)
Definition push_target (default_iso_dir h : pyval) : bool :=
  match h with
  | VDict d =>
      match assoc "host" d,
            (match assoc "iso_dir" d with Some x => x | None => default_iso_dir end) with
      | Some _, VStr _ => true
      | _, _ => false
      end
  | _ => false
  end.

(** The [host] of a host entry or of a push result. *)
Definition host_of (v : pyval) : option pyval :=
  match v with
  | VDict d => assoc "host" d
  | _ => None
  end.

Definition status_of (v : pyval) : option pyval :=
  match v with
  | VDict d => assoc "status" d
  | _ => None
  end.

Definition reached_rsync (r : pyval) : bool :=
  match status_of r with
  | Some (VStr "mkdir-failed") => false
  | _ => true
  end.

(** The two remote commands of a push. *)
Definition is_mkdir_run (ev : io) : bool :=
  match ev with
  | IoRun ["bash"; "-lc"; c] => startswith c "ssh "
  | _ => false
  end.

Definition is_rsync_run (ev : io) : bool :=
  match ev with
  | IoRun ["bash"; "-lc"; c] => startswith c "rsync "
  | _ => false
  end.

(** Subprocesses can be started. *)
Definition runs_start (E : Env) : Prop :=
  forall w cmd, exists r, run_resp E w cmd = Ok r.

Definition sample_hosts : list pyval :=
  [VDict [("host", VStr "pve1")];
   VDict [("host", VStr "pve2"); ("iso_dir", VStr "/mnt/iso")]].

(** The host and the target directory of a host entry. *)
Definition target_host (h : pyval) : pyval :=
  match host_of h with Some x => x | None => VNone end.

Definition target_dir (default_iso_dir h : pyval) : pyval :=
  match h with
  | VDict d => get_or d "iso_dir" default_iso_dir
  | _ => default_iso_dir
  end.

(** A string between the quotes of [shlex_quote]. *)
Definition quoted (v : pyval) : string :=
  match shlex_quote v with Ok q => q | Raise _ => "" end.

(** The two commands that serve the host entry [h]. *)
Definition mkdir_call (ssh_opts default_iso_dir h : pyval) : list string :=
  ["bash"; "-lc";
   "ssh " ++ py_str ssh_opts ++ " " ++ py_str (target_host h) ++ " 'mkdir -p "
   ++ quoted (target_dir default_iso_dir h) ++ "'"].

Definition rsync_call (local_file : string) (rsync_opts default_iso_dir h : pyval)
    : list string :=
  ["bash"; "-lc";
   "rsync " ++ py_str rsync_opts ++ " " ++ quoted (VStr local_file) ++ " "
   ++ py_str (target_host h) ++ ":" ++ quoted (target_dir default_iso_dir h) ++ "/"].

(** The return code and the error output of an answer. *)
Definition rc_of (r : Z * string * string) : Z := fst (fst r).
Definition stderr_of (r : Z * string * string) : string := snd r.

(** What a host entry is reported with, when commands are answered by
    [answer]: by the return code of its [mkdir] and, if that is zero, of
    its [rsync]. *)
Definition push_outcome (answer : list string -> Z * string * string) (local_file : string)
    (default_iso_dir rsync_opts ssh_opts h : pyval) : pyval :=
  let a1 := answer (mkdir_call ssh_opts default_iso_dir h) in
  let a2 := answer (rsync_call local_file rsync_opts default_iso_dir h) in
  if rc_of a1 =? 0
  then host_result (target_host h) (if rc_of a2 =? 0 then "ok" else "rsync-failed")
         (stderr_of a2)
  else host_result (target_host h) "mkdir-failed" (stderr_of a1).

(** The commands run for a host entry. *)
Definition push_calls (answer : list string -> Z * string * string) (local_file : string)
    (default_iso_dir rsync_opts ssh_opts h : pyval) : list io :=
  IoRun (mkdir_call ssh_opts default_iso_dir h)
  :: (if rc_of (answer (mkdir_call ssh_opts default_iso_dir h)) =? 0
      then [IoRun (rsync_call local_file rsync_opts default_iso_dir h)]
      else []).

(** Answers of a remote side where the directory of [pve2] cannot be
    made and everything else works. *)
Definition pve2_refuses (cmd : list string) : Z * string * string :=
  match cmd with
  | ["bash"; "-lc"; c] =>
      if (startswith c "ssh " && contains_sub " pve2 " c)%bool
      then (1, "", "mkdir: cannot create directory")
      else (0, "", "")
  | _ => (0, "", "")
  end.

(** [E] with commands answered by [answer], whatever was done before. *)
Definition with_runs (E : Env) (answer : list string -> Z * string * string) : Env := {|
  fs_fault := fs_fault E;
  http_json_resp := http_json_resp E;
  http_post_resp := http_post_resp E;
  http_fetch := http_fetch E;
  run_resp := fun _ cmd => Ok (answer cmd);
  listdir_resp := listdir_resp E;
  isdir := isdir E;
  sha256_hex := sha256_hex E;
  HAVE_LZMA := HAVE_LZMA E;
  lzma_decode := lzma_decode E;
  gmtime_now := gmtime_now E;
  yaml_safe_dump := yaml_safe_dump E;
  str_format_orderid := str_format_orderid E;
  splitext := splitext E;
  abspath := abspath E |}.

(** *** Reading a quoted word back *)

(** How a POSIX shell reads a word made of quoted pieces: between single
    quotes every character stands for itself; between double quotes every
    character does, except the backslash, the dollar sign and the
    backquote, which this reader does not interpret.  Unquoted characters
    are not read either. *)
Inductive sh_mode : Type := ShBare | ShSingle | ShDouble.

Fixpoint sh_word (m : sh_mode) (s : string) : option string :=
  match s with
  | EmptyString => match m with ShBare => Some EmptyString | _ => None end
  | String a r =>
      match m with
      | ShBare =>
          if Ascii.eqb a "'" then sh_word ShSingle r
          else if Ascii.eqb a dquote then sh_word ShDouble r
          else None
      | ShSingle =>
          if Ascii.eqb a "'" then sh_word ShBare r
          else option_map (String a) (sh_word ShSingle r)
      | ShDouble =>
          if Ascii.eqb a dquote then sh_word ShBare r
          else if (Ascii.eqb a (ascii_of_N 92) || Ascii.eqb a "$" || Ascii.eqb a "`")%bool then None
          else option_map (String a) (sh_word ShDouble r)
      end
  end.
(** *** Manifest configuration *)

(** [cfg.get(k)] of a mapping given by its items. *)
Definition cfg_value (k : string) (cfg : list (string * pyval)) : pyval :=
  match assoc k cfg with Some x => x | None => VNone end.
(** *** Which items reach the manifest *)

(** The [name] of a manifest entry. *)
Definition entry_name (v : pyval) : option pyval :=
  match v with
  | VDict d => assoc "name" d
  | _ => None
  end.

(** An item of another product: its [product], lower-cased, is not
    [talos].  A product that is not a string is not passed over: the
    item fails. *)
Definition skipped (it : pyval) : bool :=
  match it with
  | VDict d =>
      match py_lower (py_or (cfg_value "product" d) (VStr "")) with
      | Ok l => negb (String.eqb l "talos")
      | Raise _ => false
      end
  | _ => false
  end.

Definition mixed_items : list pyval :=
  [VDict [("name", VStr "router"); ("product", VStr "openwrt")];
   VDict [("name", VStr "node"); ("product", VStr "Talos");
          ("version", VDict [("type", VStr "exact"); ("value", VStr "v1.11.0")])];
   VDict [("product", VStr "talos"); ("schematic_id", VStr "abc")]].
(** *** The manifest of an order *)

(** [str(order.get("orderid", "")).strip()] *)
Definition order_id (d : list (string * pyval)) : string :=
  strip (py_str (match assoc "orderid" d with Some x => x | None => VStr "" end)).

(** [order.get("positions", []) or []] *)
Definition order_positions (d : list (string * pyval)) : pyval :=
  py_or (match assoc "positions" d with Some x => x | None => VList [] end) (VList []).

(** The entries of an order: those of its positions or, when
    [process_positions] raised, the one entry that says so. *)
Definition entries_or_error (r : result (list pyval)) : list pyval :=
  match r with
  | Ok entries => entries
  | Raise e => [order_err_entry e]
  end.

Definition broken_order : list (string * pyval) :=
  [("orderid", VStr " o7 "); ("positions", VStr "oops")].
(** *** Decompression on request *)

(** Whether the item asks for the raw image to be unpacked. *)
Definition wants_decompress (it image_format : pyval) : result bool :=
  if (str_eq image_format "raw.xz" || str_eq image_format "rawxz")%bool
  then match py_get it "decompress_raw" (VBool false) with
       | Raise e => Raise e
       | Ok d => Ok (truthy d)
       end
  else Ok false.

Definition xz_item : pyval :=
  VDict [("name", VStr "disk"); ("decompress_raw", VBool true)].

Definition xz_path : string := "/var/cache/talos-sync/talos-v1.11.0-nocloud-amd64.raw.xz".

Definition xz_world : world := {| files := {[ xz_path := "PACKED" ]}; log := [] |}.
(** *** The files an item may touch *)

(** The paths that a call hands to the disk to be written, renamed or
    removed. *)
Definition changed_paths (ev : io) : list string :=
  match ev with
  | IoWrite p _ => [p]
  | IoReplace src dst => [src; dst]
  | IoRemove p => [p]
  | IoRmtree p => [p]
  | _ => []
  end.

(** Whatever [m] does and however it ends, the calls it makes write,
    rename and remove nothing but paths in [Q]. *)
Definition calls_within (Q : string -> Prop) {A : Type} (m : M A) : Prop :=
  forall w, exists evs,
    log (snd (m w)) = (log w ++ evs)%list
    /\ Forall (fun ev => Forall Q (changed_paths ev)) evs.

(** The file names that belong to a cached image: the image, its
    decompressed form, and for each the file in progress and the checksum
    file. *)
Definition artifacts_of (local_path : string) : list string :=
  [local_path; local_path ++ ".part"; local_path ++ ".sha256";
   strip_xz_suffix local_path; strip_xz_suffix local_path ++ ".part";
   strip_xz_suffix local_path ++ ".sha256"].

(** The file names of the images that can be cached under [cache_dir]. *)
Definition cache_artifact (cache_dir p : string) : Prop :=
  exists rest, In p (artifacts_of (path_join cache_dir ("talos-" ++ rest))).

(** An item whose exact version climbs out of the cache directory. *)
Definition dotdot_item : pyval :=
  VDict [("name", VStr "climber"); ("product", VStr "talos"); ("schematic_id", VStr "s1");
         ("version", VDict [("type", VStr "exact"); ("value", VStr "v1/../../../tmp/x")])].

(** * Properties *)

Example semver_key_ga : _semver_key "v1.11.0" = Some (1, 11, 0, 0, "").
Proof. reflexivity. Qed.

Example semver_key_beta : _semver_key "v1.11.0-beta.1" = Some (1, 11, 0, -1, "beta.1").
Proof. reflexivity. Qed.

Example semver_key_garbage : _semver_key "garbage" = Some (0, 0, 0, 0, "").
Proof. reflexivity. Qed.

Example sorted_rev_example :
  py_sorted_rev _semver_key ["v1.2.0"; "v1.10.0-rc.1"; "v1.10.0"; "v1.9.3"]
  = Some ["v1.10.0"; "v1.10.0-rc.1"; "v1.9.3"; "v1.2.0"].
Proof. reflexivity. Qed.

Example repr_examples :
  py_repr (VList [VStr "a'b"; VInt (-12); VNone; VDict [("k", VBool true)]])
  = "[" ++ String dquote "a'b" ++ String dquote ", -12, None, {'k': True}]".
Proof. reflexivity. Qed.

Example locate_example :
  build_asset_url (VStr "abc") (VStr "v1.11.0") (VStr "nocloud") (VStr "raw.xz") (VStr "amd64") true
  = Ok "https://factory.talos.dev/image/abc/v1.11.0/nocloud-amd64-secureboot.raw.xz".
Proof. reflexivity. Qed.

Example file_re_example :
  _FILE_RE "talos-v1.2.0-nocloud-amd64.iso" = Some ("v1.2.0", "nocloud-amd64.iso").
Proof. reflexivity. Qed.

Example plan_example :
  plan_from_listing (fun _ => true) "/c" 2
    ["talos-v1.2.0-nocloud-amd64.iso"; "talos-v1.3.0-nocloud-amd64.iso";
     "talos-v1.1.0-nocloud-amd64.iso"; "talos-v1.1.0-nocloud-amd64.iso.sha256"]
  = Ok ["/c/talos-v1.1.0-nocloud-amd64.iso"; "/c/talos-v1.1.0-nocloud-amd64.iso.sha256"].
Proof. reflexivity. Qed.

Example dirname_examples :
  (path_dirname "/a/b/c", path_dirname "abc", path_dirname "/abc", path_dirname "a//b", path_dirname "//x")
  = ("/a/b", "", "/", "a", "//").
Proof. reflexivity. Qed.

(** ** Properties of the semantic-version key *)

Lemma digit_not_special (a : ascii) :
  is_digit a = true ->
  Ascii.eqb a "v" = false /\ Ascii.eqb a "-" = false /\ Ascii.eqb a "." = false.
Proof.
  destruct a as [[] [] [] [] [] [] [] []]; vm_compute; intros H;
    try discriminate H; repeat split.
Qed.

Lemma string_app_assoc (a b c : string) : (a ++ b) ++ c = a ++ (b ++ c).
Proof. induction a as [|x a IH]; simpl; [reflexivity | now rewrite IH]. Qed.

Lemma digits_inv (d : string) :
  digits d = true ->
  exists a r, d = String a r /\ is_digit a = true /\ all_digits r = true.
Proof.
  unfold digits. destruct d as [|a r]; simpl; [discriminate|].
  intros H. apply andb_prop in H as [Ha Hr]. eauto.
Qed.

Lemma lstrip_rep_v (n : nat) (s : string) :
  lstrip_char "v" (rep_v n ++ s) = lstrip_char "v" s.
Proof. induction n as [|n IH]; simpl; [reflexivity | exact IH]. Qed.

Lemma lstrip_digits (d s : string) :
  digits d = true -> lstrip_char "v" (d ++ s) = d ++ s.
Proof.
  intros H. destruct (digits_inv d H) as (a & r & -> & Ha & _).
  simpl. destruct (digit_not_special a Ha) as (-> & _). reflexivity.
Qed.

Lemma split_once_digits (d s : string) :
  all_digits d = true ->
  split_once "-" (d ++ s) = (d ++ fst (split_once "-" s), snd (split_once "-" s)).
Proof.
  induction d as [|a d IH]; simpl; intros H.
  - now destruct (split_once "-" s).
  - apply andb_prop in H as [Ha Hd].
    destruct (digit_not_special a Ha) as (_ & -> & _).
    rewrite (IH Hd). reflexivity.
Qed.

Lemma span_digits_app (d s : string) :
  all_digits d = true ->
  match s with EmptyString => True | String c _ => is_digit c = false end ->
  span_digits (d ++ s) = (d, s).
Proof.
  induction d as [|a d IH]; simpl; intros H Hs.
  - destruct s as [|c s]; simpl; [reflexivity | now rewrite Hs].
  - apply andb_prop in H as [Ha Hd]. rewrite Ha, (IH Hd Hs). reflexivity.
Qed.

Lemma int_digits_acc_total (d : string) :
  all_digits d = true -> forall acc, exists z, int_digits_acc d acc = Some z.
Proof.
  induction d as [|a d IH]; simpl; intros H acc; [eauto|].
  apply andb_prop in H as [Ha Hd]. rewrite Ha. apply IH, Hd.
Qed.

Lemma digit_value_number (a : ascii) : is_digit a = true -> digit_value a = digit_number a.
Proof.
  destruct a as [[] [] [] [] [] [] [] []]; vm_compute; intros H;
    try discriminate H; reflexivity.
Qed.

Lemma digit_number_range (a : ascii) : 0 <= digit_number a <= 9.
Proof.
  destruct a as [[] [] [] [] [] [] [] []]; vm_compute; split; intros Hc; discriminate Hc.
Qed.

Lemma numeral_nonneg (d : string) : 0 <= numeral d.
Proof.
  induction d as [|a d IH]; cbn [numeral]; [lia|].
  pose proof (digit_number_range a).
  assert (0 <= 10 ^ Z.of_nat (String.length d)) by (apply Z.pow_nonneg; lia).
  nia.
Qed.

(** The loop of the conversion computes the number that the digits
    write. *)
Lemma int_digits_acc_numeral (d : string) :
  all_digits d = true ->
  forall acc,
    int_digits_acc d acc = Some (acc * 10 ^ Z.of_nat (String.length d) + numeral d).
Proof.
  induction d as [|a d IH]; cbn [int_digits_acc all_digits numeral String.length]; intros H acc.
  - f_equal. change (10 ^ Z.of_nat 0) with 1. lia.
  - apply andb_prop in H as [Ha Hd]. rewrite Ha, (IH Hd), (digit_value_number a Ha).
    f_equal. rewrite Nat2Z.inj_succ, Z.pow_succ_r by lia. ring.
Qed.

Lemma string_length_app (a b : string) :
  String.length (a ++ b) = (String.length a + String.length b)%nat.
Proof. induction a as [|x a IH]; simpl; [reflexivity | now rewrite IH]. Qed.

Lemma number_inv (d : string) :
  number d = true -> digits d = true /\ all_digits d = true /\ fits d = true.
Proof.
  unfold number, digits. intros H. apply andb_prop in H as [Hd Hf].
  split; [exact Hd|]. split; [|exact Hf]. now apply andb_prop in Hd.
Qed.

(** Up to 4300 digits are converted, to the number they write. *)
Lemma int_of_decimal_number (d : string) :
  number d = true -> int_of_decimal d = Some (numeral d).
Proof.
  intros H. destruct (number_inv d H) as (Hd & Ha & Hf).
  unfold int_of_decimal, fits in *. rewrite Z.leb_antisym in Hf.
  apply negb_true_iff in Hf. rewrite Hf.
  destruct d as [|a r]; [discriminate Hd|].
  rewrite (int_digits_acc_numeral _ Ha). f_equal; lia.
Qed.

(** More than 4300 digits are refused. *)
Lemma int_of_decimal_long (d : string) : fits d = false -> int_of_decimal d = None.
Proof.
  unfold int_of_decimal, fits. intros Hf. rewrite Z.leb_antisym in Hf.
  apply negb_false_iff in Hf. rewrite Hf. now destruct d.
Qed.

(** What [span_digits] returns: digits, then a rest that starts with none. *)
Lemma span_digits_spec (s : string) :
  all_digits (fst (span_digits s)) = true
  /\ s = fst (span_digits s) ++ snd (span_digits s).
Proof.
  induction s as [|a s [IH1 IH2]]; simpl; [split; reflexivity|].
  destruct (is_digit a) eqn:Ha.
  - destruct (span_digits s) as [d t]; simpl in *. rewrite Ha, IH1.
    split; [reflexivity | now rewrite IH2 at 1].
  - split; reflexivity.
Qed.

(** The three groups of a match are non-empty digit strings, and parts of
    the core. *)
Lemma SEMVER_CORE_groups (core g1 g2 g3 : string) :
  _SEMVER_CORE core = Some (g1, g2, g3) ->
  digits g1 = true /\ digits g2 = true /\ digits g3 = true
  /\ (String.length g1 + String.length g2 + String.length g3 <= String.length core)%nat.
Proof.
  unfold _SEMVER_CORE.
  pose proof (span_digits_spec core) as [H1 L1].
  destruct (span_digits core) as [x1 r1]; cbn [fst snd] in H1, L1.
  destruct x1 as [|c1 x1]; [discriminate|].
  destruct r1 as [|p1 r1]; [discriminate|].
  destruct (Ascii.eqb_spec p1 "."); [subst p1 | now destruct p1 as [[] [] [] [] [] [] [] []]].
  pose proof (span_digits_spec r1) as [H2 L2].
  destruct (span_digits r1) as [x2 r2]; cbn [fst snd] in H2, L2.
  destruct x2 as [|c2 x2]; [discriminate|].
  destruct r2 as [|p2 r2]; [discriminate|].
  destruct (Ascii.eqb_spec p2 "."); [subst p2 | now destruct p2 as [[] [] [] [] [] [] [] []]].
  pose proof (span_digits_spec r2) as [H3 L3].
  destruct (span_digits r2) as [x3 r3]; cbn [fst snd] in H3, L3.
  destruct x3 as [|c3 x3]; [discriminate|].
  destruct (_ || _)%bool; [|discriminate].
  intros [= <- <- <-]. unfold digits.
  split; [simpl in *; now rewrite H1|]. split; [simpl in *; now rewrite H2|].
  split; [simpl in *; now rewrite H3|].
  apply (f_equal String.length) in L1, L2, L3.
  rewrite string_length_app in L1, L2, L3. cbn [String.length] in *. lia.
Qed.

(** The two copies of the key function agree. *)
Lemma parse_semver_for_sort_eq (tag : string) : _parse_semver_for_sort tag = _semver_key tag.
Proof. reflexivity. Qed.

(** The key function raises on the tags with an overlong number, and on
    no other. *)
Lemma semver_key_cases (tag : string) :
  (overlong tag = true /\ _semver_key tag = None)
  \/ (overlong tag = false /\ exists k, _semver_key tag = Some k).
Proof.
  unfold overlong, _semver_key, core_of.
  destruct (_SEMVER_CORE _) as [[[g1 g2] g3]|] eqn:Hm; [|right; eauto].
  apply SEMVER_CORE_groups in Hm as (H1 & H2 & H3 & _).
  destruct (fits g1) eqn:F1; [|left; split; [reflexivity|];
                                 now rewrite (int_of_decimal_long g1 F1)].
  rewrite (int_of_decimal_number g1) by (unfold number; now rewrite H1, F1).
  destruct (fits g2) eqn:F2; [|left; split; [reflexivity|];
                                 now rewrite (int_of_decimal_long g2 F2)].
  rewrite (int_of_decimal_number g2) by (unfold number; now rewrite H2, F2).
  destruct (fits g3) eqn:F3; [|left; split; [reflexivity|];
                                 now rewrite (int_of_decimal_long g3 F3)].
  rewrite (int_of_decimal_number g3) by (unfold number; now rewrite H3, F3).
  right. eauto.
Qed.

Lemma semver_key_none (tag : string) : _semver_key tag = None <-> overlong tag = true.
Proof.
  destruct (semver_key_cases tag) as [[Ho Hk]|[Ho [k Hk]]]; rewrite Ho, Hk;
    split; congruence.
Qed.

Lemma semver_key_some (tag : string) :
  overlong tag = false -> _semver_key tag = Some (semver_total tag).
Proof.
  intros Ho. destruct (semver_key_cases tag) as [[Ho' _]|[_ [k Hk]]]; [congruence|].
  unfold semver_total. change (_parse_semver_for_sort tag) with (_semver_key tag).
  now rewrite Hk.
Qed.

(** The group that [refused_group] names is the one [int] refuses. *)
Lemma refused_group_spec (tag : string) :
  match refused_group tag with
  | Some g => overlong tag = true /\ digits g = true /\ fits g = false
  | None => overlong tag = false
  end.
Proof.
  unfold refused_group, overlong, core_of.
  destruct (_SEMVER_CORE _) as [[[g1 g2] g3]|] eqn:Hm; [|reflexivity].
  apply SEMVER_CORE_groups in Hm as (H1 & H2 & H3 & _).
  destruct (fits g1) eqn:F1;
    [rewrite (int_of_decimal_number g1) by (unfold number; now rewrite H1, F1)
    |rewrite (int_of_decimal_long g1 F1); auto].
  destruct (fits g2) eqn:F2;
    [rewrite (int_of_decimal_number g2) by (unfold number; now rewrite H2, F2)
    |rewrite (int_of_decimal_long g2 F2); auto].
  destruct (fits g3) eqn:F3;
    [rewrite (int_of_decimal_number g3) by (unfold number; now rewrite H3, F3)
    |rewrite (int_of_decimal_long g3 F3); auto].
  reflexivity.
Qed.

Lemma lstrip_char_length (c : ascii) (s : string) :
  (String.length (lstrip_char c s) <= String.length s)%nat.
Proof.
  induction s as [|a s IH]; simpl; [lia|]. destruct (Ascii.eqb a c); simpl; lia.
Qed.

Lemma split_once_length (c : ascii) (s : string) :
  (String.length (fst (split_once c s)) <= String.length s)%nat.
Proof.
  induction s as [|a s IH]; simpl; [lia|].
  destruct (Ascii.eqb a c); simpl; [lia|].
  destruct (split_once c s) as [h t]; simpl in *. lia.
Qed.

(** A tag of at most 4300 characters has no overlong number, so that it
    has a key. *)
Lemma short_not_overlong (tag : string) :
  Z.of_nat (String.length tag) <= INT_MAX_STR_DIGITS -> overlong tag = false.
Proof.
  intros Hl. unfold overlong.
  destruct (_SEMVER_CORE (core_of tag)) as [[[g1 g2] g3]|] eqn:Hm; [|reflexivity].
  apply SEMVER_CORE_groups in Hm as (_ & _ & _ & Hlen).
  pose proof (split_once_length "-" (lstrip_char "v" tag)) as Hs.
  pose proof (lstrip_char_length "v" tag) as Hv. fold (core_of tag) in Hs.
  unfold fits.
  destruct (Z.leb_spec (Z.of_nat (String.length g1)) INT_MAX_STR_DIGITS); [|lia].
  destruct (Z.leb_spec (Z.of_nat (String.length g2)) INT_MAX_STR_DIGITS); [|lia].
  destruct (Z.leb_spec (Z.of_nat (String.length g3)) INT_MAX_STR_DIGITS); [|lia].
  reflexivity.
Qed.

Lemma app_empty_r (s : string) : s ++ "" = s.
Proof. induction s as [|a s IH]; simpl; [reflexivity | now rewrite IH]. Qed.

Lemma split_once_core (d1 d2 d3 : string) (pre : option string) :
  all_digits d1 = true -> all_digits d2 = true -> all_digits d3 = true ->
  split_once "-" (d1 ++ "." ++ d2 ++ "." ++ d3
                  ++ match pre with None => "" | Some p => "-" ++ p end)
  = (d1 ++ "." ++ d2 ++ "." ++ d3, pre).
Proof.
  intros A1 A2 A3.
  rewrite split_once_digits by assumption. simpl.
  rewrite split_once_digits by assumption. simpl.
  rewrite split_once_digits by assumption.
  destruct pre; simpl; now rewrite app_empty_r.
Qed.

Lemma SEMVER_CORE_digits (d1 d2 d3 : string) :
  digits d1 = true -> digits d2 = true -> digits d3 = true ->
  _SEMVER_CORE (d1 ++ "." ++ d2 ++ "." ++ d3) = Some (d1, d2, d3).
Proof.
  intros H1 H2 H3.
  destruct (digits_inv d1 H1) as (c1 & r1 & E1 & D1 & R1).
  destruct (digits_inv d2 H2) as (c2 & r2 & E2 & D2 & R2).
  destruct (digits_inv d3 H3) as (c3 & r3 & E3 & D3 & R3).
  assert (A1 : all_digits d1 = true) by (subst d1; simpl; now rewrite D1, R1).
  assert (A2 : all_digits d2 = true) by (subst d2; simpl; now rewrite D2, R2).
  assert (A3 : all_digits d3 = true) by (subst d3; simpl; now rewrite D3, R3).
  unfold _SEMVER_CORE.
  rewrite (span_digits_app d1) by (assumption || reflexivity).
  rewrite E1 at 1. simpl.
  rewrite (span_digits_app d2) by (assumption || reflexivity).
  rewrite E2 at 1. simpl.
  rewrite <- (app_empty_r d3) at 1.
  rewrite (span_digits_app d3) by (assumption || exact I).
  rewrite E3 at 1. reflexivity.
Qed.

(** The core of a well-formed tag. *)
Lemma core_of_tag_of (nv : nat) (d1 d2 d3 : string) (pre : option string) :
  digits d1 = true -> digits d2 = true -> digits d3 = true ->
  core_of (tag_of nv d1 d2 d3 pre) = d1 ++ "." ++ d2 ++ "." ++ d3
  /\ snd (split_once "-" (lstrip_char "v" (tag_of nv d1 d2 d3 pre))) = pre.
Proof.
  intros H1 H2 H3.
  assert (A1 : all_digits d1 = true) by (unfold digits in H1; now apply andb_prop in H1).
  assert (A2 : all_digits d2 = true) by (unfold digits in H2; now apply andb_prop in H2).
  assert (A3 : all_digits d3 = true) by (unfold digits in H3; now apply andb_prop in H3).
  unfold core_of, tag_of.
  rewrite lstrip_rep_v, lstrip_digits by assumption.
  rewrite split_once_core by assumption. split; reflexivity.
Qed.

(** The key of a well-formed tag. *)
Lemma semver_key_tag_of (nv : nat) (d1 d2 d3 : string) (pre : option string) :
  number d1 = true -> number d2 = true -> number d3 = true ->
  _semver_key (tag_of nv d1 d2 d3 pre)
  = Some (numeral d1, numeral d2, numeral d3,
          match pre with None => 0 | Some _ => -1 end,
          match pre with None => "" | Some p => p end).
Proof.
  intros N1 N2 N3.
  destruct (number_inv d1 N1) as (H1 & _ & _).
  destruct (number_inv d2 N2) as (H2 & _ & _).
  destruct (number_inv d3 N3) as (H3 & _ & _).
  destruct (core_of_tag_of nv d1 d2 d3 pre H1 H2 H3) as [Hcore Hpre].
  unfold _semver_key. fold (core_of (tag_of nv d1 d2 d3 pre)).
  rewrite Hcore, Hpre.
  rewrite SEMVER_CORE_digits by assumption.
  rewrite (int_of_decimal_number _ N1), (int_of_decimal_number _ N2),
    (int_of_decimal_number _ N3).
  destruct pre; reflexivity.
Qed.

(** A well-formed tag with a number of more than 4300 digits has no
    key. *)
Lemma semver_key_tag_of_long (nv : nat) (d1 d2 d3 : string) (pre : option string) :
  digits d1 = true -> digits d2 = true -> digits d3 = true ->
  (fits d1 && fits d2 && fits d3)%bool = false ->
  _semver_key (tag_of nv d1 d2 d3 pre) = None.
Proof.
  intros H1 H2 H3 Hf. apply semver_key_none. unfold overlong.
  destruct (core_of_tag_of nv d1 d2 d3 pre H1 H2 H3) as [-> _].
  rewrite SEMVER_CORE_digits by assumption. now rewrite Hf.
Qed.

(** The relation [<] on keys, in words. *)
Lemma key_ltb_spec (a1 a2 a3 a4 b1 b2 b3 b4 : Z) (a5 b5 : string) :
  key_ltb (a1, a2, a3, a4, a5) (b1, b2, b3, b4, b5) = true <->
  a1 < b1 \/ (a1 = b1 /\ (a2 < b2 \/ (a2 = b2 /\ (a3 < b3 \/ (a3 = b3 /\
    (a4 < b4 \/ (a4 = b4 /\ String.ltb a5 b5 = true))))))).
Proof.
  unfold key_ltb.
  repeat match goal with
         | |- context [?x <? ?y] => destruct (Z.ltb_spec x y)
         end; split; intros Hk; try lia; try discriminate; try tauto;
    repeat match goal with
           | H : _ \/ _ |- _ => destruct H
           | H : _ /\ _ |- _ => destruct H
           end; try lia; try assumption.
  all: repeat (right; split; [lia|]); try assumption.
Qed.

Lemma string_ltb_asym (a b : string) : String.ltb a b = true -> String.ltb b a = false.
Proof.
  unfold String.ltb. rewrite (String.compare_antisym a b).
  destruct (String.compare b a); simpl; congruence.
Qed.

Lemma key_ltb_asym (a b : key) : key_ltb a b = true -> key_ltb b a = false.
Proof.
  destruct a as [[[[a1 a2] a3] a4] a5], b as [[[[b1 b2] b3] b4] b5].
  intros H. destruct (key_ltb (b1, b2, b3, b4, b5) (a1, a2, a3, a4, a5)) eqn:H'; [|reflexivity].
  apply key_ltb_spec in H. apply key_ltb_spec in H'.
  assert (Hs : String.ltb a5 b5 = true -> String.ltb b5 a5 = true -> False)
    by (intros X Y; apply string_ltb_asym in X; congruence).
  intuition lia.
Qed.

(** C6, with the bound that the code has: for numbers of at most 4300
    digits, which [int] converts, the key of a well-formed tag holds the
    numbers that major, minor and patch write; a tag without pre-release
    suffix outranks every tag with the same core and a pre-release suffix;
    and the key order agrees with the numeric lexicographic order of
    (major, minor, patch).  A number of more than 4300 digits makes the
    key function raise. *)
Theorem semver_key_order (nA nB : nat) (a1 a2 a3 b1 b2 b3 : string) (preA preB : option string) :
  digits a1 = true -> digits a2 = true -> digits a3 = true ->
  digits b1 = true -> digits b2 = true -> digits b3 = true ->
  ((fits a1 && fits a2 && fits a3)%bool = false ->
     _semver_key (tag_of nA a1 a2 a3 preA) = None)
  /\ ((fits a1 && fits a2 && fits a3 && (fits b1 && fits b2 && fits b3))%bool = true ->
      exists kA kB,
        _semver_key (tag_of nA a1 a2 a3 preA) = Some kA /\
        _semver_key (tag_of nB b1 b2 b3 preB) = Some kB /\
        key_core kA = (numeral a1, numeral a2, numeral a3) /\
        key_core kB = (numeral b1, numeral b2, numeral b3) /\
        (key_core kA = key_core kB -> preA = None -> preB <> None -> key_lt kB kA) /\
        (core_lt (key_core kA) (key_core kB) -> key_lt kA kB) /\
        (key_lt kA kB -> core_lt (key_core kA) (key_core kB) \/ key_core kA = key_core kB)).
Proof.
  intros A1 A2 A3 B1 B2 B3. split.
  - intros Hf. now apply semver_key_tag_of_long.
  - intros Hf.
    apply andb_prop in Hf as [HfA HfB].
    apply andb_prop in HfA as [HfA FA3]. apply andb_prop in HfA as [FA1 FA2].
    apply andb_prop in HfB as [HfB FB3]. apply andb_prop in HfB as [FB1 FB2].
    assert (NA1 : number a1 = true) by (unfold number; now rewrite A1, FA1).
    assert (NA2 : number a2 = true) by (unfold number; now rewrite A2, FA2).
    assert (NA3 : number a3 = true) by (unfold number; now rewrite A3, FA3).
    assert (NB1 : number b1 = true) by (unfold number; now rewrite B1, FB1).
    assert (NB2 : number b2 = true) by (unfold number; now rewrite B2, FB2).
    assert (NB3 : number b3 = true) by (unfold number; now rewrite B3, FB3).
    eexists. eexists.
    split; [apply semver_key_tag_of; assumption|].
    split; [apply semver_key_tag_of; assumption|].
    split; [reflexivity|]. split; [reflexivity|].
    unfold key_lt. cbn [key_core]. repeat split.
    + intros [= E1 E2 E3] -> Hpre. apply key_ltb_spec.
      destruct preB as [p|]; [|congruence]. lia.
    + intros Hc. apply key_ltb_spec. cbn [core_lt] in Hc. intuition lia.
    + intros Hk. apply key_ltb_spec in Hk. cbn [core_lt].
      destruct (Z.eq_dec (numeral a1) (numeral b1)) as [E1|N1]; [|left; lia].
      destruct (Z.eq_dec (numeral a2) (numeral b2)) as [E2|N2]; [|left; lia].
      destruct (Z.eq_dec (numeral a3) (numeral b3)) as [E3|N3]; [|left; lia].
      right. congruence.
Qed.

Lemma semver_key_order_witness :
  exists kA kB,
    _semver_key (tag_of 1 "1" "9" "12" (Some "beta.1")) = Some kA /\
    _semver_key (tag_of 1 "1" "10" "2" None) = Some kB /\
    key_core kA = (1, 9, 12) /\ key_core kB = (1, 10, 2) /\ key_lt kA kB.
Proof.
  destruct (proj2 (semver_key_order 1 1 "1" "9" "12" "1" "10" "2" (Some "beta.1") None
                     eq_refl eq_refl eq_refl eq_refl eq_refl eq_refl) eq_refl)
    as (kA & kB & HA & HB & HcA & HcB & _ & Hlt & _).
  exists kA, kB. split; [exact HA|]. split; [exact HB|].
  split; [exact HcA|]. split; [exact HcB|].
  apply Hlt. rewrite HcA, HcB. vm_compute. right. split; [reflexivity|]. left. reflexivity.
Defined.

(** C6 as stated fails: it speaks of all well-formed cores, and a core
    with a number of 4301 digits has no key at all. *)
Lemma semver_key_refuses_long_number :
  ~ (forall d1 d2 d3,
       digits d1 = true -> digits d2 = true -> digits d3 = true ->
       exists k, _semver_key (tag_of 1 d1 d2 d3 None) = Some k).
Proof.
  intros H.
  destruct (H (repeat_char 4301 "1") "0" "0") as [k Hk]; try (vm_compute; reflexivity).
  assert (Hn : _semver_key (tag_of 1 (repeat_char 4301 "1") "0" "0" None) = None)
    by (vm_compute; reflexivity).
  congruence.
Qed.

(** C7, as the code has it: the key function returns a key for every
    string but those with a number of more than 4300 digits in a
    well-formed core, on which it raises; so it has a key for every tag of
    at most 4300 characters.  A tag whose core does not parse gets the core
    (0, 0, 0), which is strictly below the key of every well-formed tag
    whose core is not 0.0.0, so that in the newest-first order it comes
    after all of them. *)
Theorem semver_key_total_unparsable_low (tag : string) :
  _parse_semver_for_sort tag = _semver_key tag
  /\ (_semver_key tag = None <-> overlong tag = true)
  /\ (overlong tag = false -> exists k, _semver_key tag = Some k)
  /\ (Z.of_nat (String.length tag) <= INT_MAX_STR_DIGITS -> overlong tag = false)
  /\ (_SEMVER_CORE (core_of tag) = None ->
      exists flag pre,
        _semver_key tag = Some (0, 0, 0, flag, pre) /\
        forall nv d1 d2 d3 p,
          number d1 = true -> number d2 = true -> number d3 = true ->
          (numeral d1, numeral d2, numeral d3) <> (0, 0, 0) ->
          exists kw,
            _semver_key (tag_of nv d1 d2 d3 p) = Some kw /\
            key_lt (0, 0, 0, flag, pre) kw /\
            py_sorted_rev _semver_key [tag; tag_of nv d1 d2 d3 p]
              = Some [tag_of nv d1 d2 d3 p; tag] /\
            py_sorted_rev _semver_key [tag_of nv d1 d2 d3 p; tag]
              = Some [tag_of nv d1 d2 d3 p; tag]).
Proof.
  split; [reflexivity|]. split; [apply semver_key_none|].
  split; [intros Ho; rewrite (semver_key_some tag Ho); eauto|].
  split; [apply short_not_overlong|].
  intros Hnone. unfold _semver_key at 1. fold (core_of tag).
  rewrite Hnone. eexists. eexists. split; [reflexivity|].
  intros nv d1 d2 d3 p H1 H2 H3 Hne.
  eexists. split; [apply semver_key_tag_of; assumption|].
  assert (Hlt : key_lt
            (0, 0, 0,
             match snd (split_once "-" (lstrip_char "v" tag)) with
             | Some (String _ _) => -1
             | _ => 0
             end,
             match snd (split_once "-" (lstrip_char "v" tag)) with
             | Some p0 => p0
             | None => ""
             end)
            (numeral d1, numeral d2, numeral d3,
             match p with None => 0 | Some _ => -1 end,
             match p with None => "" | Some p0 => p0 end)).
  { apply key_ltb_spec.
    pose proof (numeral_nonneg d1). pose proof (numeral_nonneg d2).
    pose proof (numeral_nonneg d3).
    destruct (Z.eq_dec (numeral d1) 0) as [E1|]; [|left; lia].
    destruct (Z.eq_dec (numeral d2) 0) as [E2|]; [|right; split; [lia|left; lia]].
    destruct (Z.eq_dec (numeral d3) 0) as [E3|];
      [|right; split; [lia|right; split; [lia|left; lia]]].
    exfalso. apply Hne. congruence. }
  split; [exact Hlt|].
  unfold py_sorted_rev, decorate.
  rewrite (semver_key_tag_of nv d1 d2 d3 p H1 H2 H3).
  unfold _semver_key. fold (core_of tag). rewrite Hnone.
  cbn [sort_desc fold_right insert_desc fst snd map].
  unfold key_lt in Hlt. rewrite Hlt, (key_ltb_asym _ _ Hlt). split; reflexivity.
Qed.

Lemma semver_key_total_unparsable_low_witness :
  (exists k, _semver_key "v1.11.0-garbage" = Some k)
  /\ exists flag pre,
       _semver_key "garbage" = Some (0, 0, 0, flag, pre) /\
       forall nv d1 d2 d3 p,
         number d1 = true -> number d2 = true -> number d3 = true ->
         (numeral d1, numeral d2, numeral d3) <> (0, 0, 0) ->
         exists kw,
           _semver_key (tag_of nv d1 d2 d3 p) = Some kw /\
           key_lt (0, 0, 0, flag, pre) kw /\
           py_sorted_rev _semver_key ["garbage"; tag_of nv d1 d2 d3 p]
             = Some [tag_of nv d1 d2 d3 p; "garbage"] /\
           py_sorted_rev _semver_key [tag_of nv d1 d2 d3 p; "garbage"]
             = Some [tag_of nv d1 d2 d3 p; "garbage"].
Proof.
  split.
  - apply (proj1 (proj2 (proj2 (semver_key_total_unparsable_low "v1.11.0-garbage")))).
    apply (proj1 (proj2 (proj2 (proj2 (semver_key_total_unparsable_low "v1.11.0-garbage"))))).
    vm_compute. discriminate.
  - apply (proj2 (proj2 (proj2 (proj2 (semver_key_total_unparsable_low "garbage"))))).
    reflexivity.
Defined.

(** C7 as stated fails twice.  The key function is not total: on a
    well-formed core with a number of 4301 digits it raises, in both of
    its copies.  And an unparsable tag does not sort below every
    well-formed one: it is above a pre-release of 0.0.0. *)
Lemma semver_unparsable_not_last :
  ~ (forall tag, exists k, _semver_key tag = Some k)
  /\ ~ (forall tag, exists k, _parse_semver_for_sort tag = Some k)
  /\ ~ (forall u w ku kw,
          _SEMVER_CORE (core_of u) = None -> _SEMVER_CORE (core_of w) <> None ->
          _semver_key u = Some ku -> _semver_key w = Some kw -> key_lt ku kw).
Proof.
  assert (Hn : _semver_key (String "v" (repeat_char 4301 "1" ++ ".0.0")) = None)
    by (vm_compute; reflexivity).
  split; [|split].
  - intros H. destruct (H (String "v" (repeat_char 4301 "1" ++ ".0.0"))) as [k Hk]. congruence.
  - intros H. destruct (H (String "v" (repeat_char 4301 "1" ++ ".0.0"))) as [k Hk].
    rewrite parse_semver_for_sort_eq in Hk. congruence.
  - intros H.
    specialize (H "garbage" "v0.0.0-rc1" (0, 0, 0, 0, "") (0, 0, 0, -1, "rc1")).
    discriminate H; (reflexivity || discriminate).
Qed.

Example semver_unparsable_sorted_first :
  py_sorted_rev _semver_key ["v0.0.0-rc1"; "garbage"] = Some ["garbage"; "v0.0.0-rc1"].
Proof. reflexivity. Qed.

Example semver_key_at_the_limit :
  (exists k, _semver_key (String "v" (repeat_char 4300 "9" ++ ".0.0")) = Some k)
  /\ _semver_key (String "v" (repeat_char 4301 "0" ++ ".0.0")) = None.
Proof. split; [eexists|]; vm_compute; reflexivity. Qed.

(** ** Properties of the asset locator *)

(** C5, as the code has it: the three documented shapes, the two further
    spellings [raw] and [rawxz] of the compressed raw format, and a
    ValueError for every other combination. *)
Theorem build_asset_url_cases (schematic_id version arch : pyval) (secureboot : bool) :
  build_asset_url schematic_id version (VStr "nocloud") (VStr "iso") arch secureboot
    = Ok (factory_base schematic_id version ++ "/nocloud-" ++ py_str arch
          ++ secureboot_mark secureboot ++ ".iso")
  /\ (forall fmt, In fmt ["raw"; "raw.xz"; "rawxz"] ->
      build_asset_url schematic_id version (VStr "nocloud") (VStr fmt) arch secureboot
        = Ok (factory_base schematic_id version ++ "/nocloud-" ++ py_str arch
              ++ secureboot_mark secureboot ++ ".raw.xz"))
  /\ build_asset_url schematic_id version (VStr "metal") (VStr "iso") arch secureboot
       = Ok (factory_base schematic_id version ++ "/metal-" ++ py_str arch ++ ".iso")
  /\ (forall platform image_format,
        accepted platform image_format = false ->
        exists msg,
          build_asset_url schematic_id version platform image_format arch secureboot
            = Raise (ValueError msg))
  /\ (forall platform image_format,
        accepted platform image_format = true ->
        exists url,
          build_asset_url schematic_id version platform image_format arch secureboot = Ok url).
Proof.
  unfold build_asset_url, factory_base, secureboot_mark.
  split; [|split; [|split; [|split]]].
  - simpl. now rewrite !string_app_assoc.
  - intros fmt [<-|[<-|[<-|[]]]]; simpl; now rewrite !string_app_assoc.
  - simpl. now rewrite !string_app_assoc.
  - intros platform image_format. unfold accepted.
    destruct (str_eq platform "nocloud"), (str_eq image_format "iso"),
      (str_eq image_format "raw"), (str_eq image_format "raw.xz"),
      (str_eq image_format "rawxz"), (str_eq platform "metal");
      simpl; intros H; try discriminate H; eexists; reflexivity.
  - intros platform image_format. unfold accepted.
    destruct (str_eq platform "nocloud"), (str_eq image_format "iso"),
      (str_eq image_format "raw"), (str_eq image_format "raw.xz"),
      (str_eq image_format "rawxz"), (str_eq platform "metal");
      simpl; intros H; try discriminate H; eexists; reflexivity.
Qed.

Lemma build_asset_url_cases_witness :
  exists msg,
    build_asset_url (VStr "abc") (VStr "v1.11.0") (VStr "metal") (VStr "raw.xz") (VStr "amd64") true
    = Raise (ValueError msg).
Proof.
  apply (proj1 (proj2 (proj2 (proj2
           (build_asset_url_cases (VStr "abc") (VStr "v1.11.0") (VStr "amd64") true))))).
  reflexivity.
Defined.

(** C5 as stated fails: [nocloud] with [raw] is outside the three
    combinations and still yields a URL. *)
Lemma build_asset_url_alias_accepted :
  ~ (forall schematic_id version platform image_format arch secureboot,
       documented platform image_format = false ->
       exists e,
         build_asset_url schematic_id version platform image_format arch secureboot = Raise e).
Proof.
  intros H.
  destruct (H (VStr "abc") (VStr "v1.11.0") (VStr "nocloud") (VStr "raw") (VStr "amd64") false
              eq_refl) as [e He].
  discriminate He.
Qed.

Example build_asset_url_raw :
  build_asset_url (VStr "abc") (VStr "v1.11.0") (VStr "nocloud") (VStr "raw") (VStr "amd64") false
  = Ok "https://factory.talos.dev/image/abc/v1.11.0/nocloud-amd64.raw.xz".
Proof. reflexivity. Qed.

(** C9: for [metal] with [iso] the secure-boot flag changes nothing: the
    call succeeds for both values, with the same URL, which carries no
    secure-boot mark. *)
Theorem build_asset_url_metal_ignores_secureboot (schematic_id version arch : pyval) :
  build_asset_url schematic_id version (VStr "metal") (VStr "iso") arch true
    = Ok (factory_base schematic_id version ++ "/metal-" ++ py_str arch ++ ".iso")
  /\ build_asset_url schematic_id version (VStr "metal") (VStr "iso") arch false
     = build_asset_url schematic_id version (VStr "metal") (VStr "iso") arch true.
Proof.
  unfold build_asset_url, factory_base. simpl. now rewrite !string_app_assoc.
Qed.

(** ** Properties of the order on keys and of the sort *)

Lemma ascii_compare_lt_trans (a b c : ascii) :
  Ascii.compare a b = Lt -> Ascii.compare b c = Lt -> Ascii.compare a c = Lt.
Proof.
  unfold Ascii.compare. rewrite !N.compare_lt_iff. lia.
Qed.

Lemma ascii_compare_eq (a b : ascii) : Ascii.compare a b = Eq -> a = b.
Proof.
  unfold Ascii.compare. rewrite N.compare_eq_iff. intros H.
  rewrite <- (ascii_N_embedding a), <- (ascii_N_embedding b). now rewrite H.
Qed.

Lemma string_compare_lt_trans (a : string) :
  forall b c, String.compare a b = Lt -> String.compare b c = Lt -> String.compare a c = Lt.
Proof.
  induction a as [|x a IH]; intros [|y b] [|z c]; simpl; try congruence.
  destruct (Ascii.compare x y) eqn:Hxy; try discriminate;
    destruct (Ascii.compare y z) eqn:Hyz; try discriminate; intros H1 H2.
  - apply ascii_compare_eq in Hxy, Hyz. subst.
    replace (Ascii.compare z z) with Eq
      by (symmetry; unfold Ascii.compare; apply N.compare_refl).
    now apply (IH b c).
  - apply ascii_compare_eq in Hxy. subst. now rewrite Hyz.
  - apply ascii_compare_eq in Hyz. subst. now rewrite Hxy.
  - now rewrite (ascii_compare_lt_trans x y z).
Qed.

(** If [a < c] then any [b] is above [a] or below [c]. *)
Lemma string_ltb_cotrans (a b c : string) :
  String.ltb a c = true -> String.ltb a b = true \/ String.ltb b c = true.
Proof.
  unfold String.ltb. intros H.
  destruct (String.compare a c) eqn:Hac; try discriminate.
  destruct (String.compare a b) eqn:Hab; [| now left |].
  - apply String.compare_eq_iff in Hab. subst. right. now rewrite Hac.
  - right. rewrite String.compare_antisym in Hab.
    destruct (String.compare b a) eqn:Hba; try discriminate.
    now rewrite (string_compare_lt_trans b a c).
Qed.

Lemma key_ltb_cotrans (a b c : key) :
  key_ltb a c = true -> key_ltb a b = true \/ key_ltb b c = true.
Proof.
  destruct a as [[[[a1 a2] a3] a4] a5], b as [[[[b1 b2] b3] b4] b5],
    c as [[[[c1 c2] c3] c4] c5].
  rewrite !key_ltb_spec. intros H.
  assert (Hs : String.ltb a5 c5 = true -> String.ltb a5 b5 = true \/ String.ltb b5 c5 = true)
    by apply string_ltb_cotrans.
  destruct (Z.lt_total a1 b1) as [?|[?|?]]; [left; lia| |right; lia].
  destruct (Z.lt_total a2 b2) as [?|[?|?]]; [left; lia| |right; lia].
  destruct (Z.lt_total a3 b3) as [?|[?|?]]; [left; lia| |right; lia].
  destruct (Z.lt_total a4 b4) as [?|[?|?]]; [left; lia| |right; lia].
  subst.
  destruct H as [?|[? [?|[? [?|[? [?|[? H]]]]]]]]; try (right; intuition lia).
  destruct (Hs H); [left|right]; intuition lia.
Qed.

Lemma not_older_trans {A : Type} (x y z : key * A) :
  not_older x y -> not_older y z -> not_older x z.
Proof.
  unfold not_older. intros H1 H2.
  destruct (key_ltb (fst x) (fst z)) eqn:H; [|reflexivity].
  destruct (key_ltb_cotrans _ (fst y) _ H); congruence.
Qed.

Lemma in_skipn {A : Type} (n : nat) (l : list A) (x : A) : In x (skipn n l) -> In x l.
Proof.
  revert l. induction n as [|n IH]; intros [|y l]; simpl; auto.
Qed.

Section SortFacts.
Context {A : Type}.
Implicit Types (x : key * A) (l : list (key * A)).

Lemma insert_desc_perm x l : Permutation (insert_desc x l) (x :: l).
Proof.
  induction l as [|y l IH]; simpl; [reflexivity|].
  destruct (key_ltb (fst x) (fst y)); [|reflexivity].
  rewrite IH. apply perm_swap.
Qed.

Lemma sort_desc_perm l : Permutation (sort_desc l) l.
Proof.
  induction l as [|x l IH]; simpl; [reflexivity|].
  rewrite insert_desc_perm. now constructor.
Qed.

Lemma insert_desc_sorted x l :
  StronglySorted not_older l -> StronglySorted not_older (insert_desc x l).
Proof.
  induction 1 as [|y l Hl IH Hy]; simpl.
  - repeat constructor.
  - destruct (key_ltb (fst x) (fst y)) eqn:Hxy.
    + constructor; [exact IH|].
      rewrite List.Forall_forall in *. intros z Hz.
      apply (Permutation_in _ (insert_desc_perm x l)) in Hz as [<-|Hz].
      * now apply key_ltb_asym.
      * now apply Hy.
    + constructor; [now constructor|].
      constructor; [exact Hxy|].
      rewrite List.Forall_forall in *. intros z Hz.
      apply (not_older_trans x y z); [exact Hxy | now apply Hy].
Qed.

Lemma sort_desc_sorted l : StronglySorted not_older (sort_desc l).
Proof.
  induction l as [|x l IH]; simpl; [constructor | now apply insert_desc_sorted].
Qed.
End SortFacts.
(** ** Properties of the cleanup plan *)

Lemma scan_entries_fold (cache_dir : string) (entries : list string) :
  forall groups,
    scan_entries cache_dir entries groups
    = fold_left (fun g e => groups_append (fst e) (snd e) g) (scanned cache_dir entries) groups.
Proof.
  induction entries as [|name rest IH]; intros groups; [reflexivity|].
  unfold scanned. simpl. fold (scanned cache_dir rest).
  rewrite fold_left_app. unfold scan_name.
  destruct (endswith name ".sha256"); [apply IH|].
  destruct (_FILE_RE name) as [[ver tail]|]; simpl; apply IH.
Qed.

Lemma first_occurrences_snoc (l : list string) (t : string) :
  first_occurrences (l ++ [t])
  = if existsb (String.eqb t) (first_occurrences l) then first_occurrences l
    else (first_occurrences l ++ [t])%list.
Proof. unfold first_occurrences. now rewrite fold_left_app. Qed.

Lemma existsb_snoc (f : string -> bool) (l : list string) (x : string) :
  existsb f (l ++ [x]) = (existsb f l || f x)%bool.
Proof. rewrite existsb_app. simpl. now rewrite orb_false_r. Qed.

Lemma first_occurrences_mem (t : string) (l : list string) :
  existsb (String.eqb t) (first_occurrences l) = existsb (String.eqb t) l.
Proof.
  induction l as [|x l IH] using rev_ind; [reflexivity|].
  rewrite first_occurrences_snoc, existsb_snoc.
  destruct (existsb (String.eqb x) (first_occurrences l)) eqn:Hx.
  - rewrite IH. destruct (String.eqb_spec t x) as [->|]; [|now rewrite orb_false_r].
    rewrite <- IH, Hx. reflexivity.
  - now rewrite existsb_snoc, IH.
Qed.

Lemma existsb_eqb_In (t : string) (l : list string) :
  existsb (String.eqb t) l = true <-> In t l.
Proof.
  rewrite existsb_exists. split.
  - intros (x & Hx & He). apply String.eqb_eq in He. now subst.
  - intros H. exists t. split; [assumption | apply String.eqb_refl].
Qed.

Lemma first_occurrences_NoDup (l : list string) : NoDup (first_occurrences l).
Proof.
  induction l as [|x l IH] using rev_ind; [constructor|].
  rewrite first_occurrences_snoc.
  destruct (existsb (String.eqb x) (first_occurrences l)) eqn:Hx; [assumption|].
  apply NoDup_app. split; [exact IH|]. split; [|constructor; [intros Hin; inversion Hin | constructor]].
  intros y Hy. rewrite list_elem_of_In in Hy. intros Hy'. rewrite list_elem_of_In in Hy'.
  destruct Hy' as [<-|[]].
  apply existsb_eqb_In in Hy. congruence.
Qed.

Lemma family_snoc (t : string) sc (e : string * (string * string)) :
  family t (sc ++ [e])
  = (family t sc ++ (if String.eqb (fst e) t then [snd e] else []))%list.
Proof.
  unfold family. rewrite List.filter_app, List.map_app. simpl.
  now destruct (String.eqb (fst e) t).
Qed.

Lemma family_absent (t : string) sc :
  existsb (String.eqb t) (map fst sc) = false -> family t sc = [].
Proof.
  unfold family. induction sc as [|e sc IH]; simpl; [reflexivity|].
  intros H. apply orb_false_elim in H as [H1 H2].
  rewrite String.eqb_sym, H1. now apply IH.
Qed.

Lemma groups_append_present (t : string) (x : string * string)
    (F : string -> list (string * string)) (ts : list string) :
  NoDup ts -> existsb (String.eqb t) ts = true ->
  groups_append t x (map (fun t' => (t', F t')) ts)
  = map (fun t' => (t', if String.eqb t' t then (F t' ++ [x])%list else F t')) ts.
Proof.
  induction 1 as [|t' ts Hnin Hnd IH]; simpl; [discriminate|].
  intros H. destruct (String.eqb_spec t' t) as [->|Hne].
  - f_equal. apply map_ext_in. intros a Ha.
    destruct (String.eqb_spec a t) as [->|]; [|reflexivity].
    exfalso. apply Hnin. now apply list_elem_of_In.
  - f_equal. apply IH.
    destruct (String.eqb_spec t t') as [->|]; [congruence | exact H].
Qed.

Lemma groups_append_absent (t : string) (x : string * string)
    (F : string -> list (string * string)) (ts : list string) :
  existsb (String.eqb t) ts = false ->
  groups_append t x (map (fun t' => (t', F t')) ts)
  = (map (fun t' => (t', F t')) ts ++ [(t, [x])])%list.
Proof.
  induction ts as [|t' ts IH]; simpl; [reflexivity|].
  intros H. apply orb_false_elim in H as [H1 H2].
  rewrite String.eqb_sym, H1. f_equal. now apply IH.
Qed.

(** The dictionary built by the scan holds, per tail in order of first
    appearance, the family of that tail in listing order. *)
Lemma groups_are_families sc :
  fold_left (fun g e => groups_append (fst e) (snd e) g) sc []
  = map (fun t => (t, family t sc)) (first_occurrences (map fst sc)).
Proof.
  induction sc as [|[t x] sc IH] using rev_ind; [reflexivity|].
  rewrite fold_left_app, IH, List.map_app. simpl. rewrite first_occurrences_snoc.
  destruct (existsb (String.eqb t) (first_occurrences (map fst sc))) eqn:Ht.
  - rewrite groups_append_present by (apply first_occurrences_NoDup || exact Ht).
    apply map_ext. intros a. rewrite family_snoc. simpl.
    rewrite (String.eqb_sym t a). destruct (String.eqb a t); [reflexivity|].
    now rewrite app_nil_r.
  - rewrite groups_append_absent by exact Ht.
    rewrite List.map_app. simpl. f_equal.
    + apply map_ext_in. intros a Ha. rewrite family_snoc. simpl.
      destruct (String.eqb_spec t a) as [->|]; [|now rewrite app_nil_r].
      apply existsb_eqb_In in Ha. congruence.
    + rewrite family_snoc. simpl. rewrite String.eqb_refl.
      rewrite family_absent; [reflexivity|].
      now rewrite <- first_occurrences_mem.
Qed.

Lemma decorate_parse (items : list (string * string)) :
  forallb (fun x => negb (overlong (fst x))) items = true ->
  decorate (fun x => _parse_semver_for_sort (fst x)) items = Some (keyed items).
Proof.
  induction items as [|x items IH]; cbn [forallb decorate keyed map]; intros H; [reflexivity|].
  apply andb_prop in H as [Hx Hi]. apply negb_true_iff in Hx.
  change (_parse_semver_for_sort (fst x)) with (_semver_key (fst x)).
  rewrite (semver_key_some _ Hx). fold (keyed items). now rewrite (IH Hi).
Qed.

Lemma py_sorted_rev_parse (items : list (string * string)) :
  forallb (fun x => negb (overlong (fst x))) items = true ->
  py_sorted_rev (fun x => _parse_semver_for_sort (fst x)) items = Some (newest_first items).
Proof. intros H. unfold py_sorted_rev. now rewrite decorate_parse. Qed.

(** With an overlong number among the versions the keys cannot all be
    computed, and the first such number is the one reported. *)
Lemma decorate_refused {A : Type} (version : A -> string) (items : list A) :
  forallb (fun x => negb (overlong (version x))) items = false ->
  decorate (fun x => _semver_key (version x)) items = None
  /\ exists g, first_refused version items = Some g /\ fits g = false.
Proof.
  induction items as [|x items IH]; cbn [forallb decorate first_refused]; intros H;
    [discriminate H|].
  pose proof (refused_group_spec (version x)) as Hr.
  destruct (refused_group (version x)) as [g|].
  - destruct Hr as (Ho & _ & Hf). apply semver_key_none in Ho. rewrite Ho. eauto.
  - rewrite Hr in H. cbn [negb andb] in H. destruct (IH H) as (Hd & g & Hg & Hf).
    rewrite Hd. split; [now destruct (_semver_key (version x))|]. eauto.
Qed.

Lemma first_refused_none {A : Type} (version : A -> string) (items : list A) :
  forallb (fun x => negb (overlong (version x))) items = true ->
  first_refused version items = None.
Proof.
  induction items as [|x items IH]; cbn [forallb first_refused]; intros H; [reflexivity|].
  apply andb_prop in H as [Hx Hi]. apply negb_true_iff in Hx.
  pose proof (refused_group_spec (version x)) as Hr.
  destruct (refused_group (version x)) as [g|]; [|exact (IH Hi)].
  destruct Hr as (Ho & _). congruence.
Qed.

Lemma first_refused_app {A : Type} (version : A -> string) (l1 l2 : list A) :
  first_refused version (l1 ++ l2)
  = match first_refused version l1 with
    | Some g => Some g
    | None => first_refused version l2
    end.
Proof.
  induction l1 as [|x l1 IH]; cbn [app first_refused]; [reflexivity|].
  now destruct (refused_group (version x)).
Qed.

Lemma add_victims_flat (on_disk : string -> bool) victims :
  forall acc,
    add_victims on_disk victims acc
    = (acc ++ flat_map (with_sidecar on_disk) victims)%list.
Proof.
  induction victims as [|[ver victim] rest IH]; intros acc; simpl.
  - now rewrite app_nil_r.
  - rewrite IH. unfold with_sidecar. simpl.
    destruct (on_disk (victim ++ ".sha256")); simpl; now rewrite <- !app_assoc.
Qed.

(** The loop over the families: the victims of all of them or, at the
    first family with an overlong number, the exception of its sort. *)
Lemma select_victims_flat (on_disk : string -> bool) (keep : Z) (groups : groups_t) :
  forall acc,
    select_victims on_disk keep groups acc
    = if forallb (fun x => negb (overlong (fst x))) (flat_map snd groups)
      then Ok (acc ++ flat_map (fun g => flat_map (with_sidecar on_disk)
                                          (skipn (Z.to_nat keep) (newest_first (snd g))))
                              groups)%list
      else Raise (sort_key_error fst (flat_map snd groups)).
Proof.
  induction groups as [|[t items] rest IH]; intros acc; cbn [select_victims flat_map snd].
  - cbn [forallb]. now rewrite app_nil_r.
  - rewrite forallb_app.
    destruct (forallb (fun x => negb (overlong (fst x))) items) eqn:Hi.
    + rewrite (py_sorted_rev_parse items Hi), IH, add_victims_flat. cbn [andb].
      destruct (forallb _ (flat_map snd rest)).
      * now rewrite <- app_assoc.
      * unfold sort_key_error. rewrite first_refused_app.
        now rewrite (first_refused_none fst items Hi).
    + cbn [andb]. unfold py_sorted_rev.
      destruct (decorate_refused fst items Hi) as (Hd & g & Hg & _).
      change (decorate (fun x => _parse_semver_for_sort (fst x)) items)
        with (decorate (fun x => _semver_key (fst x)) items).
      rewrite Hd. unfold sort_key_error. rewrite first_refused_app. now rewrite Hg.
Qed.

Lemma flat_map_map {A B C : Type} (f : B -> list C) (g : A -> B) (l : list A) :
  flat_map f (map g l) = flat_map (fun a => f (g a)) l.
Proof. induction l as [|a l IH]; simpl; [reflexivity | now rewrite IH]. Qed.

Lemma flat_map_families {B : Type} (F : string -> list B) (ts : list string) :
  flat_map snd (map (fun t => (t, F t)) ts) = flat_map F ts.
Proof. induction ts as [|t ts IH]; simpl; [reflexivity | now rewrite IH]. Qed.

(** The families hold the scanned entries, all of them. *)
Lemma families_convert (P : string * string -> bool) sc :
  forallb P (flat_map (fun t => family t sc) (first_occurrences (map fst sc)))
  = forallb (fun e => P (snd e)) sc.
Proof.
  apply Bool.eq_iff_eq_true. rewrite !forallb_forall. split.
  - intros H [t x] He. apply H. apply in_flat_map. exists t. split.
    + apply existsb_eqb_In. rewrite first_occurrences_mem. apply existsb_eqb_In.
      apply in_map_iff. now exists (t, x).
    + unfold family. apply in_map_iff. exists (t, x). split; [reflexivity|].
      apply filter_In. split; [exact He | apply String.eqb_refl].
  - intros H x Hx. apply in_flat_map in Hx as (t & _ & Hx).
    unfold family in Hx. apply in_map_iff in Hx as (e & <- & He).
    apply filter_In in He as [He _]. now apply H.
Qed.

(** The plan computed by the loops of the source is the declarative one,
    and it fails where a version cannot be given a key. *)
Lemma plan_from_listing_spec (on_disk : string -> bool) (cache_dir : string)
    (keep : positive) (entries : list string) :
  plan_from_listing on_disk cache_dir (Z.pos keep) entries
  = planned on_disk cache_dir (Pos.to_nat keep) entries.
Proof.
  unfold plan_from_listing, planned, cleanup_spec, versions_convert, versions_in_plan_order.
  cbn [Z.leb Z.compare].
  rewrite scan_entries_fold, groups_are_families, select_victims_flat.
  rewrite flat_map_families, flat_map_map.
  rewrite (families_convert (fun x => negb (overlong (fst x)))). reflexivity.
Qed.





Lemma newest_first_perm (items : list (string * string)) :
  Permutation (newest_first items) items.
Proof.
  unfold newest_first.
  rewrite (Permutation_map snd (sort_desc_perm (keyed items))).
  unfold keyed. rewrite List.map_map. simpl. now rewrite List.map_id.
Qed.









Example plan_two_families :
  plan_from_listing (fun p => String.eqb p "/c/talos-v1.0.0-metal-amd64.iso.sha256") "/c" 1
    ["talos-v1.2.0-nocloud-amd64.iso"; "talos-v1.0.0-metal-amd64.iso"; "notes.txt";
     "talos-v1.10.0-nocloud-amd64.iso"; "talos-v1.1.0-metal-amd64.iso";
     "talos-v1.0.0-metal-amd64.iso.sha256"]
  = Ok ["/c/talos-v1.2.0-nocloud-amd64.iso"; "/c/talos-v1.0.0-metal-amd64.iso";
        "/c/talos-v1.0.0-metal-amd64.iso.sha256"].
Proof. reflexivity. Qed.

(** A listing outside what a directory can hold: a name whose version
    has a patch number of 4301 digits makes the sort of its family, and
    with it the plan, raise. *)
Example plan_long_number :
  plan_from_listing (fun _ => false) "/c" 1
    ["talos-v1.2.0-nocloud-amd64.iso";
     "talos-v1.3." ++ repeat_char 4301 "7" ++ "-nocloud-amd64.iso"]
  = Raise (int_limit_error (repeat_char 4301 "7")).
Proof. vm_compute. reflexivity. Qed.

(** ** Properties of version resolution *)

(** C10: a specification that is absent or has no type is resolved as
    [latest], by a query to the latest-release endpoint, and not
    rejected; the unknown-type error is raised for a type that is given
    and is none of the three known ones. *)
Theorem resolve_version_untyped_is_latest (E : Env) (spec : pyval) (w : world) :
  (untyped_spec spec = true ->
     resolve_version E spec w = resolve_latest E w
     /\ resolve_version E spec w = resolve_version E (VDict [("type", VStr "latest")]) w
     /\ log (snd (resolve_version E spec w)) = (log w ++ [IoHttpJson GITHUB_LATEST])%list
     /\ forall d tag,
          http_json_resp E w GITHUB_LATEST = Ok (VDict d) ->
          assoc "tag_name" d = Some tag -> truthy tag = true ->
          fst (resolve_version E spec w) = Ok (tag, "latest"))
  /\ (forall d t,
        spec = VDict d -> assoc "type" d = Some t -> known_type t = false ->
        resolve_version E spec w
        = (Raise (ValueError ("Unknown version.type: " ++ py_str t)), w)).
Proof.
  split.
  - intros Hu.
    assert (Hl : resolve_version E spec w = resolve_latest E w).
    { unfold resolve_version, resolve_latest, bind, lift, http_json, raise, ret.
      assert (Ht : py_get (py_or spec (VDict [])) "type" (VStr "latest") = Ok (VStr "latest")).
      { destruct spec as [| | | | |d]; try discriminate Hu; [reflexivity|].
        simpl in Hu. destruct (assoc "type" d) eqn:Hd; [discriminate|].
        destruct d; simpl; [reflexivity|]. simpl in Hd. now rewrite Hd. }
      rewrite Ht. simpl.
      destruct (http_json_resp E w GITHUB_LATEST) as [data|e]; [|reflexivity].
      destruct (py_get data "tag_name" VNone) as [tag|e]; [|reflexivity].
      now destruct (truthy tag). }
    split; [exact Hl|]. split.
    + rewrite Hl. unfold resolve_version, resolve_latest, bind, lift, http_json, raise, ret.
      simpl.
      destruct (http_json_resp E w GITHUB_LATEST) as [data|e]; [|reflexivity].
      destruct (py_get data "tag_name" VNone) as [tag|e]; [|reflexivity].
      now destruct (truthy tag).
    + split.
      * rewrite Hl. unfold resolve_latest.
        destruct (http_json_resp E w GITHUB_LATEST) as [data|e]; [|reflexivity].
        destruct (py_get data "tag_name" VNone) as [tag|e]; [|reflexivity].
        now destruct (truthy tag).
      * intros d tag Hr Hd Ht. rewrite Hl. unfold resolve_latest.
        rewrite Hr. simpl. now rewrite Hd, Ht.
  - intros d t -> Hd Hk.
    unfold resolve_version, bind, lift, raise.
    assert (Ht : py_get (py_or (VDict d) (VDict [])) "type" (VStr "latest") = Ok t).
    { destruct d; [discriminate|]. simpl in *. now rewrite Hd. }
    rewrite Ht. unfold known_type in Hk.
    apply orb_false_elim in Hk as [Hk H3]. apply orb_false_elim in Hk as [H1 H2].
    now rewrite H1, H2, H3.
Qed.

Lemma resolve_version_untyped_is_latest_witness :
  resolve_version (demo_env true) (VDict [("value", VStr "v1.2.3")]) empty_world
    = resolve_latest (demo_env true) empty_world
  /\ resolve_version (demo_env true) (VDict [("type", VStr "newest")]) empty_world
     = (Raise (ValueError "Unknown version.type: newest"), empty_world).
Proof.
  split.
  - apply (proj1 (resolve_version_untyped_is_latest (demo_env true)
                    (VDict [("value", VStr "v1.2.3")]) empty_world)).
    reflexivity.
  - apply (proj2 (resolve_version_untyped_is_latest (demo_env true)
                    (VDict [("type", VStr "newest")]) empty_world)
             [("type", VStr "newest")] (VStr "newest")); reflexivity.
Defined.

Example resolve_version_absent :
  fst (resolve_version (demo_env true) VNone empty_world) = Ok (VStr "v1.11.0", "latest").
Proof. reflexivity. Qed.

Example resolve_version_latest_in_minor :
  fst (resolve_version (demo_env true)
         (VDict [("type", VStr "latest-in-minor"); ("minor", VStr "v1.10")]) empty_world)
  = Ok (VStr "v1.10.2-rc.1", "latest-in-minor").
Proof. reflexivity. Qed.

(** ** Properties of the batch loop *)

Section BatchLoop.
Context (E : Env) (c : ctx).

(** One round of the loop, by the three ways the body can end. *)
Lemma process_one_cases (it : pyval) (entries : list pyval) (w : world) :
  is_mapping it = true ->
  process_one E c it entries w
  = match process_item E c it (pos_name_of it) w with
    | (Ok None, w1) => (Ok entries, w1)
    | (Ok (Some entry), w1) => (Ok (entries ++ [VDict entry])%list, w1)
    | (Raise e, w1) =>
        (Ok (entries ++ [err_entry (pos_name_of it) e])%list,
         add_log (item_error_line c it e) w1)
    end.
Proof.
  destruct it as [| | | | |d]; try discriminate. intros _.
  unfold process_one, bind, lift, try_except, print_err, ret, item_error_line. simpl.
  destruct (process_item E c (VDict d) _ w) as [[[entry|]|e] w1]; reflexivity.
Qed.

Lemma process_loop_app (l1 l2 : list pyval) :
  forall entries w,
    process_loop E c (l1 ++ l2) entries w
    = match process_loop E c l1 entries w with
      | (Ok es, w1) => process_loop E c l2 es w1
      | (Raise e, w1) => (Raise e, w1)
      end.
Proof.
  induction l1 as [|it l1 IH]; intros entries w; simpl; [reflexivity|].
  unfold bind. destruct (process_one E c it entries w) as [[es|e] w1]; [apply IH | reflexivity].
Qed.

(** With mappings for items the loop returns, and what it returns
    extends the entries it started from. *)
Lemma process_loop_returns (items : list pyval) :
  forallb is_mapping items = true ->
  forall entries w,
  exists tail w',
    process_loop E c items entries w = (Ok (entries ++ tail)%list, w').
Proof.
  induction items as [|it items IH]; simpl; intros Hm entries w.
  - exists [], w. unfold ret. now rewrite app_nil_r.
  - apply andb_prop in Hm as [Hit Hitems].
    unfold bind. rewrite (process_one_cases it entries w Hit).
    destruct (process_item E c it (pos_name_of it) w) as [[[entry|]|e] w1].
    + destruct (IH Hitems (entries ++ [VDict entry])%list w1) as (tail & w' & H).
      exists (VDict entry :: tail), w'. rewrite H. now rewrite <- app_assoc.
    + apply IH, Hitems.
    + destruct (IH Hitems (entries ++ [err_entry (pos_name_of it) e])%list
                  (add_log (item_error_line c it e) w1)) as (tail & w' & H).
      exists (err_entry (pos_name_of it) e :: tail), w'. rewrite H. now rewrite <- app_assoc.
Qed.

(** An exception can leave the loop only from the name lookup on an
    item that is not a mapping. *)
Lemma process_loop_raises_only_on_non_mapping (items : list pyval) :
  forall entries w e w',
    process_loop E c items entries w = (Raise e, w') ->
    exists it, In it items /\ is_mapping it = false /\ e = no_attribute it "get".
Proof.
  induction items as [|it items IH]; simpl; intros entries w e w' H; [discriminate|].
  unfold bind in H. destruct (is_mapping it) eqn:Hit.
  - rewrite (process_one_cases it entries w Hit) in H.
    destruct (process_item E c it (pos_name_of it) w) as [[[entry|]|e1] w1];
      apply IH in H as (it' & Hin & Hm & He); eauto.
  - exists it. split; [now left|]. split; [exact Hit|].
    destruct it as [| | | | |d]; try discriminate Hit;
      unfold process_one, bind, lift in H; simpl in H; now injection H as <- _.
Qed.

(** The first item that is not a mapping ends the loop: the look-up of
    its name, which is not guarded, raises. *)
Lemma process_loop_stops_at_non_mapping (pre : list pyval) (it : pyval) (post : list pyval) :
  forallb is_mapping pre = true -> is_mapping it = false ->
  forall entries w,
  exists w', process_loop E c (pre ++ it :: post) entries w = (Raise (no_attribute it "get"), w').
Proof.
  intros Hpre Hit entries w. rewrite process_loop_app.
  destruct (process_loop_returns pre Hpre entries w) as (tail & w1 & ->).
  exists w1. cbn [process_loop]. unfold bind, process_one, bind, lift.
  destruct it as [| | | | |d]; try discriminate Hit; reflexivity.
Qed.
End BatchLoop.

(** C2, as the code has it: with the items being mappings, the loop never
    lets an exception out; when the body of an item raises, at whatever
    stage, the entry with the item's name, the status error and the class
    and message of the exception takes the item's place in the result,
    after the entries of the items before it, and the loop goes on with
    the items after it.  The one exception that leaves the loop is the
    AttributeError of the name look-up on an item that is not a mapping:
    the first such item ends the loop. *)
Theorem process_loop_isolates_failures (E : Env) (c : ctx) :
  (forall items entries w,
     forallb is_mapping items = true ->
     exists tail w', process_loop E c items entries w = (Ok (entries ++ tail)%list, w'))
  /\ (forall pre it post entries w es1 w1 e w2,
        forallb is_mapping (pre ++ it :: post) = true ->
        process_loop E c pre entries w = (Ok es1, w1) ->
        process_item E c it (pos_name_of it) w1 = (Raise e, w2) ->
        err_entry (pos_name_of it) e
          = VDict [("name", pos_name_of it); ("status", VStr "error");
                   ("error", VStr ("position failed: " ++ exc_class e ++ ": " ++ exc_msg e))]
        /\ exists tail w3,
             process_loop E c (pre ++ it :: post) entries w
               = (Ok (es1 ++ err_entry (pos_name_of it) e :: tail)%list, w3)
             /\ process_loop E c post (es1 ++ [err_entry (pos_name_of it) e])%list
                  (add_log (item_error_line c it e) w2)
                = (Ok (es1 ++ err_entry (pos_name_of it) e :: tail)%list, w3))
  /\ (forall items entries w e w',
        process_loop E c items entries w = (Raise e, w') ->
        exists it, In it items /\ is_mapping it = false /\ e = no_attribute it "get")
  /\ (forall pre it post entries w,
        forallb is_mapping pre = true -> is_mapping it = false ->
        exists w',
          process_loop E c (pre ++ it :: post) entries w = (Raise (no_attribute it "get"), w')).
Proof.
  split; [|split; [|split]]; cycle 2.
  - apply process_loop_raises_only_on_non_mapping.
  - intros pre it post entries w Hpre Hit.
    now apply process_loop_stops_at_non_mapping.
  - intros items entries w Hm. now apply process_loop_returns.
  - intros pre it post entries w es1 w1 e w2 Hm Hpre Hit.
    split; [reflexivity|].
    rewrite forallb_app in Hm. apply andb_prop in Hm as [_ Hm]. simpl in Hm.
    apply andb_prop in Hm as [Hmit Hpost].
    destruct (process_loop_returns E c post Hpost
                (es1 ++ [err_entry (pos_name_of it) e])%list
                (add_log (item_error_line c it e) w2)) as (tail & w3 & H).
    exists tail, w3. rewrite <- app_assoc in H. simpl in H. split; [|exact H].
    rewrite process_loop_app, Hpre. simpl. unfold bind.
    rewrite (process_one_cases E c it es1 w1 Hmit), Hit. exact H.
Qed.

Lemma process_loop_isolates_failures_witness :
  err_entry (pos_name_of sample_bad_item)
    (ValueError "version.type=exact requires version.value")
  = VDict [("name", VStr "second"); ("status", VStr "error");
           ("error",
            VStr "position failed: ValueError: version.type=exact requires version.value")]
  /\ exists tail w3,
       process_loop (demo_env true) sample_ctx
         ([sample_item "first"] ++ sample_bad_item :: [sample_item "third"]) [] empty_world
       = (Ok (match fst (process_loop (demo_env true) sample_ctx [sample_item "first"] []
                           empty_world) with
              | Ok es1 => es1
              | Raise _ => []
              end
              ++ err_entry (pos_name_of sample_bad_item)
                   (ValueError "version.type=exact requires version.value") :: tail)%list,
          w3).
Proof.
  destruct (proj1 (proj2 (process_loop_isolates_failures (demo_env true) sample_ctx))
              [sample_item "first"] sample_bad_item [sample_item "third"] [] empty_world
              (match fst (process_loop (demo_env true) sample_ctx [sample_item "first"] []
                            empty_world) with
               | Ok es1 => es1
               | Raise _ => []
               end)
              (snd (process_loop (demo_env true) sample_ctx [sample_item "first"] []
                      empty_world))
              (ValueError "version.type=exact requires version.value")
              (snd (process_loop (demo_env true) sample_ctx [sample_item "first"] []
                      empty_world)))
    as (Hentry & tail & w3 & H & _).
  - reflexivity.
  - vm_compute. reflexivity.
  - vm_compute. reflexivity.
  - split; [exact Hentry|]. exists tail, w3. exact H.
Defined.

(** C2 as stated fails: not every list of items is worked through.  A
    position that is not a mapping makes the look-up of its name raise,
    outside the guarded body; the exception leaves the loop and
    [process_positions], also in a plan, and the items processed before
    it are lost with it. *)
Lemma non_mapping_item_leaves_the_loop :
  ~ (forall items, exists entries w',
       process_loop (demo_env true) sample_ctx items [] empty_world = (Ok entries, w'))
  /\ fst (process_loop (demo_env true) sample_ctx [sample_item "first"; VInt 3] [] empty_world)
     = Raise (no_attribute (VInt 3) "get")
  /\ fst (process_positions (demo_env true) "o1" (VList [push_item; VInt 3]) (VDict []) true
            empty_world)
     = Raise (no_attribute (VInt 3) "get").
Proof.
  split; [|split; reflexivity].
  intros H. destruct (H [VInt 3]) as (entries & w' & Hrun). discriminate Hrun.
Qed.

Example batch_of_three :
  match fst (process_loop (demo_env true) sample_ctx
               [sample_item "first"; sample_bad_item; sample_item "third"] [] empty_world) with
  | Ok entries => map entry_brief entries
  | Raise _ => []
  end
  = [(VStr "first", VStr "done"); (VStr "second", VStr "error"); (VStr "third", VStr "done")].
Proof. reflexivity. Qed.

Example batch_of_three_error_entry :
  match fst (process_loop (demo_env true) sample_ctx
               [sample_item "first"; sample_bad_item; sample_item "third"] [] empty_world) with
  | Ok [_; second; _] => second
  | _ => VNone
  end
  = VDict [("name", VStr "second"); ("status", VStr "error");
           ("error",
            VStr "position failed: ValueError: version.type=exact requires version.value")].
Proof. reflexivity. Qed.

(** ** Properties of paths *)

Lemma prefix_empty (s : string) : String.prefix "" s = true.
Proof. now destruct s. Qed.

Lemma prefix_split (p s : string) :
  String.prefix p s = true -> exists r, s = p ++ r.
Proof.
  revert s. induction p as [|a p IH]; intros s H.
  - exists s. reflexivity.
  - destruct s as [|b s]; [discriminate H|]. simpl in H.
    destruct (Ascii.ascii_dec a b) as [->|]; [|discriminate H].
    destruct (IH s H) as [r ->]. now exists r.
Qed.

Lemma string_rev_acc_app (s acc : string) : string_rev_acc s acc = string_rev s ++ acc.
Proof.
  unfold string_rev. revert acc. induction s as [|a s IH]; intros acc; simpl; [reflexivity|].
  rewrite (IH (String a acc)), (IH (String a "")), string_app_assoc. reflexivity.
Qed.

Lemma string_rev_app (a b : string) : string_rev (a ++ b) = string_rev b ++ string_rev a.
Proof.
  induction a as [|c a IH]; simpl.
  - now rewrite app_empty_r.
  - change (string_rev (String c (a ++ b))) with (string_rev_acc (a ++ b) (String c "")).
    change (string_rev (String c a)) with (string_rev_acc a (String c "")).
    rewrite !string_rev_acc_app, IH. now rewrite string_app_assoc.
Qed.

Lemma string_rev_involutive (s : string) : string_rev (string_rev s) = s.
Proof.
  induction s as [|c s IH]; [reflexivity|].
  change (String c s) with (String c "" ++ s) at 1.
  rewrite string_rev_app, string_rev_app, IH. reflexivity.
Qed.

Lemma endswith_app (p e : string) : endswith (p ++ e) e = true.
Proof.
  unfold endswith. rewrite string_rev_app.
  induction (string_rev e) as [|c r IH]; simpl; [apply prefix_empty|].
  destruct (Ascii.ascii_dec c c); [exact IH | contradiction].
Qed.

Lemma endswith_split (s e : string) : endswith s e = true -> exists p, s = p ++ e.
Proof.
  unfold endswith. intros H. apply prefix_split in H as [r Hr].
  exists (string_rev r). apply (f_equal string_rev) in Hr.
  now rewrite string_rev_involutive, string_rev_app, string_rev_involutive in Hr.
Qed.

Lemma after_last_slash_cases (s : string) :
  forall i found,
    after_last_slash s i found = found \/ (i < after_last_slash s i found)%nat.
Proof.
  induction s as [|a s IH]; intros i found; cbn [after_last_slash]; [now left|].
  destruct (IH (S i) (if Ascii.eqb a "/" then S i else found)) as [H|H].
  - rewrite H. destruct (Ascii.eqb a "/"); [right; lia | now left].
  - right. lia.
Qed.

Lemma after_last_slash_found (a b : string) :
  forall i found, (i < after_last_slash (a ++ String "/" b) i found)%nat.
Proof.
  induction a as [|c a IH]; intros i found; cbn [String.append after_last_slash].
  - cbn [Ascii.eqb Bool.eqb]. destruct (after_last_slash_cases b (S i) (S i)); lia.
  - specialize (IH (S i) (if Ascii.eqb c "/" then S i else found)). lia.
Qed.

Lemma all_slashes_rev_acc (s : string) :
  forall acc, all_slashes (string_rev_acc s acc) = (all_slashes s && all_slashes acc)%bool.
Proof.
  induction s as [|a s IH]; intros acc; cbn [string_rev_acc all_slashes]; [reflexivity|].
  rewrite IH. cbn [all_slashes]. now destruct (Ascii.eqb a "/"), (all_slashes s).
Qed.

Lemma lstrip_slashes_empty (s : string) : lstrip_char "/" s = "" -> all_slashes s = true.
Proof.
  induction s as [|a s IH]; cbn [lstrip_char all_slashes]; [reflexivity|].
  destruct (Ascii.eqb a "/"); [exact IH | discriminate].
Qed.

Lemma string_rev_acc_empty (s : string) :
  forall acc, string_rev_acc s acc = "" -> s = "" /\ acc = "".
Proof.
  induction s as [|a s IH]; intros acc; cbn [string_rev_acc]; [now intros ->|].
  intros H. apply IH in H as [_ H]. discriminate H.
Qed.

Lemma rstrip_slashes_nonempty (s : string) :
  all_slashes s = false -> rstrip_char "/" s <> "".
Proof.
  intros Hs H. unfold rstrip_char, string_rev in H.
  apply string_rev_acc_empty in H as [H _]. apply lstrip_slashes_empty in H.
  unfold string_rev in H. rewrite all_slashes_rev_acc in H. cbn [all_slashes] in H.
  rewrite andb_true_r in H. congruence.
Qed.

(** A path with a slash has a directory part. *)
Lemma path_dirname_with_slash (a b : string) : path_dirname (a ++ String "/" b) <> "".
Proof.
  unfold path_dirname.
  pose proof (after_last_slash_found a b 0 0) as Hn.
  destruct (after_last_slash (a ++ String "/" b) 0 0) as [|n]; [lia|].
  assert (Hh : String.substring 0 (S n) (a ++ String "/" b) <> "")
    by (destruct a; cbn [String.append String.substring]; discriminate).
  destruct (String.eqb_spec (String.substring 0 (S n) (a ++ String "/" b)) "") as [He|_];
    [contradiction|].
  cbn [negb andb].
  destruct (all_slashes (String.substring 0 (S n) (a ++ String "/" b))) eqn:Hs;
    cbn [negb]; [exact Hh | now apply rstrip_slashes_nonempty].
Qed.

Lemma startswith_slash (b : string) :
  startswith b "/" = true -> exists r, b = String "/" r.
Proof.
  unfold startswith. destruct b as [|c b]; cbn [String.prefix]; [discriminate|].
  destruct (Ascii.ascii_dec "/" c) as [<-|]; [eauto | discriminate].
Qed.

Lemma endswith_slash (a : string) :
  endswith a "/" = true -> exists r, a = r ++ "/".
Proof. apply endswith_split. Qed.

(** A path below a directory that has a name has a directory part. *)
Lemma path_join_dirname_empty (cdir name : string) :
  path_dirname (path_join cdir name) = "" -> cdir = "".
Proof.
  unfold path_join. intros H.
  destruct (startswith name "/") eqn:Hs.
  - apply startswith_slash in Hs as [r ->].
    now apply (path_dirname_with_slash "" r) in H.
  - destruct (String.eqb_spec cdir "") as [->|Hne]; [reflexivity|]. cbn [orb] in H.
    destruct (endswith cdir "/") eqn:He.
    + apply endswith_slash in He as [r ->]. rewrite string_app_assoc in H.
      now apply path_dirname_with_slash in H.
    + now apply (path_dirname_with_slash cdir name) in H.
Qed.

(** ** Properties of the fetch *)

Lemma assoc_dict_set_eq (k : string) (v : pyval) (d : list (string * pyval)) :
  assoc k (dict_set k v d) = Some v.
Proof.
  induction d as [|[k' v'] d IH]; simpl; [now rewrite String.eqb_refl|].
  destruct (String.eqb k k') eqn:Hk; simpl; rewrite ?String.eqb_refl, ?Hk; auto.
Qed.

Lemma assoc_dict_set_ne (k k' : string) (v : pyval) (d : list (string * pyval)) :
  k <> k' -> assoc k' (dict_set k v d) = assoc k' d.
Proof.
  intros Hne. induction d as [|[k0 v0] d IH]; simpl.
  - destruct (String.eqb_spec k' k); [congruence | reflexivity].
  - destruct (String.eqb_spec k k0) as [->|]; simpl.
    + destruct (String.eqb_spec k' k0); [congruence | reflexivity].
    + destruct (String.eqb k' k0); [reflexivity | exact IH].
Qed.

Lemma entry_set2_download (entry : entry_t) (k : string) (v : pyval) (d : list (string * pyval)) :
  assoc "download" entry = Some (VDict d) ->
  assoc "download" (entry_set2 entry "download" k v) = Some (VDict (dict_set k v d)).
Proof. intros H. unfold entry_set2. rewrite H. apply assoc_dict_set_eq. Qed.

Lemma has_download_inv (entry : entry_t) :
  has_download entry = true -> exists d, assoc "download" entry = Some (VDict d).
Proof.
  unfold has_download. destruct (assoc "download" entry) as [[| | | | |d]|]; try discriminate.
  eauto.
Qed.

(** The entry as the fetch leaves it carries the digest it was given. *)
Lemma entry_sha256_recorded (entry : entry_t) (sha : string) (size : Z) :
  has_download entry = true ->
  entry_sha256 (entry_set2 (entry_set2 entry "download" "sha256" (VStr sha))
                  "download" "size_bytes" (VInt size))
  = Some (VStr sha).
Proof.
  intros H. destruct (has_download_inv entry H) as [d Hd].
  unfold entry_sha256.
  rewrite (entry_set2_download _ "size_bytes" _ _ (entry_set2_download _ "sha256" _ _ Hd)).
  rewrite assoc_dict_set_ne by discriminate. apply assoc_dict_set_eq.
Qed.

Lemma has_download_set2 (entry : entry_t) (k : string) (v : pyval) :
  has_download entry = true -> has_download (entry_set2 entry "download" k v) = true.
Proof.
  intros H. destruct (has_download_inv entry H) as [d Hd].
  unfold has_download. now rewrite (entry_set2_download _ k v d Hd).
Qed.

Lemma sidecar_ne (p : string) : p ++ ".sha256" <> p.
Proof.
  intros H. apply (f_equal String.length) in H. rewrite string_length_app in H.
  simpl in H. lia.
Qed.

Lemma cached_nonempty_inv (w : world) (p : string) :
  cached_nonempty w p = true -> exists c, files w !! p = Some c /\ c <> "".
Proof.
  unfold cached_nonempty. destruct (files w !! p) as [c|]; [|discriminate].
  intros H. exists c. split; [reflexivity|]. intros ->. discriminate H.
Qed.

Lemma cached_nonempty_intro (w : world) (p c : string) :
  files w !! p = Some c -> c <> "" -> cached_nonempty w p = true.
Proof.
  unfold cached_nonempty. intros -> Hc. destruct c; [congruence | reflexivity].
Qed.

(** What a sequence returns, step by step. *)
Lemma bind_ok {A B : Type} (m : M A) (k : A -> M B) (w w' : world) (b : B) :
  bind m k w = (Ok b, w') -> exists a w1, m w = (Ok a, w1) /\ k a w1 = (Ok b, w').
Proof.
  unfold bind. destruct (m w) as [[a|e] w1]; [eauto | discriminate].
Qed.

Section Fetch.
Context (E : Env).

Lemma read_file_ok (p c : string) (w w' : world) :
  read_file E p w = (Ok c, w') ->
  files w !! p = Some c /\ w' = add_log (IoRead p) w.
Proof.
  unfold read_file. destruct (fs_fault E w (IoRead p)); [discriminate|].
  destruct (files w !! p); [|discriminate]. now intros [= -> <-].
Qed.

Lemma write_file_ok (p c : string) (w w' : world) :
  write_file E p c w = (Ok tt, w') ->
  w' = {| files := <[p := c]> (files w); log := (log w ++ [IoWrite p c])%list |}.
Proof.
  unfold write_file. destruct (fs_fault E w (IoWrite p c)); [discriminate|].
  now intros [= <-].
Qed.

Lemma getsize_ok (p : string) (n : Z) (w w' : world) :
  getsize p w = (Ok n, w') -> w' = w.
Proof.
  unfold getsize. destruct (files w !! p); [|discriminate]. now intros [= _ <-].
Qed.

(** A download that returns has put a file at its destination. *)
Lemma http_download_ok (url dest : string) (w w' : world) :
  http_download E url dest w = (Ok tt, w') ->
  exists body, files w' !! dest = Some body /\ In (IoHttpDownload url) (log w').
Proof.
  unfold http_download. intros H.
  apply bind_ok in H as ([] & w1 & _ & H).
  apply bind_ok in H as (outcome & w2 & Ho & H).
  injection Ho as <- <-.
  destruct (http_fetch E w1 url) as [e|partial e|body].
  - discriminate H.
  - apply bind_ok in H as ([] & w3 & _ & H). discriminate H.
  - apply bind_ok in H as ([] & w3 & Hw & H).
    apply write_file_ok in Hw. subst w3.
    unfold replace_file in H. simpl in H.
    destruct (fs_fault E _ _); [discriminate|].
    rewrite lookup_insert_eq in H. injection H as <-. simpl.
    exists body. split; [apply lookup_insert_eq|].
    rewrite !in_app_iff. simpl. tauto.
Qed.

(** Whenever the fetch returns, the digest in the entry and in the
    sidecar is that of the file now on disk. *)
Lemma fetch_artifact_ok (oid url local_path : string) (entry entry' : entry_t) (w w' : world) :
  has_download entry = true ->
  fetch_artifact E oid url local_path entry w = (Ok entry', w') ->
  exists c,
    files w' !! local_path = Some c
    /\ entry_sha256 entry' = Some (VStr (sha256_hex E c))
    /\ files w' !! (local_path ++ ".sha256") = Some (sha256_hex E c ++ String nl "").
Proof.
  intros Hd H. unfold fetch_artifact in H.
  apply bind_ok in H as (cached & w0 & Hc & H). injection Hc as <- <-.
  apply bind_ok in H as (entry1 & w1 & H1 & H).
  assert (Hd1 : has_download entry1 = true).
  { destruct (cached_nonempty w local_path).
    - simpl in H1. apply bind_ok in H1 as ([] & ? & _ & H1). now injection H1 as <- _.
    - simpl in H1. apply bind_ok in H1 as ([] & ? & _ & H1).
      apply bind_ok in H1 as ([] & ? & _ & H1). injection H1 as <- _.
      now apply has_download_set2. }
  apply bind_ok in H as (sha & w2 & Hsha & H).
  unfold sha256_file in Hsha. apply bind_ok in Hsha as (c & w2' & Hr & Hsha).
  injection Hsha as <- <-. apply read_file_ok in Hr as [Hc ->].
  apply bind_ok in H as (size & w3 & Hs & H). apply getsize_ok in Hs. subst w3.
  apply bind_ok in H as ([] & w4 & Hw & H). injection H as <- <-.
  apply write_file_ok in Hw. subst w4. simpl.
  exists c. split; [|split].
  - rewrite lookup_insert_ne by apply sidecar_ne. exact Hc.
  - now apply entry_sha256_recorded.
  - apply lookup_insert_eq.
Qed.

Lemma bind_run {A B : Type} (m : M A) (k : A -> M B) (w w1 : world) (a : A) :
  m w = (Ok a, w1) -> bind m k w = k a w1.
Proof. unfold bind. now intros ->. Qed.

Lemma read_file_run (p c : string) (w : world) :
  no_fault E -> files w !! p = Some c ->
  read_file E p w = (Ok c, add_log (IoRead p) w).
Proof. intros Hnf Hc. unfold read_file. now rewrite Hnf, Hc. Qed.

Lemma write_file_run (p c : string) (w : world) :
  no_fault E ->
  write_file E p c w
  = (Ok tt, {| files := <[p := c]> (files w); log := (log w ++ [IoWrite p c])%list |}).
Proof. intros Hnf. unfold write_file. now rewrite Hnf. Qed.

Lemma getsize_run (p c : string) (w : world) :
  files w !! p = Some c -> getsize p w = (Ok (Z.of_nat (String.length c)), w).
Proof. intros Hc. unfold getsize. now rewrite Hc. Qed.

(** With the file present and not empty the fetch returns without any
    transfer: it prints, reads the file and writes the sidecar. *)
Lemma fetch_artifact_cached (oid url local_path c : string) (entry : entry_t) (w : world) :
  no_fault E -> has_download entry = true ->
  files w !! local_path = Some c -> c <> "" ->
  fetch_artifact E oid url local_path entry w
  = (Ok (entry_set2 (entry_set2 entry "download" "sha256" (VStr (sha256_hex E c)))
           "download" "size_bytes" (VInt (Z.of_nat (String.length c)))),
     {| files := <[local_path ++ ".sha256" := sha256_hex E c ++ String nl ""]> (files w);
        log := (log w ++ [IoPrint ("[" ++ oid ++ "] Cached: " ++ local_path);
                          IoRead local_path;
                          IoWrite (local_path ++ ".sha256")
                            (sha256_hex E c ++ String nl "")])%list |}).
Proof.
  intros Hnf Hd Hc Hne.
  unfold fetch_artifact.
  erewrite bind_run by reflexivity.
  rewrite (cached_nonempty_intro w local_path c Hc Hne). cbn [negb].
  erewrite bind_run by (erewrite bind_run by reflexivity; reflexivity).
  unfold sha256_file.
  erewrite bind_run
    by (erewrite bind_run by (apply read_file_run; [exact Hnf | exact Hc]); reflexivity).
  erewrite bind_run by (apply getsize_run; exact Hc).
  erewrite bind_run by (apply write_file_run; exact Hnf).
  unfold ret, add_log. cbn [files log]. now rewrite <- !app_assoc.
Qed.

Lemma fs_step_run (ev : io) (w : world) :
  no_fault E -> fs_step E ev w = (Ok tt, add_log ev w).
Proof. intros Hnf. unfold fs_step. now rewrite Hnf. Qed.

Lemma replace_file_run (src dst c : string) (w : world) :
  no_fault E -> files w !! src = Some c ->
  replace_file E src dst w
  = (Ok tt, {| files := <[dst := c]> (delete src (files w));
               log := (log w ++ [IoReplace src dst])%list |}).
Proof. intros Hnf Hc. unfold replace_file. now rewrite Hnf, Hc. Qed.

(** A download whose transfer completes returns, with the body at the
    destination. *)
Lemma makedirs_run (path : string) (w : world) :
  no_fault E -> path <> "" -> makedirs E path w = (Ok tt, add_log (IoMakedirs path) w).
Proof.
  intros Hnf Hp. unfold makedirs.
  destruct (String.eqb_spec path ""); [contradiction | now apply fs_step_run].
Qed.


Lemma http_download_run (url dest body : string) (w : world) :
  no_fault E -> path_dirname dest <> "" ->
  (forall w0, http_fetch E w0 url = Complete body) ->
  exists w',
    http_download E url dest w = (Ok tt, w')
    /\ files w' !! dest = Some body
    /\ In (IoHttpDownload url) (log w').
Proof.
  intros Hnf Hdir Hfetch. unfold http_download.
  erewrite bind_run by (apply makedirs_run; [exact Hnf | exact Hdir]).
  erewrite bind_run by reflexivity. rewrite Hfetch.
  erewrite bind_run by (apply write_file_run; exact Hnf).
  erewrite replace_file_run by (exact Hnf || (cbn [files]; apply lookup_insert_eq)).
  eexists. split; [reflexivity|]. cbn [files log add_log]. split.
  - apply lookup_insert_eq.
  - rewrite !in_app_iff. simpl. tauto.
Qed.

Lemma fetch_artifact_downloads (oid url local_path body : string) (entry : entry_t) (w : world) :
  no_fault E -> has_download entry = true ->
  cached_nonempty w local_path = false ->
  path_dirname local_path <> "" ->
  (forall w0, http_fetch E w0 url = Complete body) ->
  exists entry' w',
    fetch_artifact E oid url local_path entry w = (Ok entry', w')
    /\ In (IoHttpDownload url) (log w')
    /\ files w' !! local_path = Some body
    /\ entry_sha256 entry' = Some (VStr (sha256_hex E body))
    /\ files w' !! (local_path ++ ".sha256") = Some (sha256_hex E body ++ String nl "").
Proof.
  intros Hnf Hd Hc Hdir Hfetch.
  unfold fetch_artifact.
  erewrite bind_run by reflexivity. rewrite Hc. cbn [negb].
  destruct (http_download_run url local_path body
              (add_log (IoPrint ("[" ++ oid ++ "] Downloading " ++ url ++ " -> " ++ local_path)) w)
              Hnf Hdir Hfetch) as (w1 & Hdl & Hfile & Hlog).
  erewrite bind_run
    by (erewrite bind_run by reflexivity; erewrite bind_run by exact Hdl; reflexivity).
  unfold sha256_file.
  erewrite bind_run
    by (erewrite bind_run by (apply read_file_run; [exact Hnf | exact Hfile]); reflexivity).
  erewrite bind_run by (apply getsize_run; exact Hfile).
  erewrite bind_run by (apply write_file_run; exact Hnf).
  eexists. eexists. split; [reflexivity|]. cbn [files log add_log].
  split; [|split; [|split]].
  - rewrite !in_app_iff. tauto.
  - rewrite lookup_insert_ne by apply sidecar_ne. exact Hfile.
  - apply entry_sha256_recorded. now apply has_download_set2.
  - apply lookup_insert_eq.
Qed.

(** A path with no directory part: the download stops at the directory
    it would create, before any transfer. *)
Lemma fetch_artifact_no_directory (oid url local_path : string) (entry : entry_t) (w : world) :
  cached_nonempty w local_path = false ->
  path_dirname local_path = "" ->
  fetch_artifact E oid url local_path entry w
  = (Raise (FileNotFoundError ""),
     add_log (IoPrint ("[" ++ oid ++ "] Downloading " ++ url ++ " -> " ++ local_path)) w).
Proof.
  intros Hc Hdir. unfold fetch_artifact, http_download, makedirs, bind, print, raise.
  rewrite Hc, Hdir. reflexivity.
Qed.
End Fetch.

(** C4: with the file present and not empty the fetch makes no transfer;
    whether or not a transfer happened, a fetch that returns has
    recomputed the checksum from the file on disk and written it to the
    sidecar; a transfer that completes makes the fetch return, the path
    having a directory part, as the paths of the cache have, and without
    one the fetch stops before any transfer; and a second fetch after one
    that left a non-empty file makes no transfer and records the same
    checksum. *)
Theorem fetch_artifact_idempotent (E : Env) (oid url local_path : string) (entry : entry_t)
    (w : world) :
  no_fault E -> has_download entry = true ->
  (forall c, files w !! local_path = Some c -> c <> "" ->
     exists entry' w' evs,
       fetch_artifact E oid url local_path entry w = (Ok entry', w')
       /\ log w' = (log w ++ evs)%list /\ forallb (fun ev => negb (is_transfer ev)) evs = true
       /\ files w' !! local_path = Some c
       /\ entry_sha256 entry' = Some (VStr (sha256_hex E c))
       /\ files w' !! (local_path ++ ".sha256") = Some (sha256_hex E c ++ String nl ""))
  /\ (forall entry' w',
        fetch_artifact E oid url local_path entry w = (Ok entry', w') ->
        exists c,
          files w' !! local_path = Some c
          /\ entry_sha256 entry' = Some (VStr (sha256_hex E c))
          /\ files w' !! (local_path ++ ".sha256") = Some (sha256_hex E c ++ String nl ""))
  /\ (forall body,
        cached_nonempty w local_path = false ->
        (forall w0, http_fetch E w0 url = Complete body) ->
        if String.eqb (path_dirname local_path) ""
        then fetch_artifact E oid url local_path entry w
             = (Raise (FileNotFoundError ""),
                add_log (IoPrint ("[" ++ oid ++ "] Downloading " ++ url ++ " -> "
                                  ++ local_path)) w)
        else exists entry' w',
               fetch_artifact E oid url local_path entry w = (Ok entry', w')
               /\ In (IoHttpDownload url) (log w')
               /\ files w' !! local_path = Some body
               /\ entry_sha256 entry' = Some (VStr (sha256_hex E body)))
  /\ (forall cdir name, path_dirname (path_join cdir name) = "" -> cdir = "")
  /\ (forall entry1 w1 entry0,
        fetch_artifact E oid url local_path entry w = (Ok entry1, w1) ->
        cached_nonempty w1 local_path = true ->
        has_download entry0 = true ->
        exists entry2 w2 evs,
          fetch_artifact E oid url local_path entry0 w1 = (Ok entry2, w2)
          /\ log w2 = (log w1 ++ evs)%list
          /\ forallb (fun ev => negb (is_transfer ev)) evs = true
          /\ entry_sha256 entry2 = entry_sha256 entry1).
Proof.
  intros Hnf Hd. split; [|split; [|split; [|split]]].
  - intros c Hc Hne. eexists. eexists. eexists.
    split; [apply (fetch_artifact_cached E oid url local_path c entry w Hnf Hd Hc Hne)|].
    cbn [files log]. split; [reflexivity|]. split; [reflexivity|]. split; [|split].
    + rewrite lookup_insert_ne by apply sidecar_ne. exact Hc.
    + now apply entry_sha256_recorded.
    + apply lookup_insert_eq.
  - intros entry' w' H. now apply (fetch_artifact_ok E oid url local_path entry entry' w w').
  - intros body Hc Hfetch.
    destruct (String.eqb_spec (path_dirname local_path) "") as [Hdir|Hdir].
    + now apply fetch_artifact_no_directory.
    + destruct (fetch_artifact_downloads E oid url local_path body entry w Hnf Hd Hc Hdir
                  Hfetch) as (entry' & w' & H1 & H2 & H3 & H4 & _).
      exists entry', w'. auto.
  - apply path_join_dirname_empty.
  - intros entry1 w1 entry0 H1 Hc1 Hd0.
    destruct (fetch_artifact_ok E oid url local_path entry entry1 w w1 Hd H1)
      as (c & Hfile & Hsha & _).
    destruct (cached_nonempty_inv w1 local_path Hc1) as (c' & Hfile' & Hne).
    assert (c' = c) by congruence. subst c'.
    eexists. eexists. eexists.
    split; [apply (fetch_artifact_cached E oid url local_path c entry0 w1 Hnf Hd0 Hfile Hne)|].
    cbn [files log]. split; [reflexivity|]. split; [reflexivity|].
    rewrite Hsha. now apply entry_sha256_recorded.
Qed.

Lemma fetch_artifact_idempotent_witness :
  exists entry' w' evs,
    fetch_artifact (demo_env true) "o1" sample_url sample_path sample_entry cached_world
      = (Ok entry', w')
    /\ log w' = (log cached_world ++ evs)%list
    /\ forallb (fun ev => negb (is_transfer ev)) evs = true
    /\ files w' !! sample_path = Some "IMAGE"
    /\ entry_sha256 entry' = Some (VStr (sha256_hex (demo_env true) "IMAGE"))
    /\ files w' !! (sample_path ++ ".sha256")
       = Some (sha256_hex (demo_env true) "IMAGE" ++ String nl "").
Proof.
  apply (proj1 (fetch_artifact_idempotent (demo_env true) "o1" sample_url sample_path
                  sample_entry cached_world (fun _ _ => eq_refl) eq_refl) "IMAGE").
  - reflexivity.
  - discriminate.
Defined.

(** Two runs of one order from an empty disk: the first downloads, the
    second does not, and both record the same checksum. *)
Example two_runs_one_download :
  let run := process_positions (demo_env true) "o1" (VList [sample_item "first"]) (VDict []) false in
  let r1 := run empty_world in
  let r2 := run (snd r1) in
  List.length (downloads_after 0 (snd r1)) = 1%nat
  /\ downloads_after (List.length (log (snd r1))) (snd r2) = []
  /\ recorded_checksums (fst r1) = [Some (VStr "digest-of-IMAGE")]
  /\ recorded_checksums (fst r2) = recorded_checksums (fst r1).
Proof. vm_compute. repeat split. Qed.

(** ** Properties of the tool check *)

Section ToolCheck.
Context (E : Env).

Lemma lift_ok {A : Type} (r : result A) (a : A) (w w' : world) :
  lift r w = (Ok a, w') -> r = Ok a /\ w' = w.
Proof. unfold lift. now intros [= -> <-]. Qed.


(** What the preparation comes to for defaults that are a mapping. *)
Lemma prepare_run (oid : string) (d pd : list (string * pyval)) (dry : bool)
    (cdir : string) (items : list pyval) (w : world) :
  defaults_give E w d cdir pd ->
  prepare E oid (VList items) (VDict d) dry w
  = (match any_requests_push (truthy (get_or pd "enabled" (VBool false))) items with
     | Ok b => Ok (settings_of oid d dry cdir pd, items, b)
     | Raise e => Raise e
     end, add_log (IoMakedirs cdir) w).
Proof.
  intros (Hc & Hne & Hf & Hp). unfold get_or in Hc, Hp.
  unfold prepare, bind, lift, path_arg, makedirs, fs_step, ret, raise.
  cbn [py_get py_iter]. rewrite Hc.
  destruct (String.eqb_spec cdir "") as [|_]; [contradiction|].
  rewrite Hf, Hp. cbn [py_get]. unfold settings_of, get_or.
  now destruct (any_requests_push _ items).
Qed.

Lemma ensure_tools_missing (tool : string) (w : world) :
  missing_tool E tool ->
  exists w' probes,
    ensure_tools_for_push E w = (Ok (false, "Missing dependency: " ++ tool), w')
    /\ files w' = files w /\ log w' = (log w ++ probes)%list
    /\ forallb is_probe probes = true.
Proof.
  intros [[-> Hr]|(-> & Hr & Hs)]; unfold ensure_tools_for_push, bind, run.
  - destruct (Hr w) as (rc & out & err & Hrun & Hrc). unfold tool_check in Hrun.
    simpl in Hrun. rewrite Hrun.
    destruct (Z.eqb_spec rc 0); [contradiction|]. simpl.
    eexists. exists [IoRun ["bash"; "-lc"; "command -v rsync"]]. repeat split.
  - destruct (Hr w) as (out & err & Hrun). unfold tool_check in Hrun.
    simpl in Hrun. rewrite Hrun. simpl.
    destruct (Hs (add_log (IoRun ["bash"; "-lc"; "command -v rsync"]) w))
      as (rc & out' & err' & Hrun' & Hrc).
    unfold tool_check in Hrun'. simpl in Hrun'. rewrite Hrun'.
    destruct (Z.eqb_spec rc 0); [contradiction|]. simpl.
    eexists. exists [IoRun ["bash"; "-lc"; "command -v rsync"];
                     IoRun ["bash"; "-lc"; "command -v ssh"]].
    split; [reflexivity|]. split; [reflexivity|]. split; [|reflexivity].
    simpl. now rewrite <- app_assoc.
Qed.
End ToolCheck.

Lemma any_requests_push_true (d : bool) (items : list pyval) :
  any_requests_push d items = Ok true ->
  exists pre it post,
    items = (pre ++ it :: post)%list /\ requests_push d it = Ok true.
Proof.
  induction items as [|it items IH]; simpl; [discriminate|].
  destruct (requests_push d it) as [[|]|e] eqn:Hit; try discriminate.
  - intros _. now exists [], it, items.
  - intros H. destruct (IH H) as (pre & it' & post & -> & Hr).
    now exists (it :: pre), it', post.
Qed.

(** An item requests a push when its [push] mapping has hosts and is
    enabled, by itself or by the default. *)
Lemma requests_push_true (d : bool) (it : pyval) :
  requests_push d it = Ok true <->
  exists p hosts en,
    py_get it "push" (VDict []) = Ok p
    /\ py_get p "hosts" VNone = Ok hosts /\ truthy hosts = true
    /\ py_get p "enabled" (VBool d) = Ok en /\ truthy en = true.
Proof.
  unfold requests_push. split.
  - destruct (py_get it "push" (VDict [])) as [p|e] eqn:Hp; [|discriminate].
    destruct (py_get p "hosts" VNone) as [hosts|e] eqn:Hhosts; [|discriminate].
    destruct (truthy hosts) eqn:Hh; [|discriminate].
    destruct (py_get p "enabled" (VBool d)) as [en|e] eqn:Hen; [|discriminate].
    intros [= Ht]. exists p, hosts, en. repeat split; assumption || reflexivity.
  - intros (p & hosts & en & -> & -> & -> & -> & ->). reflexivity.
Qed.

(** The test of the generator stops at the first item that requests a
    push; the items before it must have a push setting that can be read. *)
Lemma any_requests_push_first (d : bool) (pre : list pyval) (it : pyval) (post : list pyval) :
  Forall (fun x => requests_push d x = Ok false) pre ->
  requests_push d it = Ok true ->
  any_requests_push d (pre ++ it :: post) = Ok true.
Proof.
  intros Hpre Hit. induction Hpre as [|x pre Hx _ IH]; cbn [app any_requests_push].
  - now rewrite Hit.
  - now rewrite Hx.
Qed.

(** C1, as the code has it: when an item of the order requests a push,
    the push settings of the items in front of it can be read, and the
    run is not planning-only, a missing rsync or ssh is found before any
    item of the order is processed: [process_positions] raises
    RuntimeError "Missing dependency: ..." after nothing but the creation
    of the cache directory and the probes; [main] turns this into the
    single error entry of that order's manifest.  The probes are made
    only when some item requests a push; planning-only runs and orders
    without push make none. *)
Theorem push_tools_checked_before_items (E : Env) (oid : string)
    (d pd : list (string * pyval)) (cdir : string) (pre : list pyval) (it : pyval)
    (post : list pyval) (w : world) (tool : string) :
  defaults_give E w d cdir pd ->
  Forall (fun x => requests_push (truthy (get_or pd "enabled" (VBool false))) x = Ok false)
    pre ->
  requests_push (truthy (get_or pd "enabled" (VBool false))) it = Ok true ->
  missing_tool E tool ->
  (exists w2 probes,
     process_positions E oid (VList (pre ++ it :: post)) (VDict d) false w
       = (Raise (RuntimeError ("Missing dependency: " ++ tool)), w2)
     /\ files w2 = files w
     /\ log w2 = (log w ++ IoMakedirs cdir :: probes)%list
     /\ forallb is_probe probes = true
     /\ order_entries E oid (VList (pre ++ it :: post)) (VDict d) false w
        = (Ok [order_err_entry (RuntimeError ("Missing dependency: " ++ tool))],
           add_log (order_error_line oid (RuntimeError ("Missing dependency: " ++ tool))) w2))
  /\ (forall en items,
        any_requests_push en items = Ok true ->
        exists pre' it' post',
          items = (pre' ++ it' :: post')%list /\ requests_push en it' = Ok true)
  /\ (forall en x,
        requests_push en x = Ok true <->
        exists p hosts enabled,
          py_get x "push" (VDict []) = Ok p
          /\ py_get p "hosts" VNone = Ok hosts /\ truthy hosts = true
          /\ py_get p "enabled" (VBool en) = Ok enabled /\ truthy enabled = true)
  /\ (forall need w0, check_push_tools E need true w0 = (Ok tt, w0))
  /\ (forall dry w0, check_push_tools E false dry w0 = (Ok tt, w0)).
Proof.
  intros Hd Hpre Hit Hmiss. split; [|split; [|split; [|split]]].
  - pose proof (prepare_run E oid d pd false cdir (pre ++ it :: post) w Hd) as Hprep.
    rewrite (any_requests_push_first _ pre it post Hpre Hit) in Hprep.
    destruct (ensure_tools_missing E tool (add_log (IoMakedirs cdir) w) Hmiss)
      as (w2 & probes & Hens & Hfiles & Hlog & Hprobes).
    assert (Hpp : process_positions E oid (VList (pre ++ it :: post)) (VDict d) false w
                  = (Raise (RuntimeError ("Missing dependency: " ++ tool)), w2)).
    { unfold process_positions. erewrite bind_run by exact Hprep.
      unfold check_push_tools. cbn [andb negb].
      unfold bind at 1. unfold bind at 1. now rewrite Hens. }
    exists w2, probes. split; [exact Hpp|]. split; [exact Hfiles|].
    split; [rewrite Hlog; cbn [add_log log]; now rewrite <- app_assoc|].
    split; [exact Hprobes|].
    unfold order_entries, try_except. rewrite Hpp. reflexivity.
  - intros en items. apply any_requests_push_true.
  - intros en x. apply requests_push_true.
  - intros need w0. unfold check_push_tools. now rewrite andb_false_r.
  - intros dry w0. reflexivity.
Qed.

Lemma push_tools_checked_before_items_witness :
  exists w2 probes,
    process_positions (demo_env false) "o1" (VList [push_item]) (VDict []) false empty_world
      = (Raise (RuntimeError ("Missing dependency: " ++ "rsync")), w2)
    /\ files w2 = files empty_world
    /\ log w2 = (log empty_world ++ IoMakedirs (cache_dir sample_ctx) :: probes)%list
    /\ forallb is_probe probes = true
    /\ order_entries (demo_env false) "o1" (VList [push_item]) (VDict []) false empty_world
       = (Ok [order_err_entry (RuntimeError ("Missing dependency: " ++ "rsync"))],
          add_log (order_error_line "o1" (RuntimeError ("Missing dependency: " ++ "rsync"))) w2).
Proof.
  refine (proj1 (push_tools_checked_before_items (demo_env false) "o1" [] []
                   "/var/cache/talos-sync" [] push_item [] empty_world "rsync" _ _ _ _)).
  - repeat split. discriminate.
  - constructor.
  - reflexivity.
  - left. split; [reflexivity|]. intros w. exists 1, "", "".
    split; [reflexivity | discriminate].
Defined.

(** An item in front whose [push] is no mapping: the test of line 334
    raises on it, so that no probe is made and the missing tool goes
    unnoticed; the order fails with the AttributeError instead. *)
Example unreadable_push_hides_missing_tool :
  missing_tool (demo_env false) "rsync"
  /\ requests_push false push_item = Ok true
  /\ process_positions (demo_env false) "o1" (VList [null_push_item; push_item]) (VDict [])
       false empty_world
     = (Raise (no_attribute VNone "get"),
        add_log (IoMakedirs "/var/cache/talos-sync") empty_world).
Proof.
  split; [|split; reflexivity].
  left. split; [reflexivity|]. intros w. exists 1, "", "".
  split; [reflexivity | discriminate].
Qed.

(** C1 as stated fails: with rsync missing and a push requested by the
    first order the run is not aborted.  [main] returns, the manifest of
    the first order holds the failure as its only entry, and the second
    order is processed, download included. *)
Lemma missing_tool_does_not_abort_run :
  missing_tool (demo_env false) "rsync"
  /\ (exists c items w1,
        prepare (demo_env false) "o1" (VList [push_item]) (VDict []) false empty_world
        = (Ok (c, items, true), w1))
  /\ let r := main (demo_env false) (sample_args false) (VDict []) two_orders empty_world in
     fst r = Ok tt
     /\ contains_sub
          "'entries': [{'status': 'error', 'error': 'order failed: RuntimeError: Missing dependency: rsync'}]"
          (manifest_of (snd r) "o1") = true
     /\ In (IoHttpDownload sample_url) (log (snd r))
     /\ contains_sub "'name': 'plain'" (manifest_of (snd r) "o2") = true.
Proof.
  split; [|split].
  - left. split; [reflexivity|]. intros w. exists 1, "", "".
    split; [reflexivity | discriminate].
  - eexists. eexists. eexists. vm_compute. reflexivity.
  - vm_compute. repeat split. repeat (first [left; reflexivity | right]).
Qed.

(** ** Properties of planning-only runs *)

Section Effects.
Context (E : Env) (P : io -> bool).

Lemma ew_ret {A : Type} (a : A) : effects_within P (ret a).
Proof. intros w. split; [reflexivity|]. exists []. now rewrite app_nil_r. Qed.

Lemma ew_raise {A : Type} (e : exc) : effects_within P (@raise A e).
Proof. intros w. split; [reflexivity|]. exists []. now rewrite app_nil_r. Qed.

Lemma ew_lift {A : Type} (r : result A) : effects_within P (lift r).
Proof. intros w. split; [reflexivity|]. exists []. now rewrite app_nil_r. Qed.

Lemma ew_read {A : Type} (f : world -> A) : effects_within P (fun w => (Ok (f w), w)).
Proof. intros w. split; [reflexivity|]. exists []. now rewrite app_nil_r. Qed.

Lemma ew_bind {A B : Type} (m : M A) (k : A -> M B) :
  effects_within P m -> (forall a, effects_within P (k a)) -> effects_within P (bind m k).
Proof.
  intros Hm Hk w. unfold bind. destruct (Hm w) as (Hf & evs & Hl & Hp).
  destruct (m w) as [[a|e] w1]; simpl in *.
  - destruct (Hk a w1) as (Hf' & evs' & Hl' & Hp'). split; [congruence|].
    exists (evs ++ evs')%list. rewrite Hl', Hl, forallb_app, Hp, Hp'.
    now rewrite <- app_assoc.
  - split; [exact Hf|]. now exists evs.
Qed.


Lemma ew_try_except {A : Type} (m : M A) (h : exc -> M A) :
  effects_within P m -> (forall e, effects_within P (h e)) ->
  effects_within P (try_except m h).
Proof.
  intros Hm Hh w. unfold try_except. destruct (Hm w) as (Hf & evs & Hl & Hp).
  destruct (m w) as [[a|e] w1]; simpl in *.
  - split; [exact Hf|]. now exists evs.
  - destruct (Hh e w1) as (Hf' & evs' & Hl' & Hp'). split; [congruence|].
    exists (evs ++ evs')%list. rewrite Hl', Hl, forallb_app, Hp, Hp'.
    now rewrite <- app_assoc.
Qed.

Lemma ew_log {A : Type} (ev : io) (f : world -> result A) :
  P ev = true -> effects_within P (fun w => (f w, add_log ev w)).
Proof.
  intros Hev w. split; [reflexivity|]. exists [ev]. simpl. now rewrite Hev.
Qed.

Lemma ew_fs_step (ev : io) : P ev = true -> effects_within P (fs_step E ev).
Proof.
  intros Hev w. unfold fs_step. destruct (fs_fault E w ev); simpl.
  - split; [reflexivity|]. exists []. now rewrite app_nil_r.
  - split; [reflexivity|]. exists [ev]. simpl. now rewrite Hev.
Qed.

Lemma ew_makedirs (path : string) :
  P (IoMakedirs path) = true -> effects_within P (makedirs E path).
Proof.
  intros Hev. unfold makedirs. destruct (String.eqb path "");
    [apply ew_raise | now apply ew_fs_step].
Qed.
End Effects.

(** One step of the search for a proof of [effects_within], by the shape
    of the computation. *)
Ltac ew_step :=
  lazymatch goal with
  | |- effects_within _ (ret _) => apply ew_ret
  | |- effects_within _ (raise _) => apply ew_raise
  | |- effects_within _ (lift _) => apply ew_lift
  | |- effects_within _ (bind _ _) => apply ew_bind; [|intros ?]
  | |- effects_within _ (try_except _ _) => apply ew_try_except; [|intros ?]
  | |- effects_within _ (fs_step _ _) => apply ew_fs_step; reflexivity
  | |- effects_within _ (makedirs _ _) => apply ew_makedirs; reflexivity
  | |- effects_within _ (print _) => apply ew_log; reflexivity
  | |- effects_within _ (print_err _) => apply ew_log; reflexivity
  | |- effects_within _ (http_json _ _) => apply ew_log; reflexivity
  | |- effects_within _ (listdir _ _) => apply ew_log; reflexivity
  | |- effects_within _ (fun w => (Ok _, w)) => apply ew_read
  | |- effects_within ?P (if true then ?a else _) => change (effects_within P a)
  | |- effects_within ?P (if false then _ else ?a) => change (effects_within P a)
  | |- effects_within _ (if ?b then _ else _) => destruct b
  | |- effects_within _ (match ?x with _ => _ end) => destruct x
  end.

Ltac ew := repeat ew_step.

Section Planning.
Context (E : Env).











Lemma ew_manifest_path_for_order (oid : string) (manifest_cfg : pyval) :
  effects_within planning_io (manifest_path_for_order E oid manifest_cfg).
Proof. unfold manifest_path_for_order, path_arg. ew. Qed.




End Planning.

Section Projection.
Context (E : Env).


End Projection.






(** An item with a schematic id and [customization: null]: the look-up
    of its extensions raises, and the plan shows an error entry for it. *)
Example dry_run_null_customization :
  fst (process_positions (demo_env true) "o1" (VList [null_customization_item]) (VDict [])
         true empty_world)
  = Ok [err_entry (VStr "bare") (no_attribute VNone "get")].
Proof. reflexivity. Qed.

Example dry_run_log :
  log (snd (process_positions (demo_env true) "o1"
              (VList [latest_item; slash_item]) (VDict []) true empty_world))
  = [ IoMakedirs "/var/cache/talos-sync";
      IoHttpJson GITHUB_LATEST;
      IoMakedirs "/var/cache/talos-sync";
      IoMakedirs "/var/cache/talos-sync/talos-rel" ].
Proof. reflexivity. Qed.

Example dry_run_entries :
  match fst (process_positions (demo_env true) "o1"
               (VList [latest_item; slash_item]) (VDict []) true empty_world) with
  | Ok entries =>
      map (fun en => match en with
                     | VDict d => (assoc "schematic_id" d, assoc "url" d)
                     | _ => (None, None)
                     end) entries
  | Raise _ => []
  end
  = [ (Some (VStr "<to-be-created>"),
       Some (VStr "https://factory.talos.dev/image/<to-be-created>/v1.11.0/nocloud-amd64.iso"));
      (Some (VStr "s1"),
       Some (VStr "https://factory.talos.dev/image/s1/rel/v1.0.0/nocloud-amd64.iso")) ].
Proof. reflexivity. Qed.

(** ** Further properties of version resolution *)

(** X1: an exact specification is answered with its value, unchanged,
    and without a call to anyone; without a value, or with an empty one,
    it is refused. *)
Theorem resolve_version_exact (E : Env) (d : list (string * pyval)) (w : world) :
  assoc "type" d = Some (VStr "exact") ->
  (forall v, assoc "value" d = Some v -> truthy v = true ->
     resolve_version E (VDict d) w = (Ok (v, "exact"), w))
  /\ (forall v, assoc "value" d = Some v -> truthy v = false ->
        resolve_version E (VDict d) w
        = (Raise (ValueError "version.type=exact requires version.value"), w))
  /\ (assoc "value" d = None ->
        resolve_version E (VDict d) w
        = (Raise (ValueError "version.type=exact requires version.value"), w)).
Proof.
  intros Ht.
  assert (Hty : py_get (py_or (VDict d) (VDict [])) "type" (VStr "latest") = Ok (VStr "exact")).
  { destruct d; [discriminate|]. simpl in *. now rewrite Ht. }
  unfold resolve_version, bind, lift, ret, raise. rewrite Hty. simpl.
  repeat split.
  - intros v Hv Htr. now rewrite Hv, Htr.
  - intros v Hv Htr. now rewrite Hv, Htr.
  - intros Hv. now rewrite Hv.
Qed.

Lemma resolve_version_exact_witness :
  resolve_version (demo_env true)
    (VDict [("type", VStr "exact"); ("value", VStr "v1.11.0")]) empty_world
  = (Ok (VStr "v1.11.0", "exact"), empty_world).
Proof.
  apply (proj1 (resolve_version_exact (demo_env true)
                  [("type", VStr "exact"); ("value", VStr "v1.11.0")] empty_world eq_refl));
    reflexivity.
Defined.

Lemma key_ltb_irrefl (k : key) : key_ltb k k = false.
Proof.
  destruct (key_ltb k k) eqn:H; [|reflexivity].
  now rewrite (key_ltb_asym k k H) in H.
Qed.

Lemma decorate_convert {A : Type} (version : A -> string) (l : list A) :
  forallb (fun x => negb (overlong (version x))) l = true ->
  decorate (fun x => _semver_key (version x)) l
  = Some (map (fun x => (semver_total (version x), x)) l).
Proof.
  induction l as [|x l IH]; cbn [forallb decorate map]; intros H; [reflexivity|].
  apply andb_prop in H as [Hx Hl]. apply negb_true_iff in Hx.
  rewrite (semver_key_some _ Hx), (IH Hl). reflexivity.
Qed.

(** The first element of a sorted list is not older than any element. *)
Lemma sort_desc_head {A : Type} (l : list (key * A)) (x : key * A) (r : list (key * A)) :
  sort_desc l = x :: r ->
  In x l /\ forall y, In y l -> key_ltb (fst x) (fst y) = false.
Proof.
  intros H. pose proof (sort_desc_perm l) as Hp. pose proof (sort_desc_sorted l) as Hs.
  rewrite H in Hp, Hs. split.
  - apply (Permutation_in _ Hp). now left.
  - intros y Hy. apply (Permutation_in _ (Permutation_sym Hp)) in Hy.
    destruct Hy as [<-|Hy]; [apply key_ltb_irrefl|].
    inversion Hs as [|? ? _ Hall]; subst.
    rewrite List.Forall_forall in Hall. now apply Hall.
Qed.

Lemma matching_tags_spec (m : string) (tags : list pyval) :
  forall matching,
    matching_tags (VStr m) tags = Ok matching ->
    forall n,
      In n matching <->
      exists t, In t tags /\ py_get t "name" (VStr "") = Ok (VStr n)
                /\ startswith n (m ++ ".") = true.
Proof.
  induction tags as [|t tags IH]; simpl; intros matching H n.
  - injection H as <-. split; [intros [] | intros (t & [] & _)].
  - destruct (py_get t "name" (VStr "")) as [name|e] eqn:Hname; [|discriminate].
    destruct name as [| | |n0| |]; try discriminate.
    destruct (matching_tags (VStr m) tags) as [r|e] eqn:Hr; [|discriminate].
    injection H as <-. specialize (IH r eq_refl n).
    destruct (startswith n0 (m ++ ".")) eqn:Hs.
    + split.
      * intros [<-|Hin]; [exists t; auto|].
        apply IH in Hin as (t' & Ht' & Hn' & Hs'). exists t'. auto.
      * intros (t' & [<-|Ht'] & Hn' & Hs').
        -- left. congruence.
        -- right. apply IH. eauto.
    + split.
      * intros Hin. apply IH in Hin as (t' & Ht' & Hn' & Hs'). exists t'. auto.
      * intros (t' & [<-|Ht'] & Hn' & Hs').
        -- rewrite Hname in Hn'. injection Hn' as <-. congruence.
        -- apply IH. eauto.
Qed.

(** X2: for [latest-in-minor] the listing is asked for once; the tags kept
    are those whose name starts with the minor and a dot; with none kept
    the resolution fails; with some kept, and a key for each of them, the
    answer is one of them and none of them has a greater key; and when a
    kept tag has a number of more than 4300 digits the sort raises the
    ValueError of [int]. *)
Theorem resolve_version_minor_newest (E : Env) (d : list (string * pyval)) (m : string)
    (w : world) (tags : list pyval) (matching : list string) :
  assoc "type" d = Some (VStr "latest-in-minor") ->
  assoc "minor" d = Some (VStr m) -> m <> "" ->
  http_json_resp E w GITHUB_TAGS = Ok (VList tags) ->
  matching_tags (VStr m) tags = Ok matching ->
  snd (resolve_version E (VDict d) w) = add_log (IoHttpJson GITHUB_TAGS) w
  /\ (forall n,
        In n matching <->
        exists t, In t tags /\ py_get t "name" (VStr "") = Ok (VStr n)
                  /\ startswith n (m ++ ".") = true)
  /\ (matching = [] ->
      fst (resolve_version E (VDict d) w)
      = Raise (RuntimeError ("No tags found for minor " ++ m)))
  /\ (matching <> [] ->
      if forallb (fun n => negb (overlong n)) matching
      then exists best kbest,
             fst (resolve_version E (VDict d) w) = Ok (VStr best, "latest-in-minor")
             /\ In best matching /\ _semver_key best = Some kbest
             /\ forall n k, In n matching -> _semver_key n = Some k ->
                            key_ltb kbest k = false
      else exists g,
             fst (resolve_version E (VDict d) w) = Raise (int_limit_error g)
             /\ fits g = false
             /\ first_refused (fun t => t) matching = Some g).
Proof.
  intros Ht Hm Hne Hresp Hmatch.
  assert (Hty : py_get (py_or (VDict d) (VDict [])) "type" (VStr "latest")
                = Ok (VStr "latest-in-minor")).
  { destruct d; [discriminate|]. simpl in *. now rewrite Ht. }
  assert (Htruthy : truthy (VStr m) = true).
  { simpl. destruct (String.eqb_spec m ""); [contradiction | reflexivity]. }
  assert (Hrun : resolve_version E (VDict d) w
                 = (match matching with
                    | [] => Raise (RuntimeError ("No tags found for minor " ++ m))
                    | _ :: _ =>
                        match py_sorted_rev _semver_key matching with
                        | Some (best :: _) => Ok (VStr best, "latest-in-minor")
                        | Some [] => Raise (Exc "IndexError" "list index out of range")
                        | None => Raise (sort_key_error (fun t => t) matching)
                        end
                    end, add_log (IoHttpJson GITHUB_TAGS) w)).
  { unfold resolve_version, bind, lift, http_json, ret, raise. rewrite Hty.
    cbn [str_eq String.eqb Ascii.eqb Bool.eqb].
    cbn [py_get]. rewrite Hm, Htruthy. cbn [negb]. rewrite Hresp. cbn [py_iter].
    rewrite Hmatch. destruct matching as [|n0 rest]; [reflexivity|].
    destruct (py_sorted_rev _semver_key (n0 :: rest)) as [[|]|]; reflexivity. }
  rewrite Hrun. cbn [fst snd]. split; [reflexivity|].
  split; [exact (matching_tags_spec m tags matching Hmatch)|].
  split.
  - now intros ->.
  - intros Hnn. destruct matching as [|n0 rest]; [contradiction|].
    destruct (forallb (fun n => negb (overlong n)) (n0 :: rest)) eqn:Hconv.
    + unfold py_sorted_rev.
      change (decorate _semver_key (n0 :: rest))
        with (decorate (fun t : string => _semver_key t) (n0 :: rest)).
      rewrite (decorate_convert (fun t : string => t) (n0 :: rest) Hconv).
      destruct (sort_desc (map (fun n => (semver_total n, n)) (n0 :: rest)))
        as [|[kb best] r] eqn:Hsort.
      { pose proof (sort_desc_perm (map (fun n => (semver_total n, n)) (n0 :: rest))) as Hp.
        rewrite Hsort in Hp. apply Permutation_nil in Hp. discriminate Hp. }
      destruct (sort_desc_head _ _ _ Hsort) as [Hin Hmax].
      apply in_map_iff in Hin as (nb & [= <- <-] & Hinb).
      exists nb, (semver_total nb). cbn [map snd]. split; [reflexivity|].
      split; [exact Hinb|]. split.
      * rewrite forallb_forall in Hconv. specialize (Hconv nb Hinb).
        apply negb_true_iff in Hconv. apply semver_key_some. exact Hconv.
      * intros n k Hn Hk.
        specialize (Hmax (semver_total n, n) (in_map _ _ _ Hn)). cbn [fst] in Hmax.
        unfold semver_total in Hmax at 2.
        change (_parse_semver_for_sort n) with (_semver_key n) in Hmax.
        rewrite Hk in Hmax. exact Hmax.
    + destruct (decorate_refused (fun t : string => t) (n0 :: rest) Hconv)
        as (Hd & g & Hg & Hf).
      unfold py_sorted_rev.
      change (decorate _semver_key (n0 :: rest))
        with (decorate (fun t : string => _semver_key t) (n0 :: rest)).
      rewrite Hd. unfold sort_key_error. rewrite Hg.
      exists g. auto.
Qed.

Lemma resolve_version_minor_newest_witness :
  exists best kbest,
    fst (resolve_version (demo_env true)
           (VDict [("type", VStr "latest-in-minor"); ("minor", VStr "v1.10")]) empty_world)
    = Ok (VStr best, "latest-in-minor")
    /\ In best ["v1.10.1"; "v1.10.2-rc.1"] /\ _semver_key best = Some kbest
    /\ forall n k, In n ["v1.10.1"; "v1.10.2-rc.1"] -> _semver_key n = Some k ->
                   key_ltb kbest k = false.
Proof.
  apply (proj2 (proj2 (proj2
           (resolve_version_minor_newest (demo_env true)
              [("type", VStr "latest-in-minor"); ("minor", VStr "v1.10")] "v1.10" empty_world
              [VDict [("name", VStr "v1.10.1")]; VDict [("name", VStr "v1.10.2-rc.1")]]
              ["v1.10.1"; "v1.10.2-rc.1"]
              eq_refl eq_refl ltac:(discriminate) eq_refl eq_refl)))).
  discriminate.
Defined.

(** A tag of the minor with a patch number of 4301 digits: the sort of
    the kept tags raises, and the order fails. *)
Example resolve_version_minor_long_number :
  fst (resolve_version
         (with_tags (demo_env true)
            (VList [VDict [("name", VStr "v1.10.1")];
                    VDict [("name", VStr ("v1.10." ++ repeat_char 4301 "1"))]]))
         (VDict [("type", VStr "latest-in-minor"); ("minor", VStr "v1.10")]) empty_world)
  = Raise (int_limit_error (repeat_char 4301 "1")).
Proof. vm_compute. reflexivity. Qed.

(** ** Files appear under their final name only when complete *)

Lemma part_suffix_ne (p : string) : p ++ ".part" <> p.
Proof.
  intros H. apply (f_equal String.length) in H. rewrite string_length_app in H.
  simpl in H. lia.
Qed.

Ltac files_facts :=
  cbn [fst snd files log add_log negb] in *;
  repeat first
    [ rewrite lookup_insert_eq
    | rewrite lookup_delete_eq
    | rewrite lookup_insert_ne by (try apply part_suffix_ne; congruence)
    | rewrite lookup_delete_ne by (try apply part_suffix_ne; congruence) ].

Ltac run_cases :=
  repeat (files_facts;
          match goal with
          | |- context [String.eqb (path_dirname ?d) ""] =>
              destruct (String.eqb (path_dirname d) "") eqn:?
          | |- context [fs_fault ?E ?w ?ev] => destruct (fs_fault E w ev) eqn:?
          | |- context [http_fetch ?E ?w ?u] => destruct (http_fetch E w u) eqn:?
          | |- context [lzma_decode ?E ?c] => destruct (lzma_decode E c) eqn:?
          | |- context [run_resp ?E ?w ?c] => destruct (run_resp E w c) as [[[? ?] ?]|] eqn:?
          | |- context [match files ?w !! ?p with _ => _ end] => destruct (files w !! p) eqn:?
          | |- context [HAVE_LZMA ?E] => destruct (HAVE_LZMA E) eqn:?
          | |- context [negb (?a =? ?b)] => destruct (a =? b) eqn:?
          | |- context [String.eqb (exc_class ?e) ?c] => destruct (String.eqb (exc_class e) c) eqn:?
          end).

(** X3: a download never leaves a partial file under the destination
    name.  Whenever [http_download] raises, the destination holds what it
    held before; when it returns, the destination holds the complete body
    and the [.part] file is gone.  No other path changes. *)
Theorem http_download_atomic (E : Env) (url dest : string) (w : world) :
  let r := http_download E url dest w in
  (forall p, p <> dest -> p <> dest ++ ".part" -> files (snd r) !! p = files w !! p)
  /\ match fst r with
     | Raise _ => files (snd r) !! dest = files w !! dest
     | Ok _ =>
         exists body,
           http_fetch E (add_log (IoMakedirs (path_dirname dest)) w) url = Complete body
           /\ files (snd r) !! dest = Some body
           /\ files (snd r) !! (dest ++ ".part") = None
     end.
Proof.
  pose proof (part_suffix_ne dest) as Hne.
  unfold http_download, bind, makedirs, fs_step, write_file, replace_file, raise.
  run_cases; split; try (intros p Hp1 Hp2); files_facts; try reflexivity; try discriminate.
  all: eexists; split; [reflexivity|]; files_facts; split; reflexivity.
Qed.

Lemma http_download_atomic_witness :
  files (snd (http_download (demo_env true) sample_url sample_path empty_world)) !! "/etc/hosts"
  = files empty_world !! "/etc/hosts".
Proof.
  apply (proj1 (http_download_atomic (demo_env true) sample_url sample_path empty_world));
    discriminate.
Defined.

(** X4: decompression publishes its result the same way.  Whenever
    [decompress_raw_xz] raises, the destination holds what it held before;
    when it returns, the destination holds the whole decoded image, the
    [.part] file is gone, and with Python's lzma the image is the decoding
    of the source file.  No other path changes. *)
Theorem decompress_raw_xz_atomic (E : Env) (src dst : string) (w : world) :
  let r := decompress_raw_xz E src dst w in
  (forall p, p <> dst -> p <> dst ++ ".part" -> files (snd r) !! p = files w !! p)
  /\ match fst r with
     | Raise _ => files (snd r) !! dst = files w !! dst
     | Ok _ =>
         files (snd r) !! (dst ++ ".part") = None
         /\ exists body,
              files (snd r) !! dst = Some body
              /\ (HAVE_LZMA E = true ->
                  exists c, files w !! src = Some c /\ lzma_decode E c = Complete body)
              /\ (HAVE_LZMA E = false ->
                  exists w1 err, run_resp E w1 ["xz"; "-dkc"; src] = Ok (0, body, err))
     end.
Proof.
  pose proof (part_suffix_ne dst) as Hne.
  unfold decompress_raw_xz, bind, makedirs, fs_step, read_file, write_file, replace_file,
    remove_file, try_except, run, raise, ret.
  run_cases; split; try (intros p Hp1 Hp2); files_facts; try reflexivity; try discriminate.
  all: split; [reflexivity|]; eexists; split; [reflexivity|]; split; intros HL;
    try discriminate HL.
  - eexists; split; eauto.
  - match goal with H : (_ =? 0) = true |- _ => apply Z.eqb_eq in H; subst end.
    eauto.
Qed.

Lemma decompress_raw_xz_atomic_witness :
  files (snd (decompress_raw_xz (demo_env true) xz_path (strip_xz_suffix xz_path) xz_world))
    !! "/etc/hosts"
  = files xz_world !! "/etc/hosts".
Proof.
  apply (proj1 (decompress_raw_xz_atomic (demo_env true) xz_path (strip_xz_suffix xz_path)
                  xz_world));
    discriminate.
Defined.

(** ** Cache cleanup *)

Lemma rmtree_lookup (m : gmap string string) (q p : string) :
  filter (fun kv : string * string => negb (startswith (fst kv) (q ++ "/")) = true) m !! p
  = if startswith p (q ++ "/") then None else m !! p.
Proof.
  rewrite map_lookup_filter.
  destruct (m !! p) as [c|] eqn:Hm; simpl.
  - destruct (startswith p (q ++ "/")) eqn:Hs; case_guard; simpl in *; try reflexivity;
      try congruence.
  - now destruct (startswith p (q ++ "/")).
Qed.

(** What one round of the loop does to the disk and to the report. *)
Lemma execute_cache_cleanup_loop_safe (E : Env) (paths : list string) :
  forall (removed : list string) (w : world),
  exists report,
    fst (execute_cache_cleanup_loop E paths removed w) = Ok report
    /\ (length report <= length removed + length paths)%nat
    /\ forall p,
         files (snd (execute_cache_cleanup_loop E paths removed w)) !! p = files w !! p
         \/ (files (snd (execute_cache_cleanup_loop E paths removed w)) !! p = None
             /\ exists q, In q paths /\ (p = q \/ startswith p (q ++ "/") = true)).
Proof.
  induction paths as [|q rest IH]; intros removed w.
  - exists removed. cbn. split; [reflexivity|]. split; [lia|]. intros p. now left.
  - cbn [execute_cache_cleanup_loop].
    set (step := try_except _ _).
    assert (Hstep : exists removed1 w1,
               step w = (Ok removed1, w1)
               /\ (length removed1 <= length removed + 1)%nat
               /\ forall p, files w1 !! p = files w !! p
                            \/ (files w1 !! p = None
                                /\ (p = q \/ startswith p (q ++ "/") = true))).
    { subst step. unfold try_except, bind, rmtree, remove_file, ret.
      destruct (isdir E w q).
      - eexists _, _. split; [reflexivity|]. rewrite length_app. cbn [length].
        split; [lia|]. intros p. cbn [files]. rewrite rmtree_lookup.
        destruct (startswith p (q ++ "/")); [right; auto | now left].
      - destruct (fs_fault E w (IoRemove q)) as [e|].
        + destruct (String.eqb (exc_class e) "FileNotFoundError");
            eexists _, _; (split; [reflexivity|]); rewrite ?length_app; cbn [length];
              (split; [lia|]); intros p; now left.
        + destruct (files w !! q) as [c|] eqn:Hq.
          * eexists _, _. split; [reflexivity|]. rewrite length_app. cbn [length].
            split; [lia|]. intros p. cbn [files].
            destruct (String.eqb_spec p q) as [->|Hne].
            -- right. rewrite lookup_delete_eq. auto.
            -- left. now rewrite lookup_delete_ne by congruence.
          * cbn. eexists _, _. split; [reflexivity|]. split; [lia|]. intros p. now left. }
    destruct Hstep as (removed1 & w1 & Hrun & Hlen & Hfiles).
    match goal with |- context [bind step ?k w] =>
      assert (Heq : bind step k w = execute_cache_cleanup_loop E rest removed1 w1)
        by (unfold bind; now rewrite Hrun);
      rewrite Heq; clear Heq end.
    destruct (IH removed1 w1) as (report & Hok & Hlen' & Hfiles').
    exists report. split; [exact Hok|]. split; [cbn [length]; lia|].
    intros p. destruct (Hfiles' p) as [Heq|[Hnone (q' & Hin & Hq')]].
    + rewrite Heq. destruct (Hfiles p) as [Heq1|[Hnone1 Hq1]]; [now left|].
      right. split; [exact Hnone1|]. exists q. split; [now left | exact Hq1].
    + right. split; [exact Hnone|]. exists q'. split; [now right | exact Hq'].
Qed.

(** X5: carrying out a cleanup plan never raises, whatever the disk
    does; its report has at most one line per path; and a file is either
    left as it was, or gone and then it is one of the paths or lies
    below one. *)
Theorem execute_cache_cleanup_never_raises (E : Env) (paths : list string) (w : world) :
  exists report,
    fst (execute_cache_cleanup E paths w) = Ok report
    /\ (length report <= length paths)%nat
    /\ forall p,
         files (snd (execute_cache_cleanup E paths w)) !! p = files w !! p
         \/ (files (snd (execute_cache_cleanup E paths w)) !! p = None
             /\ exists q, In q paths /\ (p = q \/ startswith p (q ++ "/") = true)).
Proof.
  unfold execute_cache_cleanup.
  destruct (execute_cache_cleanup_loop_safe E paths [] w) as (report & Hok & Hlen & Hfiles).
  exists report. auto.
Qed.

Lemma execute_cache_cleanup_loop_plain (E : Env) (paths : list string) :
  no_fault E -> (forall w p, isdir E w p = false) -> List.NoDup paths ->
  forall (removed : list string) (w : world),
    fst (execute_cache_cleanup_loop E paths removed w)
    = Ok (removed ++ List.filter (path_exists w) paths)%list
    /\ forall p,
         files (snd (execute_cache_cleanup_loop E paths removed w)) !! p
         = if existsb (String.eqb p) paths then None else files w !! p.
Proof.
  intros Hnf Hplain. induction paths as [|q rest IH]; intros Hnd removed w.
  - cbn. rewrite app_nil_r. auto.
  - inversion Hnd as [|? ? Hnotin Hnd']; subst.
    cbn [execute_cache_cleanup_loop List.filter existsb].
    unfold bind at 1. unfold try_except, bind, remove_file, ret.
    rewrite Hplain, Hnf. unfold path_exists at 1.
    destruct (files w !! q) as [c|] eqn:Hq.
    + match goal with |- context [execute_cache_cleanup_loop E rest ?r ?w1] =>
        destruct (IH Hnd' r w1) as [Hok Hfiles] end.
      rewrite Hok. split.
      * rewrite <- app_assoc. f_equal. f_equal. cbn [app]. f_equal.
        apply filter_ext_in_iff. intros p Hp. unfold path_exists. cbn [files].
        rewrite lookup_delete_ne; [reflexivity|]. intros Hqp. subst. now apply Hnotin.
      * intros p. rewrite Hfiles. cbn [files].
        destruct (String.eqb_spec p q) as [->|Hne]; cbn [orb].
        -- rewrite lookup_delete_eq. now destruct (existsb _ rest).
        -- now rewrite lookup_delete_ne by congruence.
    + cbn [exc_class FileNotFoundError String.eqb Ascii.eqb Bool.eqb].
      change (String.eqb (exc_class (FileNotFoundError q)) "FileNotFoundError") with true.
      cbn iota.
      destruct (IH Hnd' removed w) as [Hok Hfiles].
      rewrite Hok. split; [reflexivity|].
      intros p. rewrite Hfiles.
      destruct (String.eqb_spec p q) as [->|Hne]; cbn [orb]; [|reflexivity].
      rewrite Hq. now destruct (existsb _ rest).
Qed.

(** X6: on a disk that does not fail, a plan of distinct plain files is
    carried out exactly: afterwards none of its paths exists, every other
    file is as before, and the report lists the paths that existed, in
    the order of the plan; missing ones are passed over in silence. *)
Theorem execute_cache_cleanup_plain_files (E : Env) (paths : list string) (w : world) :
  no_fault E -> (forall w' p, isdir E w' p = false) -> List.NoDup paths ->
  fst (execute_cache_cleanup E paths w) = Ok (List.filter (path_exists w) paths)
  /\ forall p,
       files (snd (execute_cache_cleanup E paths w)) !! p
       = if existsb (String.eqb p) paths then None else files w !! p.
Proof.
  intros Hnf Hplain Hnd. unfold execute_cache_cleanup.
  exact (execute_cache_cleanup_loop_plain E paths Hnf Hplain Hnd [] w).
Qed.

Lemma execute_cache_cleanup_plain_files_witness :
  fst (execute_cache_cleanup sample_cache_env
         ["/var/cache/talos-sync/talos-v1.1.0-nocloud-amd64.iso";
          "/var/cache/talos-sync/talos-v1.0.0-nocloud-amd64.iso"] sample_cache_world)
  = Ok (List.filter (path_exists sample_cache_world)
          ["/var/cache/talos-sync/talos-v1.1.0-nocloud-amd64.iso";
           "/var/cache/talos-sync/talos-v1.0.0-nocloud-amd64.iso"]).
Proof.
  apply (proj1 (execute_cache_cleanup_plain_files sample_cache_env
                  ["/var/cache/talos-sync/talos-v1.1.0-nocloud-amd64.iso";
                   "/var/cache/talos-sync/talos-v1.0.0-nocloud-amd64.iso"] sample_cache_world
                  (fun _ _ => eq_refl) (fun _ _ => eq_refl)
                  ltac:(repeat constructor; simpl; intuition discriminate))).
Defined.

(** ** Pushing to hosts *)

Lemma world_eta (w : world) : {| files := files w; log := log w |} = w.
Proof. now destruct w. Qed.

Lemma mkdir_run_kind (x : string) :
  is_mkdir_run (IoRun ["bash"; "-lc"; "ssh " ++ x]) = true
  /\ is_rsync_run (IoRun ["bash"; "-lc"; "ssh " ++ x]) = false.
Proof. split; [apply prefix_empty | reflexivity]. Qed.

Lemma rsync_run_kind (x : string) :
  is_mkdir_run (IoRun ["bash"; "-lc"; "rsync " ++ x]) = false
  /\ is_rsync_run (IoRun ["bash"; "-lc"; "rsync " ++ x]) = true.
Proof. split; [reflexivity | apply prefix_empty]. Qed.

Lemma push_hosts_loop_spec (E : Env) (local_file : string)
    (default_iso_dir rsync_opts ssh_opts : pyval) (hosts : list pyval) :
  runs_start E ->
  forallb (push_target default_iso_dir) hosts = true ->
  forall (results : list pyval) (w : world),
  exists out calls,
    push_hosts_loop E local_file hosts default_iso_dir rsync_opts ssh_opts results w
    = (Ok (results ++ out)%list, {| files := files w; log := (log w ++ calls)%list |})
    /\ map host_of out = map host_of hosts
    /\ Forall (fun r => In (status_of r)
                          [Some (VStr "ok"); Some (VStr "mkdir-failed");
                           Some (VStr "rsync-failed")]) out
    /\ Forall (fun ev => xorb (is_mkdir_run ev) (is_rsync_run ev) = true) calls
    /\ length (List.filter is_mkdir_run calls) = length hosts
    /\ length (List.filter is_rsync_run calls) = length (List.filter reached_rsync out).
Proof.
  intros Hrun. induction hosts as [|h rest IH]; intros Hwf results w.
  - exists [], []. cbn. rewrite !app_nil_r, world_eta. repeat split; constructor.
  - cbn [forallb] in Hwf. apply andb_prop in Hwf as [Hh Hrest].
    specialize (IH Hrest).
    destruct h as [| | | | |d]; try discriminate Hh. cbn [push_target] in Hh.
    destruct (assoc "host" d) as [host|] eqn:Hhost; [|discriminate Hh].
    destruct (match assoc "iso_dir" d with Some x => x | None => default_iso_dir end)
      as [| | |dir| |] eqn:Hdir; try discriminate Hh.
    cbn [push_hosts_loop]. unfold bind at 1. unfold lift at 1. cbn [py_getitem].
    rewrite Hhost. unfold bind at 1. unfold lift at 1. cbn [py_get]. rewrite Hdir.
    unfold bind at 1. unfold lift at 1. cbn [shlex_quote].
    unfold bind at 1. unfold run at 1.
    match goal with |- context [run_resp E w ?c] =>
      destruct (Hrun w c) as [[[rc out1] err] Hr1]; rewrite Hr1 end.
    destruct (rc =? 0) eqn:Hrc; cbn [negb].
    + unfold bind at 1. unfold lift at 1. cbn [shlex_quote].
      unfold bind at 1. unfold run at 1.
      match goal with |- context [run_resp E ?w1 ?c] =>
        destruct (Hrun w1 c) as [[[rc2 out2] err2] Hr2]; rewrite Hr2 end.
      match goal with |- context [push_hosts_loop E _ rest _ _ _ ?acc ?w2] =>
        destruct (IH acc w2) as (out & calls & Heq & Hhosts & Hst & Hcalls & Hmk & Hrs);
        rewrite Heq end.
      eexists (_ :: out), (_ :: _ :: calls).
      split; [cbn [files log add_log]; rewrite <- !app_assoc; reflexivity|].
      split; [cbn [map host_of host_result assoc String.eqb Ascii.eqb Bool.eqb];
              rewrite Hhost; now f_equal|].
      split; [constructor; [|exact Hst]; destruct (rc2 =? 0); cbn; auto|].
      cbn [List.filter].
      match goal with |- context [IoRun ["bash"; "-lc"; "ssh " ++ ?x]] =>
        destruct (mkdir_run_kind x) as [Hm1 Hm2] end.
      match goal with |- context [IoRun ["bash"; "-lc"; "rsync " ++ ?x]] =>
        destruct (rsync_run_kind x) as [Hs1 Hs2] end.
      rewrite Hm1, Hm2, Hs1, Hs2.
      split; [constructor; [now rewrite Hm1, Hm2|];
              constructor; [now rewrite Hs1, Hs2 | exact Hcalls]|].
      split; [cbn [length]; now rewrite Hmk|].
      assert (Hre : reached_rsync
                      (host_result host (if rc2 =? 0 then "ok" else "rsync-failed") err2)
                    = true) by now destruct (rc2 =? 0).
      rewrite Hre. cbn [length]. now rewrite Hrs.
    + match goal with |- context [push_hosts_loop E _ rest _ _ _ ?acc ?w2] =>
        destruct (IH acc w2) as (out & calls & Heq & Hhosts & Hst & Hcalls & Hmk & Hrs);
        rewrite Heq end.
      eexists (_ :: out), (_ :: calls).
      split; [cbn [files log add_log]; rewrite <- !app_assoc; reflexivity|].
      split; [cbn [map host_of host_result assoc String.eqb Ascii.eqb Bool.eqb];
              rewrite Hhost; now f_equal|].
      split; [constructor; [|exact Hst]; cbn; auto|].
      cbn [List.filter].
      match goal with |- context [IoRun ["bash"; "-lc"; "ssh " ++ ?x]] =>
        destruct (mkdir_run_kind x) as [Hm1 Hm2] end.
      rewrite Hm1, Hm2.
      split; [constructor; [now rewrite Hm1, Hm2 | exact Hcalls]|].
      split; [cbn [length]; now rewrite Hmk|].
      change (reached_rsync (host_result host "mkdir-failed" err)) with false.
      cbv iota. exact Hrs.
Qed.

(** The loop over the hosts, when commands are answered by [answer]
    whatever was done before. *)
Lemma push_hosts_loop_outcomes (E : Env) (answer : list string -> Z * string * string)
    (local_file : string) (default_iso_dir rsync_opts ssh_opts : pyval) (hosts : list pyval) :
  (forall w0 cmd, run_resp E w0 cmd = Ok (answer cmd)) ->
  forallb (push_target default_iso_dir) hosts = true ->
  forall (results : list pyval) (w : world),
    push_hosts_loop E local_file hosts default_iso_dir rsync_opts ssh_opts results w
    = (Ok (results
           ++ map (push_outcome answer local_file default_iso_dir rsync_opts ssh_opts) hosts)%list,
       {| files := files w;
          log := (log w
                  ++ flat_map (push_calls answer local_file default_iso_dir rsync_opts ssh_opts)
                       hosts)%list |}).
Proof.
  intros Hrun. induction hosts as [|h rest IH]; intros Hwf results w.
  - cbn. now rewrite !app_nil_r, world_eta.
  - cbn [forallb] in Hwf. apply andb_prop in Hwf as [Hh Hrest].
    specialize (IH Hrest).
    destruct h as [| | | | |d]; try discriminate Hh. cbn [push_target] in Hh.
    destruct (assoc "host" d) as [host|] eqn:Hhost; [|discriminate Hh].
    destruct (match assoc "iso_dir" d with Some x => x | None => default_iso_dir end)
      as [| | |dir| |] eqn:Hdir; try discriminate Hh.
    cbn [push_hosts_loop map flat_map].
    unfold push_outcome, push_calls, mkdir_call, rsync_call, target_host, target_dir, quoted,
      get_or, host_of, rc_of, stderr_of.
    rewrite Hhost, Hdir.
    unfold bind at 1. unfold lift at 1. cbn [py_getitem]. rewrite Hhost.
    unfold bind at 1. unfold lift at 1. cbn [py_get]. rewrite Hdir.
    unfold bind at 1. unfold lift at 1. cbn [shlex_quote].
    unfold bind at 1. unfold run at 1. rewrite Hrun.
    match goal with |- context [answer ?c] => destruct (answer c) as [[rc out1] err] end.
    cbn [fst snd].
    destruct (rc =? 0); cbn [negb].
    + unfold bind at 1. unfold lift at 1.
      unfold bind at 1. unfold run at 1. rewrite Hrun.
      match goal with |- context [answer ?c] => destruct (answer c) as [[rc2 out2] err2] end.
      cbn [fst snd]. rewrite IH. cbn [files log add_log].
      now rewrite <- !app_assoc.
    + rewrite IH. cbn [files log add_log]. now rewrite <- !app_assoc.
Qed.

(** X7: every host of a push is served, whatever happens to the others,
    and its status tells how its own commands ended.  When subprocesses
    can be started and each host entry names its host and a string
    directory, [push_file_to_hosts] returns one result per host, in the
    order of the hosts and carrying the host, with status [ok],
    [mkdir-failed] or [rsync-failed]; it runs one remote [mkdir] per host
    and one [rsync] for each host whose [mkdir] succeeded, and nothing
    else; local files are untouched.  When the commands are answered by
    their text alone, the result of a host is [mkdir-failed] with the
    error output of its [mkdir] when that returns a code other than 0,
    and then no [rsync] is run for it; otherwise it is [ok] when its
    [rsync] returns 0 and [rsync-failed] when not, with the error output
    of the [rsync]. *)
Theorem push_file_to_hosts_serves_every_host (E : Env) (local_file : string)
    (hosts : list pyval) (default_iso_dir rsync_opts ssh_opts : pyval) (w : world) :
  forallb (push_target default_iso_dir) hosts = true ->
  (runs_start E ->
   exists results calls,
     push_file_to_hosts E local_file (VList hosts) default_iso_dir rsync_opts ssh_opts w
     = (Ok results, {| files := files w; log := (log w ++ calls)%list |})
     /\ map host_of results = map host_of hosts
     /\ Forall (fun r => In (status_of r)
                           [Some (VStr "ok"); Some (VStr "mkdir-failed");
                            Some (VStr "rsync-failed")]) results
     /\ Forall (fun ev => xorb (is_mkdir_run ev) (is_rsync_run ev) = true) calls
     /\ length (List.filter is_mkdir_run calls) = length hosts
     /\ length (List.filter is_rsync_run calls) = length (List.filter reached_rsync results))
  /\ (forall answer,
        (forall w0 cmd, run_resp E w0 cmd = Ok (answer cmd)) ->
        push_file_to_hosts E local_file (VList hosts) default_iso_dir rsync_opts ssh_opts w
        = (Ok (map (push_outcome answer local_file default_iso_dir rsync_opts ssh_opts) hosts),
           {| files := files w;
              log := (log w
                      ++ flat_map
                           (push_calls answer local_file default_iso_dir rsync_opts ssh_opts)
                           hosts)%list |}))
  /\ (forall answer h,
        let mk := answer (mkdir_call ssh_opts default_iso_dir h) in
        let rs := answer (rsync_call local_file rsync_opts default_iso_dir h) in
        let r := push_outcome answer local_file default_iso_dir rsync_opts ssh_opts h in
        let calls := push_calls answer local_file default_iso_dir rsync_opts ssh_opts h in
        (rc_of mk <> 0 ->
         r = host_result (target_host h) "mkdir-failed" (stderr_of mk)
         /\ calls = [IoRun (mkdir_call ssh_opts default_iso_dir h)])
        /\ (rc_of mk = 0 ->
            calls = [IoRun (mkdir_call ssh_opts default_iso_dir h);
                     IoRun (rsync_call local_file rsync_opts default_iso_dir h)]
            /\ (rc_of rs = 0 -> r = host_result (target_host h) "ok" (stderr_of rs))
            /\ (rc_of rs <> 0 ->
                r = host_result (target_host h) "rsync-failed" (stderr_of rs)))).
Proof.
  intros Hwf. split; [|split].
  - intros Hrun.
    destruct (push_hosts_loop_spec E local_file default_iso_dir rsync_opts ssh_opts hosts
                Hrun Hwf [] w) as (out & calls & Heq & H).
    exists out, calls. split; [|exact H].
    unfold push_file_to_hosts, bind, lift. cbn [py_iter]. exact Heq.
  - intros answer Hrun. unfold push_file_to_hosts, bind, lift. cbn [py_iter].
    exact (push_hosts_loop_outcomes E answer local_file default_iso_dir rsync_opts ssh_opts
             hosts Hrun Hwf [] w).
  - intros answer h. cbv zeta. unfold push_outcome, push_calls. split.
    + intros Hrc. apply Z.eqb_neq in Hrc. rewrite Hrc. auto.
    + intros Hrc. apply Z.eqb_eq in Hrc. rewrite Hrc. split; [reflexivity|]. split.
      * intros H2. apply Z.eqb_eq in H2. now rewrite H2.
      * intros H2. apply Z.eqb_neq in H2. now rewrite H2.
Qed.

Lemma push_file_to_hosts_serves_every_host_witness :
  push_file_to_hosts (with_runs (demo_env true) pve2_refuses)
    "/var/cache/talos-sync/talos-v1.11.0-nocloud-amd64.iso"
    (VList sample_hosts) (VStr "/var/lib/vz/template/iso") (VStr "-av") (VStr "-o BatchMode=yes")
    empty_world
  = (Ok [host_result (VStr "pve1") "ok" "";
         host_result (VStr "pve2") "mkdir-failed" "mkdir: cannot create directory"],
     {| files := files empty_world;
        log := [IoRun ["bash"; "-lc";
                       "ssh -o BatchMode=yes pve1 'mkdir -p '/var/lib/vz/template/iso''"];
                IoRun ["bash"; "-lc";
                       "rsync -av '/var/cache/talos-sync/talos-v1.11.0-nocloud-amd64.iso' pve1:'/var/lib/vz/template/iso'/"];
                IoRun ["bash"; "-lc";
                       "ssh -o BatchMode=yes pve2 'mkdir -p '/mnt/iso''"]] |}).
Proof.
  apply (proj1 (proj2 (push_file_to_hosts_serves_every_host
                         (with_runs (demo_env true) pve2_refuses)
                         "/var/cache/talos-sync/talos-v1.11.0-nocloud-amd64.iso" sample_hosts
                         (VStr "/var/lib/vz/template/iso") (VStr "-av") (VStr "-o BatchMode=yes")
                         empty_world eq_refl)) pve2_refuses).
  intros w0 cmd. reflexivity.
Defined.

(** ** Quoting for the shell *)

Lemma shlex_quote_body_read (s : string) :
  sh_word ShSingle
    (string_flat_map
       (fun a => if Ascii.eqb a "'"
                 then String "'" (String dquote (String "'" (String dquote "'")))
                 else String a "") s ++ "'")
  = Some s.
Proof.
  induction s as [|a s IH]; [reflexivity|].
  cbn [string_flat_map].
  destruct (Ascii.eqb_spec a "'") as [->|Hne].
  - etransitivity; [|exact (f_equal (option_map (String "'")) IH)]. reflexivity.
  - cbn [String.append sh_word]. apply Ascii.eqb_neq in Hne. rewrite Hne.
    now rewrite IH.
Qed.

(** X8: what [shlex_quote] makes of a string, a shell reads back as that
    string, whatever characters it holds. *)
Theorem shlex_quote_read_back (s : string) :
  exists q, shlex_quote (VStr s) = Ok q /\ sh_word ShBare q = Some s.
Proof.
  eexists. split; [reflexivity|]. cbn [String.append sh_word].
  change (Ascii.eqb "'" "'") with true. cbv iota. apply shlex_quote_body_read.
Qed.

(** ** One manifest per order *)

Lemma string_app_inv_head (a x y : string) : a ++ x = a ++ y -> x = y.
Proof. induction a as [|c a IH]; simpl; [auto|]. intros [= H]. auto. Qed.

Lemma string_app_same_length (n1 n2 r1 r2 : string) :
  n1 ++ r1 = n2 ++ r2 -> String.length n1 = String.length n2 -> n1 = n2.
Proof.
  revert n2. induction n1 as [|c n1 IH]; intros [|c2 n2]; simpl; intros H Hl;
    try discriminate; [reflexivity|].
  injection H as -> H. f_equal. apply IH; [exact H | lia].
Qed.

Lemma string_app_inv_tail (x y e : string) : x ++ e = y ++ e -> x = y.
Proof.
  intros H. apply (string_app_same_length _ _ _ _ H).
  apply (f_equal String.length) in H. rewrite !string_length_app in H. lia.
Qed.

(** A longer replacement never gives a shorter result. *)
Lemma replace_from_length_mono (old n1 n2 s : string) :
  (String.length n1 <= String.length n2)%nat ->
  forall skip,
    (String.length (replace_from old n1 s skip)
     <= String.length (replace_from old n2 s skip))%nat.
Proof.
  intros Hl. induction s as [|a r IH]; intros skip; [reflexivity|].
  cbn [replace_from]. destruct skip as [|k]; [|apply IH].
  destruct (String.prefix old (String a r)).
  - rewrite !string_length_app. specialize (IH (String.length old - 1)%nat). lia.
  - cbn [String.length]. specialize (IH 0%nat). lia.
Qed.

(** With an occurrence to replace, the result grows with the replacement. *)
Lemma replace_from_length_strict (old n1 n2 s : string) :
  (String.length n1 < String.length n2)%nat ->
  contains_sub old s = true -> s <> "" ->
  (String.length (replace_from old n1 s 0) < String.length (replace_from old n2 s 0))%nat.
Proof.
  intros Hl. induction s as [|a r IH]; intros Hc Hne; [contradiction|].
  cbn [replace_from]. cbn [contains_sub] in Hc.
  destruct (String.prefix old (String a r)) eqn:Hp.
  - rewrite !string_length_app.
    pose proof (replace_from_length_mono old n1 n2 r ltac:(lia) (String.length old - 1)%nat).
    lia.
  - cbn [orb] in Hc. cbn [String.length].
    destruct r as [|b r'].
    + cbn in Hc. destruct old as [|o old']; [discriminate Hp | discriminate Hc].
    + specialize (IH Hc ltac:(discriminate)). lia.
Qed.

(** The text before the first occurrence is kept, and the replacement
    follows it. *)
Lemma replace_from_first (old s : string) :
  contains_sub old s = true -> s <> "" ->
  exists before, forall new, exists rest, replace_from old new s 0 = before ++ new ++ rest.
Proof.
  induction s as [|a r IH]; intros Hc Hne; [contradiction|].
  cbn [contains_sub] in Hc. cbn [replace_from].
  destruct (String.prefix old (String a r)) eqn:Hp.
  - exists "". intros new. eexists. reflexivity.
  - cbn [orb] in Hc. destruct r as [|b r'].
    + cbn in Hc. destruct old as [|o old']; [discriminate Hp | discriminate Hc].
    + destruct (IH Hc ltac:(discriminate)) as [before Hb].
      exists (String a before). intros new. destruct (Hb new) as [rest Hr].
      exists rest. now rewrite Hr.
Qed.

Lemma str_replace_injective (ps old n1 n2 : string) :
  contains_sub old ps = true -> ps <> "" ->
  str_replace ps old n1 = str_replace ps old n2 -> n1 = n2.
Proof.
  unfold str_replace. intros Hc Hne Heq.
  assert (Hlen : String.length n1 = String.length n2).
  { destruct (Nat.lt_trichotomy (String.length n1) (String.length n2)) as [Hlt|[Hl|Hlt]];
      [|exact Hl|].
    - pose proof (replace_from_length_strict old n1 n2 ps Hlt Hc Hne) as H.
      rewrite Heq in H. lia.
    - pose proof (replace_from_length_strict old n2 n1 ps Hlt Hc Hne) as H.
      rewrite Heq in H. lia. }
  destruct (replace_from_first old ps Hc Hne) as [before Hb].
  destruct (Hb n1) as [r1 H1]. destruct (Hb n2) as [r2 H2].
  rewrite H1, H2 in Heq. apply string_app_inv_head in Heq.
  exact (string_app_same_length _ _ _ _ Heq Hlen).
Qed.

(** X9: with [manifest.dir] or [manifest.path] configured and no
    [path_template], two orders are given the same manifest path only if
    they have the same order id: the directory form, the [{orderid}]
    placeholder and the suffix form all keep the id recoverable. *)
Theorem manifest_path_for_order_injective (E : Env) (cfg : list (string * pyval))
    (oid1 oid2 p : string) (w1 w2 : world) :
  truthy (cfg_value "path_template" cfg) = false ->
  (truthy (cfg_value "dir" cfg) || truthy (cfg_value "path" cfg))%bool = true ->
  fst (manifest_path_for_order E oid1 (VDict cfg) w1) = Ok p ->
  fst (manifest_path_for_order E oid2 (VDict cfg) w2) = Ok p ->
  oid1 = oid2.
Proof.
  unfold cfg_value. intros Ht Hd.
  unfold manifest_path_for_order, bind, lift, ret, raise. cbn [py_get].
  rewrite Ht.
  destruct (truthy (match assoc "dir" cfg with Some x => x | None => VNone end)) eqn:Hdir.
  - destruct (match assoc "dir" cfg with Some x => x | None => VNone end)
      as [| | |d| |] eqn:Hv; cbn [path_arg]; unfold raise, ret, makedirs, fs_step;
      try (intros H; discriminate H).
    cbn [truthy] in Hdir. apply negb_true_iff in Hdir. rewrite Hdir.
    destruct (fs_fault E w1 (IoMakedirs d)); [intros H; discriminate H|].
    destruct (fs_fault E w2 (IoMakedirs d)); [intros _ H; discriminate H|].
    cbn [fst]. unfold path_join.
    change (startswith ("manifest-" ++ oid1 ++ ".yaml") "/") with false.
    change (startswith ("manifest-" ++ oid2 ++ ".yaml") "/") with false.
    cbv iota. intros [= <-] [= H].
    destruct (String.eqb d "" || endswith d "/")%bool.
    + apply string_app_inv_head in H. apply (string_app_inv_head "manifest-") in H.
      now apply string_app_inv_tail in H.
    + apply string_app_inv_head in H. apply (string_app_inv_head "/manifest-") in H.
      now apply string_app_inv_tail in H.
  - cbn [orb] in Hd. rewrite Hd.
    destruct (match assoc "path" cfg with Some x => x | None => VNone end)
      as [| | |ps| |] eqn:Hp; cbn [py_contains];
      try (intros H; discriminate H).
    + destruct (contains_sub "{orderid}" ps) eqn:Hc.
      * cbn [fst]. intros [= <-] [= H]. apply str_replace_injective in H; auto.
        intros ->. discriminate Hd.
      * destruct (splitext E ps) as [root ext]. cbn [fst]. intros [= <-] [= H].
        apply string_app_inv_head in H. apply (string_app_inv_head "-") in H.
        now apply string_app_inv_tail in H.
    + destruct (existsb _ _); intros H; discriminate H.
    + destruct (match assoc "{orderid}" _ with Some _ => true | None => false end);
        intros H; discriminate H.
Qed.

Lemma manifest_path_for_order_injective_witness :
  fst (manifest_path_for_order (demo_env true) "2024-07"
         (VDict [("path", VStr "out/manifest-{orderid}.yaml")]) empty_world)
  = Ok "out/manifest-2024-07.yaml"
  /\ "2024-07" = "2024-07".
Proof.
  split; [reflexivity|].
  apply (manifest_path_for_order_injective (demo_env true)
           [("path", VStr "out/manifest-{orderid}.yaml")] "2024-07" "2024-07"
           "out/manifest-2024-07.yaml" empty_world empty_world);
    reflexivity.
Defined.

(** ** The names of cached files *)

Lemma substring_all (s : string) : String.substring 0 (String.length s) s = s.
Proof. induction s as [|a s IH]; simpl; [reflexivity | now rewrite IH]. Qed.

Lemma split_once_found (c : ascii) (h t : string) :
  string_mem c h = false -> split_once c (h ++ String c t) = (h, Some t).
Proof.
  induction h as [|a h IH]; simpl; intros H.
  - now rewrite Ascii.eqb_refl.
  - apply orb_false_iff in H as [Ha Hh]. rewrite Ha, (IH Hh). reflexivity.
Qed.

Lemma split_once_inv (c : ascii) (s h t : string) :
  split_once c s = (h, Some t) -> s = h ++ String c t /\ string_mem c h = false.
Proof.
  revert h. induction s as [|a s IH]; simpl; intros h H; [discriminate H|].
  destruct (Ascii.eqb_spec a c) as [->|Hne].
  - injection H as <- <-. auto.
  - destruct (split_once c s) as [h' t'] eqn:Hs. injection H as <- ->.
    destruct (IH h' eq_refl) as [-> Hm]. split; [reflexivity|].
    simpl. apply Ascii.eqb_neq in Hne. now rewrite Hne, Hm.
Qed.

Lemma dot_star_end_plain (t : string) :
  string_mem nl t = false -> dot_star_end t = Some t.
Proof.
  induction t as [|a t IH]; simpl; intros H; [reflexivity|].
  apply orb_false_iff in H as [Ha Ht]. now rewrite Ha, (IH Ht).
Qed.

Lemma dot_star_end_inv (s t : string) :
  dot_star_end s = Some t ->
  string_mem nl t = false /\ (s = t \/ s = t ++ String nl "").
Proof.
  revert t. induction s as [|a s IH]; simpl; intros t H.
  - injection H as <-. auto.
  - destruct (Ascii.eqb_spec a nl) as [->|Hne].
    + destruct s; [|discriminate H]. injection H as <-. auto.
    + destruct (dot_star_end s) as [t'|]; [|discriminate H]. injection H as <-.
      destruct (IH t' eq_refl) as [Hm Hs]. split.
      * simpl. apply Ascii.eqb_neq in Hne. now rewrite Hne, Hm.
      * destruct Hs as [-> | ->]; [now left | now right].
Qed.

Lemma FILE_RE_inv (name ver tail : string) :
  _FILE_RE name = Some (ver, tail)
  <-> (exists c v e,
         ver = String "v" (String c v)
         /\ string_mem "-" ver = false /\ string_mem nl tail = false
         /\ (e = "" \/ e = String nl "")
         /\ name = "talos-" ++ ver ++ "-" ++ tail ++ e).
Proof.
  split.
  - unfold _FILE_RE, startswith. intros H.
    destruct (String.prefix "talos-" name) eqn:Hp; [|discriminate H].
    apply prefix_split in Hp as [rest ->].
    change (String.length ("talos-" ++ rest) - 6)%nat with (String.length rest - 0)%nat in H.
    rewrite Nat.sub_0_r in H.
    change (String.substring 6 (String.length rest) ("talos-" ++ rest))
      with (String.substring 0 (String.length rest) rest) in H.
    rewrite substring_all in H.
    destruct rest as [|a rest']; [discriminate H|].
    destruct (Ascii.eqb_spec a "v") as [->|Hne].
    2:{ exfalso. destruct a as [[] [] [] [] [] [] [] []]; try discriminate H.
        now apply Hne. }
    destruct (split_once "-" (String "v" rest')) as [h t] eqn:Hs.
    cbv iota beta in H.
    destruct t as [tailfull|].
    2:{ exfalso. destruct h as [|a h]; [discriminate H|].
        destruct a as [[] [] [] [] [] [] [] []]; try discriminate H.
        destruct h; discriminate H. }
    apply split_once_inv in Hs as [Hs Hm].
    destruct h as [|a h]; [discriminate H|].
    assert (a = "v"%char) as -> by (simpl in Hs; now injection Hs as <- _).
    destruct h as [|c v]; [discriminate H|].
    destruct (dot_star_end tailfull) as [tl|] eqn:Hd; [|discriminate H].
    injection H as <- <-.
    apply dot_star_end_inv in Hd as [Hnl Htail].
    destruct Htail as [-> | ->].
    + exists c, v, "". rewrite Hs. repeat split; auto.
      now rewrite (app_empty_r tl).
    + exists c, v, (String nl ""). rewrite Hs. repeat split; auto.
  - intros (c & v & e & -> & Hdash & Hnl & He & ->).
    unfold _FILE_RE, startswith.
    change (String.prefix "talos-" ("talos-" ++ String "v" (String c v) ++ "-" ++ tail ++ e))
      with true. cbv iota.
    set (rest := String "v" (String c v) ++ "-" ++ tail ++ e).
    change (String.length ("talos-" ++ rest) - 6)%nat with (String.length rest - 0)%nat.
    rewrite Nat.sub_0_r.
    change (String.substring 6 (String.length rest) ("talos-" ++ rest))
      with (String.substring 0 (String.length rest) rest).
    rewrite substring_all. subst rest.
    change (String "v" (String c v) ++ "-" ++ tail ++ e)
      with (String "v" (String c v) ++ String "-" (tail ++ e)).
    rewrite (split_once_found "-" _ _ Hdash).
    cbn [String.append].
    assert (Hd : dot_star_end (tail ++ e) = Some tail).
    { destruct He as [-> | ->].
      - rewrite (app_empty_r tail). now apply dot_star_end_plain.
      - clear Hdash. induction tail as [|a t IH]; simpl in *.
        + reflexivity.
        + apply orb_false_iff in Hnl as [Ha Ht]. now rewrite Ha, (IH Ht). }
    now rewrite Hd.
Qed.

(** X10: which names the scan of the cache reads, and how.  The pattern
    accepts exactly the names [talos-<version>-<tail>], possibly followed
    by one newline, in which the version is [v] followed by at least one
    character and holds no dash, and the tail holds no newline; it takes
    them apart into that version and tail.  So the version group ends at
    the first dash: of a pre-release tag only the part before the dash is
    the version, and the rest goes to the tail.  And the name under which
    [process_positions] stores an image, [talos-<version>-<basename>], is
    not read at all when the version does not start with [v]. *)
Theorem FILE_RE_reads_cache_names (name ver tail : string) :
  (_FILE_RE name = Some (ver, tail)
   <-> (exists c v e,
          ver = String "v" (String c v)
          /\ string_mem "-" ver = false /\ string_mem nl tail = false
          /\ (e = "" \/ e = String nl "")
          /\ name = "talos-" ++ ver ++ "-" ++ tail ++ e))
  /\ (forall version basename,
        startswith version "v" = false ->
        _FILE_RE (cache_name version basename) = None)
  /\ (forall version pre basename,
        string_mem "-" version = false -> (2 <= String.length version)%nat ->
        startswith version "v" = true -> string_mem nl (pre ++ "-" ++ basename) = false ->
        _FILE_RE (cache_name (version ++ "-" ++ pre) basename)
        = Some (version, pre ++ "-" ++ basename)).
Proof.
  split; [apply FILE_RE_inv|]. split.
  - intros version basename Hv.
    destruct (_FILE_RE (cache_name version basename)) as [[v t]|] eqn:Hre; [|reflexivity].
    apply FILE_RE_inv in Hre as (c & v' & e & -> & Hdash & _ & _ & Hname).
    unfold cache_name in Hname. apply (string_app_inv_head "talos-") in Hname.
    destruct version as [|a version]; cbn [String.append] in Hname; [discriminate Hname|].
    injection Hname as -> _. unfold startswith in Hv. cbn [String.prefix] in Hv.
    destruct (Ascii.ascii_dec "v" "v") as [_|Hne]; [|now contradiction Hne].
    now rewrite prefix_empty in Hv.
  - intros version pre basename Hdash Hlen Hv Hnl.
    apply FILE_RE_inv.
    destruct version as [|a [|c v]]; cbn [String.length] in Hlen; try lia.
    unfold startswith in Hv. cbn [String.prefix] in Hv.
    destruct (Ascii.ascii_dec "v" a) as [<-|]; [|discriminate Hv].
    exists c, v, "". split; [reflexivity|]. split; [exact Hdash|]. split; [exact Hnl|].
    split; [now left|]. unfold cache_name.
    now rewrite !string_app_assoc, app_empty_r.
Qed.

Lemma FILE_RE_reads_cache_names_witness :
  _FILE_RE (cache_name ("v1.11.0" ++ "-" ++ "beta.1") "nocloud-amd64.iso")
  = Some ("v1.11.0", "beta.1" ++ "-" ++ "nocloud-amd64.iso").
Proof.
  apply (proj2 (proj2 (FILE_RE_reads_cache_names "" "" "")) "v1.11.0" "beta.1"
           "nocloud-amd64.iso");
    reflexivity || (cbn; lia).
Defined.

(** An image stored for the version [1.11.0], without the [v]: the scan
    does not see it, and no cleanup will ever plan it. *)
Example version_without_v_not_scanned :
  _FILE_RE (cache_name "1.11.0" "nocloud-amd64.iso") = None
  /\ plan_from_listing (fun _ => false) "/c" 1
       [cache_name "1.11.0" "nocloud-amd64.iso"; cache_name "1.12.0" "nocloud-amd64.iso";
        cache_name "1.13.0" "nocloud-amd64.iso"]
     = Ok [].
Proof. split; reflexivity. Qed.

(** ** Which items reach the manifest *)

Lemma entry_set2_name (entry : entry_t) (k : string) (v : pyval) :
  assoc "name" (entry_set2 entry "download" k v) = assoc "name" entry.
Proof.
  unfold entry_set2. destruct (assoc "download" entry) as [[| | | | |d]|]; try reflexivity.
  now apply assoc_dict_set_ne.
Qed.

Section EntryNames.
Context (E : Env).

Ltac step_ok H :=
  repeat match type of H with
         | bind _ _ _ = (Ok _, _) => apply bind_ok in H as (? & ? & _ & H)
         | (let '(_, _) := ?x in _) _ = _ => destruct x
         | (if ?b then _ else _) _ = _ => destruct b
         | ret _ _ = (Ok _, _) => unfold ret in H; injection H as <- _
         | raise _ _ = (Ok _, _) => discriminate H
         end.

Lemma fetch_artifact_name (oid url local_path : string) (entry entry' : entry_t) (w w' : world) :
  fetch_artifact E oid url local_path entry w = (Ok entry', w') ->
  assoc "name" entry' = assoc "name" entry.
Proof.
  unfold fetch_artifact. intros H.
  apply bind_ok in H as (cached & ? & _ & H).
  apply bind_ok in H as (entry1 & ? & H1 & H).
  assert (Hn : assoc "name" entry1 = assoc "name" entry).
  { destruct (negb cached); step_ok H1; [apply entry_set2_name | reflexivity]. }
  step_ok H. now rewrite !entry_set2_name.
Qed.

Lemma decompress_stage_name (oid : string) (it image_format : pyval) (local_path : string)
    (entry entry' : entry_t) (w w' : world) :
  decompress_stage E oid it image_format local_path entry w = (Ok entry', w') ->
  assoc "name" entry' = assoc "name" entry.
Proof.
  unfold decompress_stage. intros H.
  apply bind_ok in H as (wanted & ? & _ & H).
  destruct wanted; step_ok H; [|reflexivity].
  now apply assoc_dict_set_ne.
Qed.

Lemma push_stage_name (c : ctx) (it : pyval) (entry entry' : entry_t) (w w' : world) :
  push_stage E c it entry w = (Ok entry', w') ->
  assoc "name" entry' = assoc "name" entry.
Proof.
  unfold push_stage. intros H. step_ok H; [|reflexivity].
  now apply assoc_dict_set_ne.
Qed.

(** The body of the loop passes over exactly the items of another
    product, and then does nothing at all; an entry it returns carries
    the name it was given. *)
Lemma process_item_outcome (c : ctx) (d : list (string * pyval)) (pos_name : pyval) (w : world) :
  match process_item E c (VDict d) pos_name w with
  | (Ok None, w') => skipped (VDict d) = true /\ w' = w
  | (Ok (Some entry), _) => skipped (VDict d) = false /\ assoc "name" entry = Some pos_name
  | (Raise _, _) => skipped (VDict d) = false
  end.
Proof.
  destruct (process_item E c (VDict d) pos_name w) as [[r|e] w'] eqn:H.
  - unfold process_item in H.
    apply bind_ok in H as (product & ? & Hp & H). apply lift_ok in Hp as [Hp ->].
    cbn [py_get] in Hp. injection Hp as <-.
    apply bind_ok in H as (pl & ? & Hl & H). apply lift_ok in Hl as [Hl ->].
    unfold skipped, cfg_value. rewrite Hl.
    destruct (negb (String.eqb pl "talos")).
    + unfold ret in H. injection H as <- <-. auto.
    + destruct r as [entry|].
      * split; [reflexivity|].
        repeat match type of H with
               | bind _ _ _ = (Ok _, _) =>
                   lazymatch type of H with
                   | bind (fetch_artifact _ _ _ _ _) _ _ = _ => fail
                   | _ => apply bind_ok in H as (? & ? & _ & H)
                   end
               | (let '(_, _) := ?x in _) _ = _ => destruct x
               end.
        destruct (dry_run c).
        -- unfold ret in H. now injection H as <- _.
        -- apply bind_ok in H as (e1 & ? & H1 & H). apply fetch_artifact_name in H1.
           apply bind_ok in H as (e2 & ? & H2 & H). apply decompress_stage_name in H2.
           apply bind_ok in H as (e3 & ? & H3 & H). apply push_stage_name in H3.
           unfold ret in H. injection H as <- _.
           now rewrite H3, H2, H1.
      * exfalso.
        repeat match type of H with
               | bind _ _ _ = (Ok _, _) => apply bind_ok in H as (? & ? & _ & H)
               | (let '(_, _) := ?x in _) _ = _ => destruct x
               end.
        destruct (dry_run c); [discriminate H|].
        repeat match type of H with
               | bind _ _ _ = (Ok _, _) => apply bind_ok in H as (? & ? & _ & H)
               end.
        discriminate H.
  - unfold process_item in H. unfold skipped, cfg_value.
    unfold bind at 1 in H. unfold lift at 1 in H. cbn [py_get] in H.
    unfold bind at 1 in H. unfold lift at 1 in H.
    destruct (py_lower _) as [pl|e0]; [|reflexivity].
    destruct (negb (String.eqb pl "talos")); [discriminate H | reflexivity].
Qed.

End EntryNames.

(** X11: the manifest accounts for every Talos item.  With the items
    being mappings, the loop returns one entry for each item whose
    product is [talos] in any letter case (or whose product is not a
    string), in the order of the items, and each entry, whether the item
    succeeded or failed, carries the name of its item, [<unnamed>] when
    it has none.  Items of other products get no entry, and a batch of
    only such items changes nothing. *)
Theorem process_loop_accounts_for_items (E : Env) (c : ctx) (items entries : list pyval)
    (w : world) :
  forallb is_mapping items = true ->
  exists out w',
    process_loop E c items entries w = (Ok (entries ++ out)%list, w')
    /\ map entry_name out
       = map (fun it => Some (pos_name_of it)) (List.filter (fun it => negb (skipped it)) items)
    /\ (forallb skipped items = true -> w' = w).
Proof.
  revert entries w. induction items as [|it items IH]; cbn [forallb]; intros entries w Hm.
  - exists [], w. unfold process_loop, ret. rewrite app_nil_r. auto.
  - apply andb_prop in Hm as [Hit Hitems].
    cbn [process_loop List.filter]. unfold bind.
    rewrite (process_one_cases E c it entries w Hit).
    destruct it as [| | | | |d]; try discriminate Hit.
    pose proof (process_item_outcome E c d (pos_name_of (VDict d)) w) as Ho.
    destruct (process_item E c (VDict d) (pos_name_of (VDict d)) w) as [[[entry|]|e] w1].
    + destruct Ho as [Hs Hn]. rewrite Hs. cbn [negb].
      destruct (IH (entries ++ [VDict entry])%list w1 Hitems) as (out & w' & Hrun & Hnames & _).
      exists (VDict entry :: out), w'. rewrite Hrun, <- app_assoc.
      split; [reflexivity|]. split; [|discriminate].
      cbn [map entry_name]. now rewrite Hn, Hnames.
    + destruct Ho as [Hs ->]. rewrite Hs. cbn [negb].
      destruct (IH entries w Hitems) as (out & w' & Hrun & Hnames & Hw).
      exists out, w'. auto.
    + rewrite Ho. cbn [negb].
      destruct (IH (entries ++ [err_entry (pos_name_of (VDict d)) e])%list
                  (add_log (item_error_line c (VDict d) e) w1) Hitems)
        as (out & w' & Hrun & Hnames & _).
      exists (err_entry (pos_name_of (VDict d)) e :: out), w'. rewrite Hrun, <- app_assoc.
      split; [reflexivity|]. split; [|discriminate].
      cbn [map]. rewrite Hnames. reflexivity.
Qed.

Lemma process_loop_accounts_for_items_witness :
  exists out w',
    process_loop (demo_env true) sample_ctx mixed_items [] empty_world = (Ok ([] ++ out)%list, w')
    /\ map entry_name out = [Some (VStr "node"); Some (VStr "<unnamed>")]
    /\ (forallb skipped mixed_items = true -> w' = empty_world).
Proof.
  apply (process_loop_accounts_for_items (demo_env true) sample_ctx mixed_items [] empty_world).
  reflexivity.
Defined.

(** ** Every order gets its manifest *)

Section OrderManifest.
Context (E : Env).

(** The catch-all around [process_positions] lets nothing out. *)
Lemma order_entries_returns (oid : string) (positions dflts : pyval) (dry : bool) (w : world) :
  exists w1,
    order_entries E oid positions dflts dry w
    = (Ok (entries_or_error (fst (process_positions E oid positions dflts dry w))), w1)
    /\ files w1 = files (snd (process_positions E oid positions dflts dry w)).
Proof.
  unfold order_entries, try_except.
  destruct (process_positions E oid positions dflts dry w) as [[entries|e] w1].
  - exists w1. auto.
  - eexists. split; reflexivity.
Qed.
End OrderManifest.

(** X12: an order gets its manifest also when its processing failed,
    provided the manifest path has a directory part.  In a real run on a
    disk that does not fail, for an order with a non-empty id whose
    positions can be counted and whose manifest path can be worked out,
    [process_order] returns, and afterwards the file at the manifest path
    holds the dump of a document with the order's id and with the entries
    of its positions or, when [process_positions] raised, the single
    entry reporting that.  For a manifest path without a directory part
    the directory to create has the empty name: [process_order] raises
    FileNotFoundError and writes no manifest. *)
Theorem process_order_writes_manifest (E : Env) (args : args_t) (dflts manifest_cfg : pyval)
    (cache_enabled : bool) (keep_versions : Z) (purge_before : bool)
    (d : list (string * pyval)) (path : string) (n : Z) (w : world) :
  no_fault E ->
  args_dry_run args = false ->
  order_id d <> "" ->
  py_len (order_positions d) = Ok n ->
  (forall w0, exists w1, manifest_path_for_order E (order_id d) manifest_cfg w0 = (Ok path, w1)) ->
  (path_dirname path <> "" ->
   exists doc w',
     process_order E args dflts manifest_cfg cache_enabled keep_versions purge_before (VDict d) w
     = (Ok tt, w')
     /\ files w' !! path = Some (yaml_safe_dump E (VDict doc))
     /\ assoc "entries" doc
        = Some (VList (entries_or_error
                         (fst (process_positions E (order_id d) (order_positions d) dflts
                                 false w))))
     /\ exists customer,
          assoc "order" doc
          = Some (VDict [("orderid", VStr (order_id d)); ("customer", customer);
                         ("positions_count", VInt n)]))
  /\ (path_dirname path = "" ->
      exists w1 w',
        order_entries E (order_id d) (order_positions d) dflts false w
        = (Ok (entries_or_error
                 (fst (process_positions E (order_id d) (order_positions d) dflts false w))),
           w1)
        /\ process_order E args dflts manifest_cfg cache_enabled keep_versions purge_before
             (VDict d) w
           = (Raise (FileNotFoundError ""), w')
        /\ files w' = files w1).
Proof.
  intros Hnf Hdry Hoid Hlen Hpath.
  apply String.eqb_neq in Hoid.
  destruct (order_entries_returns E (order_id d) (order_positions d) dflts false w)
    as (w1 & Hoe & _).
  destruct (Hpath w1) as [w2 Hp].
  assert (Hfiles : files w2 = files w1).
  { destruct (ew_manifest_path_for_order E (order_id d) manifest_cfg w1) as [Hf _].
    rewrite Hp in Hf. exact Hf. }
  split; intros Hdir.
  - unfold process_order.
    erewrite bind_run by reflexivity.
    erewrite bind_run by reflexivity.
    erewrite bind_run by reflexivity.
    fold (order_id d). fold (order_positions d).
    rewrite Hoid, Hdry.
    erewrite bind_run by exact Hoe.
    erewrite bind_run by exact Hp.
    erewrite bind_run by reflexivity.
    erewrite bind_run by (unfold lift; rewrite Hlen; reflexivity).
    erewrite bind_run by (apply makedirs_run; [exact Hnf | exact Hdir]).
    erewrite bind_run by (apply write_file_run; exact Hnf).
    unfold print. eexists _, _. split; [reflexivity|].
    cbn [files add_log]. split; [apply lookup_insert_eq|].
    split; [reflexivity|]. eexists. reflexivity.
  - exists w1. eexists. split; [exact Hoe|].
    unfold process_order.
    erewrite bind_run by reflexivity.
    erewrite bind_run by reflexivity.
    erewrite bind_run by reflexivity.
    fold (order_id d). fold (order_positions d).
    rewrite Hoid, Hdry.
    erewrite bind_run by exact Hoe.
    erewrite bind_run by exact Hp.
    erewrite bind_run by reflexivity.
    erewrite bind_run by (unfold lift; rewrite Hlen; reflexivity).
    unfold bind, makedirs, raise. rewrite Hdir. cbn [String.eqb].
    split; [reflexivity|]. exact Hfiles.
Qed.

Lemma process_order_writes_manifest_witness :
  exists doc w',
    process_order (demo_env true) (sample_args false) (VDict []) (VDict [("dir", VStr "out")])
      true 3 false (VDict broken_order) empty_world
    = (Ok tt, w')
    /\ files w' !! "out/manifest-o7.yaml" = Some (yaml_safe_dump (demo_env true) (VDict doc))
    /\ assoc "entries" doc
       = Some (VList [order_err_entry (no_attribute (VStr "o") "get")])
    /\ exists customer,
         assoc "order" doc
         = Some (VDict [("orderid", VStr "o7"); ("customer", customer);
                        ("positions_count", VInt 4)]).
Proof.
  apply (proj1 (process_order_writes_manifest (demo_env true) (sample_args false) (VDict [])
           (VDict [("dir", VStr "out")]) true 3 false broken_order "out/manifest-o7.yaml" 4
           empty_world (fun _ _ => eq_refl) eq_refl ltac:(discriminate) eq_refl
           (fun w0 => ex_intro _ _ eq_refl))).
  discriminate.
Defined.

(** The manifest path [m] of the configuration gives [m-o7.yaml], a path
    without directory part: the order ends in FileNotFoundError and no
    manifest is written. *)
Example manifest_without_directory :
  let r := process_order (demo_env true) (sample_args false) (VDict [])
             (VDict [("path", VStr "m")]) true 3 false (VDict broken_order) empty_world in
  fst r = Raise (FileNotFoundError "") /\ files (snd r) = files empty_world.
Proof. vm_compute. split; reflexivity. Qed.

(** ** An order without an id *)

Lemma orders_loop_app (E : Env) (args : args_t) (dflts manifest_cfg : pyval)
    (cache_enabled : bool) (keep_versions : Z) (purge_before : bool) (l1 l2 : list pyval) :
  forall w,
    orders_loop E args dflts manifest_cfg cache_enabled keep_versions purge_before (l1 ++ l2) w
    = match orders_loop E args dflts manifest_cfg cache_enabled keep_versions purge_before l1 w
      with
      | (Ok _, w1) =>
          orders_loop E args dflts manifest_cfg cache_enabled keep_versions purge_before l2 w1
      | (Raise e, w1) => (Raise e, w1)
      end.
Proof.
  induction l1 as [|o l1 IH]; intros w; cbn [orders_loop app]; [reflexivity|].
  unfold bind.
  destruct (process_order E args dflts manifest_cfg cache_enabled keep_versions purge_before o w)
    as [[[]|e] w1]; [apply IH | reflexivity].
Qed.

(** X13: an order without an id stops the whole run, unlike a failing
    item or a failing order.  The orders before it are processed; at the
    order whose id is empty or blank the loop raises, having done nothing
    for that order, and the orders after it are never looked at. *)
Theorem orders_loop_stops_at_missing_id (E : Env) (args : args_t) (dflts manifest_cfg : pyval)
    (cache_enabled : bool) (keep_versions : Z) (purge_before : bool)
    (pre post : list pyval) (d : list (string * pyval)) (w : world) :
  order_id d = "" ->
  orders_loop E args dflts manifest_cfg cache_enabled keep_versions purge_before
    (pre ++ VDict d :: post) w
  = match orders_loop E args dflts manifest_cfg cache_enabled keep_versions purge_before pre w
    with
    | (Ok _, w1) => (Raise (ValueError "Each order must have a non-empty 'orderid'"), w1)
    | (Raise e, w1) => (Raise e, w1)
    end.
Proof.
  intros Hid. rewrite orders_loop_app.
  destruct (orders_loop E args dflts manifest_cfg cache_enabled keep_versions purge_before pre w)
    as [[[]|e] w1]; [|reflexivity].
  cbn [orders_loop]. unfold bind at 1. unfold process_order.
  erewrite bind_run by reflexivity.
  erewrite bind_run by reflexivity.
  erewrite bind_run by reflexivity.
  fold (order_id d). rewrite Hid. reflexivity.
Qed.

Lemma orders_loop_stops_at_missing_id_witness :
  orders_loop (demo_env true) (sample_args false) (VDict []) (VDict []) true 3 false
    ([] ++ VDict [("orderid", VStr "  ")] :: [VDict [("orderid", VStr "o2")]]) empty_world
  = (Raise (ValueError "Each order must have a non-empty 'orderid'"), empty_world).
Proof.
  apply (orders_loop_stops_at_missing_id (demo_env true) (sample_args false) (VDict []) (VDict [])
           true 3 false [] [VDict [("orderid", VStr "o2")]] [("orderid", VStr "  ")] empty_world).
  reflexivity.
Defined.

(** ** The name of a decompressed image *)

Lemma substring_prefix (p e : string) : String.substring 0 (String.length p) (p ++ e) = p.
Proof.
  induction p as [|c p IH]; simpl; [now destruct e | now rewrite IH].
Qed.

Lemma string_mem_app (c : ascii) (a b : string) :
  string_mem c (a ++ b) = (string_mem c a || string_mem c b)%bool.
Proof.
  induction a as [|x a IH]; simpl; [reflexivity|]. rewrite IH. now rewrite orb_assoc.
Qed.

(** X14: the decompressed image is named after the compressed one: a
    final [.xz] is taken off and nothing else is changed, and a name
    without newline that does not end in [.xz] is kept as it is. *)
Theorem strip_xz_suffix_spec :
  (forall p, strip_xz_suffix (p ++ ".xz") = p)
  /\ (forall s, string_mem nl s = false -> endswith s ".xz" = false -> strip_xz_suffix s = s).
Proof.
  split.
  - intros p. unfold strip_xz_suffix. rewrite endswith_app.
    rewrite string_length_app. cbn [String.length].
    replace (String.length p + 3 - 3)%nat with (String.length p) by lia.
    apply substring_prefix.
  - intros s Hnl He. unfold strip_xz_suffix. rewrite He.
    destruct (endswith s (".xz" ++ String nl "")) eqn:He2; [|reflexivity].
    apply endswith_split in He2 as [p ->].
    rewrite string_mem_app in Hnl. apply orb_false_iff in Hnl as [_ Hnl].
    discriminate Hnl.
Qed.

Lemma strip_xz_suffix_spec_witness : strip_xz_suffix "disk.raw" = "disk.raw".
Proof. apply (proj2 strip_xz_suffix_spec); reflexivity. Defined.

(** ** The record of a decompressed image *)

Section DecompressStage.
Context (E : Env).

Lemma sha256_file_ok (p sha : string) (w w' : world) :
  sha256_file E p w = (Ok sha, w') ->
  exists c, files w !! p = Some c /\ sha = sha256_hex E c /\ files w' = files w.
Proof.
  unfold sha256_file. intros H. apply bind_ok in H as (c & w1 & Hr & H).
  apply read_file_ok in Hr as [Hc ->]. unfold ret in H. injection H as <- <-.
  exists c. auto.
Qed.
End DecompressStage.

Lemma getsize_value (p : string) (n : Z) (w w' : world) :
  getsize p w = (Ok n, w') ->
  exists c, files w !! p = Some c /\ n = Z.of_nat (String.length c) /\ w' = w.
Proof.
  unfold getsize. destruct (files w !! p) as [c|]; [|discriminate].
  intros [= <- <-]. eauto.
Qed.

(** X15: what the manifest says of a decompressed image is true of the
    disk.  When [decompress_stage] returns, then either the item did not
    ask for decompression (only formats [raw.xz] and [rawxz] with
    [decompress_raw] set do) and entry and world are as before; or the
    image stands at the local path without its [.xz], its checksum file
    beside it holds the digest of that very content, and the entry
    records that path, that digest and the size of that content. *)
Theorem decompress_stage_records_the_file (E : Env) (oid : string) (it image_format : pyval)
    (local_path : string) (entry entry' : entry_t) (w w' : world) :
  decompress_stage E oid it image_format local_path entry w = (Ok entry', w') ->
  (wants_decompress it image_format = Ok false /\ entry' = entry /\ w' = w)
  \/ (wants_decompress it image_format = Ok true
      /\ exists c,
           files w' !! strip_xz_suffix local_path = Some c
           /\ files w' !! (strip_xz_suffix local_path ++ ".sha256")
              = Some (sha256_hex E c ++ String nl "")
           /\ assoc "decompressed" entry'
              = Some (VDict [("path", VStr (strip_xz_suffix local_path));
                             ("sha256", VStr (sha256_hex E c));
                             ("size_bytes", VInt (Z.of_nat (String.length c)))])).
Proof.
  unfold decompress_stage. fold (wants_decompress it image_format). intros H.
  apply bind_ok in H as (wanted & w0 & Hw & H). apply lift_ok in Hw as [Hw ->].
  destruct wanted.
  - right. split; [exact Hw|].
    apply bind_ok in H as ([] & w1 & _ & H).
    apply bind_ok in H as ([] & w2 & _ & H).
    apply bind_ok in H as (sha & w3 & Hsha & H).
    apply sha256_file_ok in Hsha as (c & Hc & -> & Hf3).
    apply bind_ok in H as (size & w4 & Hsize & H).
    apply getsize_value in Hsize.
    apply bind_ok in H as ([] & w5 & Hwr & H).
    apply write_file_ok in Hwr.
    unfold ret in H. injection H as <- <-.
    exists c. destruct Hsize as (c' & Hc' & -> & ->). rewrite Hf3, Hc in Hc'.
    injection Hc' as <-. subst w5. cbn [files].
    split; [rewrite lookup_insert_ne by apply sidecar_ne; now rewrite Hf3|].
    split; [apply lookup_insert_eq|].
    apply assoc_dict_set_eq.
  - left. unfold ret in H. injection H as <- <-. auto.
Qed.

Lemma decompress_stage_records_the_file_witness :
  exists c,
    files (snd (decompress_stage (demo_env true) "o1" xz_item (VStr "raw.xz") xz_path [] xz_world))
      !! strip_xz_suffix xz_path = Some c.
Proof.
  destruct (decompress_stage_records_the_file (demo_env true) "o1" xz_item (VStr "raw.xz")
              xz_path [] _ xz_world _ eq_refl) as [[Hw _] | [_ (c & Hc & _)]].
  - discriminate Hw.
  - exists c. exact Hc.
Defined.

(** ** What a cleanup plan can name *)

Lemma cleanup_spec_members (on_disk : string -> bool) (cache_dir : string) (keep : nat)
    (entries : list string) (p : string) :
  In p (cleanup_spec on_disk cache_dir keep entries) ->
  exists name ver tail,
    In name entries /\ endswith name ".sha256" = false /\ _FILE_RE name = Some (ver, tail)
    /\ (p = path_join cache_dir name
        \/ (p = path_join cache_dir name ++ ".sha256" /\ on_disk p = true)).
Proof.
  unfold cleanup_spec. intros H.
  apply in_flat_map in H as (tail & _ & H).
  apply in_flat_map in H as (victim & Hv & Hp).
  apply in_skipn in Hv.
  apply (Permutation_in _ (newest_first_perm _)) in Hv.
  unfold family in Hv. apply in_map_iff in Hv as ([t [ver full]] & <- & Hin).
  apply filter_In in Hin as [Hin _].
  unfold scanned in Hin. apply in_flat_map in Hin as (name & Hname & Hscan).
  unfold scan_name in Hscan.
  destruct (endswith name ".sha256") eqn:Hside; [contradiction|].
  destruct (_FILE_RE name) as [[ver' tail']|] eqn:Hre; [|contradiction].
  destruct Hscan as [[= <- <- <-]|[]].
  exists name, ver', tail'. repeat split; auto.
  unfold with_sidecar in Hp. cbn [snd] in Hp.
  destruct Hp as [<-|Hp]; [now left|].
  destruct (on_disk (path_join cache_dir name ++ ".sha256")) eqn:Hd; [|contradiction].
  destruct Hp as [<-|[]]. right. auto.
Qed.

(** X16: a cleanup plan names nothing but images of the cache.  When
    [plan_cache_cleanup] returns a plan it has deleted nothing, and every
    path of the plan is an entry of the listing of the cache directory
    whose name has the form of a cached image and is not a checksum file,
    joined to the directory, or the existing checksum file of such an
    entry. *)
Theorem plan_cache_cleanup_names_cache_files (E : Env) (cdir : string) (keep : Z)
    (plan : list string) (w w' : world) :
  plan_cache_cleanup E cdir keep w = (Ok plan, w') ->
  files w' = files w
  /\ forall p,
       In p plan ->
       exists entries name ver tail,
         listdir_resp E w cdir = Ok entries
         /\ In name entries /\ endswith name ".sha256" = false
         /\ _FILE_RE name = Some (ver, tail)
         /\ (p = path_join cdir name
             \/ (p = path_join cdir name ++ ".sha256" /\ path_exists w p = true)).
Proof.
  unfold plan_cache_cleanup. destruct keep as [|k|k]; cbn [Z.leb Z.compare];
    try (unfold ret; intros [= <- <-]; split; [reflexivity | intros p []]).
  unfold bind, listdir_or_missing, try_except, bind, listdir, ret, raise.
  destruct (listdir_resp E w cdir) as [entries|e] eqn:Hl.
  - rewrite plan_from_listing_spec. unfold planned.
    destruct (versions_convert cdir entries); [|discriminate].
    intros [= <- <-]. split; [reflexivity|].
    intros p Hp. apply cleanup_spec_members in Hp as (name & ver & tail & H).
    exists entries, name, ver, tail. split; [reflexivity | exact H].
  - destruct (String.eqb (exc_class e) "FileNotFoundError"); [|discriminate].
    intros [= <- <-]. split; [reflexivity | intros p []].
Qed.

Lemma plan_cache_cleanup_names_cache_files_witness :
  files (snd (plan_cache_cleanup sample_cache_env "/var/cache/talos-sync" 2 sample_cache_world))
  = files sample_cache_world.
Proof.
  apply (proj1 (plan_cache_cleanup_names_cache_files sample_cache_env "/var/cache/talos-sync" 2
                  _ sample_cache_world _ eq_refl)).
Defined.

(** ** Items only name their own cache files *)

Section Calls.
Context (E : Env) (Q : string -> Prop).

Lemma cw_ret {A : Type} (a : A) : calls_within Q (ret a).
Proof. intros w. exists []. cbn. now rewrite app_nil_r. Qed.

Lemma cw_raise {A : Type} (e : exc) : calls_within Q (@raise A e).
Proof. intros w. exists []. cbn. now rewrite app_nil_r. Qed.

Lemma cw_lift {A : Type} (r : result A) : calls_within Q (lift r).
Proof. intros w. exists []. cbn. now rewrite app_nil_r. Qed.

Lemma cw_read {A : Type} (f : world -> A) : calls_within Q (fun w => (Ok (f w), w)).
Proof. intros w. exists []. cbn. now rewrite app_nil_r. Qed.

Lemma cw_log {A : Type} (ev : io) (f : world -> result A) :
  Forall Q (changed_paths ev) -> calls_within Q (fun w => (f w, add_log ev w)).
Proof. intros Hev w. exists [ev]. cbn. split; [reflexivity|]. now constructor. Qed.

Lemma cw_bind {A B : Type} (m : M A) (k : A -> M B) :
  calls_within Q m -> (forall a, calls_within Q (k a)) -> calls_within Q (bind m k).
Proof.
  intros Hm Hk w. unfold bind. destruct (Hm w) as (evs & Hl & Hp).
  destruct (m w) as [[a|e] w1]; cbn [snd] in *.
  - destruct (Hk a w1) as (evs' & Hl' & Hp'). exists (evs ++ evs')%list.
    rewrite Hl', Hl, <- app_assoc. split; [reflexivity|].
    apply List.Forall_app. now split.
  - now exists evs.
Qed.

Lemma cw_try_except {A : Type} (m : M A) (h : exc -> M A) :
  calls_within Q m -> (forall e, calls_within Q (h e)) -> calls_within Q (try_except m h).
Proof.
  intros Hm Hh w. unfold try_except. destruct (Hm w) as (evs & Hl & Hp).
  destruct (m w) as [[a|e] w1]; cbn [snd] in *.
  - now exists evs.
  - destruct (Hh e w1) as (evs' & Hl' & Hp'). exists (evs ++ evs')%list.
    rewrite Hl', Hl, <- app_assoc. split; [reflexivity|].
    apply List.Forall_app. now split.
Qed.

Lemma cw_fs_step (ev : io) : Forall Q (changed_paths ev) -> calls_within Q (fs_step E ev).
Proof.
  intros Hev w. unfold fs_step. destruct (fs_fault E w ev); cbn [snd].
  - exists []. now rewrite app_nil_r.
  - exists [ev]. split; [reflexivity|]. now constructor.
Qed.

Lemma cw_makedirs (path : string) : calls_within Q (makedirs E path).
Proof.
  unfold makedirs. destruct (String.eqb path ""); [apply cw_raise|].
  apply cw_fs_step. constructor.
Qed.

Lemma cw_getsize (path : string) : calls_within Q (getsize path).
Proof.
  intros w. exists []. unfold getsize.
  destruct (files w !! path); cbn; now rewrite app_nil_r.
Qed.

Lemma cw_read_file (path : string) : calls_within Q (read_file E path).
Proof.
  intros w. unfold read_file.
  destruct (fs_fault E w (IoRead path)); [exists []; cbn; now rewrite app_nil_r|].
  destruct (files w !! path); [|exists []; cbn; now rewrite app_nil_r].
  exists [IoRead path]. split; [reflexivity|]. repeat constructor.
Qed.

Lemma cw_write_file (path c : string) : Q path -> calls_within Q (write_file E path c).
Proof.
  intros HQ w. unfold write_file.
  destruct (fs_fault E w (IoWrite path c)); [exists []; cbn; now rewrite app_nil_r|].
  exists [IoWrite path c]. split; [reflexivity|]. repeat constructor. exact HQ.
Qed.

Lemma cw_replace_file (src dst : string) :
  Q src -> Q dst -> calls_within Q (replace_file E src dst).
Proof.
  intros Hs Hd w. unfold replace_file.
  destruct (fs_fault E w (IoReplace src dst)); [exists []; cbn; now rewrite app_nil_r|].
  destruct (files w !! src); [|exists []; cbn; now rewrite app_nil_r].
  exists [IoReplace src dst]. split; [reflexivity|]. repeat constructor; assumption.
Qed.

Lemma cw_remove_file (path : string) : Q path -> calls_within Q (remove_file E path).
Proof.
  intros HQ w. unfold remove_file.
  destruct (fs_fault E w (IoRemove path)); [exists []; cbn; now rewrite app_nil_r|].
  destruct (files w !! path); [|exists []; cbn; now rewrite app_nil_r].
  exists [IoRemove path]. split; [reflexivity|]. repeat constructor. exact HQ.
Qed.

Lemma cw_weaken {A : Type} (Q' : string -> Prop) (m : M A) :
  (forall p, Q' p -> Q p) -> calls_within Q' m -> calls_within Q m.
Proof.
  intros HQ Hm w. destruct (Hm w) as (evs & Hl & Hp). exists evs. split; [exact Hl|].
  apply (List.Forall_impl _ (P := fun ev => Forall Q' (changed_paths ev))); [|exact Hp].
  intros ev Hev. apply (List.Forall_impl _ HQ Hev).
Qed.
End Calls.

(** One step of the search for a proof of [calls_within], by the shape
    of the computation. *)
Ltac cw_step :=
  lazymatch goal with
  | |- calls_within _ (ret _) => apply cw_ret
  | |- calls_within _ (raise _) => apply cw_raise
  | |- calls_within _ (lift _) => apply cw_lift
  | |- calls_within _ (bind _ _) => apply cw_bind; [|intros ?]
  | |- calls_within _ (try_except _ _) => apply cw_try_except; [|intros ?]
  | |- calls_within _ (makedirs _ _) => apply cw_makedirs
  | |- calls_within _ (print _) => apply cw_log; constructor
  | |- calls_within _ (print_err _) => apply cw_log; constructor
  | |- calls_within _ (http_json _ _) => apply cw_log; constructor
  | |- calls_within _ (http_post_yaml_get_json _ _ _) => apply cw_log; constructor
  | |- calls_within _ (run _ _) => apply cw_log; constructor
  | |- calls_within _ (listdir _ _) => apply cw_log; constructor
  | |- calls_within _ (getsize _) => apply cw_getsize
  | |- calls_within _ (read_file _ _) => apply cw_read_file
  | |- calls_within _ (fun w => (Ok _, w)) => apply cw_read
  | |- calls_within _ (fun w => (_, add_log _ w)) => apply cw_log; constructor
  | |- calls_within ?P (if true then ?a else _) => change (calls_within P a)
  | |- calls_within ?P (if false then _ else ?a) => change (calls_within P a)
  | |- calls_within _ (if ?b then _ else _) => destruct b
  | |- calls_within _ (match ?x with _ => _ end) => destruct x
  end.

Ltac cw := repeat cw_step.

Section ItemCalls.
Context (E : Env).

Lemma cw_http_download (Q : string -> Prop) (url dest : string) :
  Q dest -> Q (dest ++ ".part") -> calls_within Q (http_download E url dest).
Proof.
  intros Hd Hp. unfold http_download. cw;
    try (apply cw_write_file; assumption); apply cw_replace_file; assumption.
Qed.

Lemma cw_decompress_raw_xz (Q : string -> Prop) (src dst : string) :
  Q dst -> Q (dst ++ ".part") -> calls_within Q (decompress_raw_xz E src dst).
Proof.
  intros Hd Hp. unfold decompress_raw_xz. cw;
    try (apply cw_write_file; assumption);
    try (apply cw_replace_file; assumption);
    try (apply cw_read_file);
    try (apply cw_remove_file; assumption).
Qed.

Lemma cw_sha256_file (Q : string -> Prop) (path : string) :
  calls_within Q (sha256_file E path).
Proof. unfold sha256_file. cw. Qed.

Lemma cw_push_hosts_loop (Q : string -> Prop) (local_file : string)
    (default_iso_dir rsync_opts ssh_opts : pyval) (hosts : list pyval) :
  forall results,
    calls_within Q
      (push_hosts_loop E local_file hosts default_iso_dir rsync_opts ssh_opts results).
Proof.
  induction hosts as [|h rest IH]; intros results; cbn [push_hosts_loop]; cw; apply IH.
Qed.

Lemma cw_push_file_to_hosts (Q : string -> Prop) (local_file : string)
    (hosts default_iso_dir rsync_opts ssh_opts : pyval) :
  calls_within Q (push_file_to_hosts E local_file hosts default_iso_dir rsync_opts ssh_opts).
Proof. unfold push_file_to_hosts. cw. apply cw_push_hosts_loop. Qed.

Lemma cw_resolve_version (Q : string -> Prop) (spec : pyval) :
  calls_within Q (resolve_version E spec).
Proof. unfold resolve_version. cw. Qed.

Lemma cw_obtain_schematic (Q : string -> Prop) (dry : bool) (it : pyval) :
  calls_within Q (obtain_schematic E dry it).
Proof. unfold obtain_schematic, post_schematic_and_get_id. cw. Qed.

Lemma cw_fetch_artifact (oid url local_path : string) (entry : entry_t) :
  calls_within (fun p => In p (artifacts_of local_path))
    (fetch_artifact E oid url local_path entry).
Proof.
  unfold fetch_artifact. cw;
    try apply cw_sha256_file;
    try (apply cw_http_download; cbn; auto);
    apply cw_write_file; cbn; auto.
Qed.

Lemma cw_decompress_stage (oid : string) (it image_format : pyval) (local_path : string)
    (entry : entry_t) :
  calls_within (fun p => In p (artifacts_of local_path))
    (decompress_stage E oid it image_format local_path entry).
Proof.
  unfold decompress_stage. cw;
    try apply cw_sha256_file;
    try (apply cw_decompress_raw_xz; cbn; auto 7);
    apply cw_write_file; cbn; auto 7.
Qed.

Lemma cw_push_stage (Q : string -> Prop) (c : ctx) (it : pyval) (entry : entry_t) :
  calls_within Q (push_stage E c it entry).
Proof. unfold push_stage. cw; apply cw_push_file_to_hosts. Qed.

Lemma cw_process_item (c : ctx) (it pos_name : pyval) :
  calls_within (cache_artifact (cache_dir c)) (process_item E c it pos_name).
Proof.
  unfold process_item.
  repeat lazymatch goal with
         | |- calls_within _ (bind (resolve_version _ _) _) =>
             apply cw_bind; [apply cw_resolve_version | intros ?]
         | |- calls_within _ (bind (obtain_schematic _ _ _) _) =>
             apply cw_bind; [apply cw_obtain_schematic | intros ?]
         | |- calls_within _ (bind (fetch_artifact _ _ _ ?lp _) _) =>
             apply cw_bind;
             [apply (cw_weaken _ (fun p => In p (artifacts_of lp)));
              [intros q Hq; eexists; exact Hq | apply cw_fetch_artifact]
             | intros ?]
         | |- calls_within _ (bind (decompress_stage _ _ _ _ ?lp _) _) =>
             apply cw_bind;
             [apply (cw_weaken _ (fun p => In p (artifacts_of lp)));
              [intros q Hq; eexists; exact Hq | apply cw_decompress_stage]
             | intros ?]
         | |- calls_within _ (bind (push_stage _ _ _ _) _) =>
             apply cw_bind; [apply cw_push_stage | intros ?]
         | |- calls_within _ (let '(_, _) := ?x in _) => destruct x
         | |- _ => cw_step
         end.
Qed.

Lemma cw_process_one (c : ctx) (it : pyval) (entries : list pyval) :
  calls_within (cache_artifact (cache_dir c)) (process_one E c it entries).
Proof.
  unfold process_one.
  apply cw_bind; [apply cw_lift | intros name0].
  apply cw_try_except; [|intros e; cw].
  apply cw_bind; [apply cw_process_item | intros r]. cw.
Qed.

Lemma cw_process_loop (c : ctx) (items : list pyval) :
  forall entries,
    calls_within (cache_artifact (cache_dir c)) (process_loop E c items entries).
Proof.
  induction items as [|it items IH]; intros entries; cbn [process_loop]; [apply cw_ret|].
  apply cw_bind; [apply cw_process_one | intros es; apply IH].
Qed.

Lemma cw_prepare (Q : string -> Prop) (oid : string) (positions dflts : pyval) (dry : bool) :
  calls_within Q (prepare E oid positions dflts dry).
Proof. unfold prepare, path_arg. cw. Qed.

Lemma cw_check_push_tools (Q : string -> Prop) (need_push dry : bool) :
  calls_within Q (check_push_tools E need_push dry).
Proof. unfold check_push_tools, ensure_tools_for_push. cw. Qed.

Lemma prepare_cache_dir_value (oid : string) (positions dflts : pyval) (dry : bool)
    (c : ctx) (items : list pyval) (need_push : bool) (w w1 : world) :
  prepare E oid positions dflts dry w = (Ok (c, items, need_push), w1) ->
  py_get dflts "cache_dir" (VStr "/var/cache/talos-sync") = Ok (VStr (cache_dir c)).
Proof.
  unfold prepare. intros H.
  apply bind_ok in H as (cv & ? & Hcv & H). apply lift_ok in Hcv as [Hcv ->].
  apply bind_ok in H as (? & ? & _ & H).
  apply bind_ok in H as (cdir & ? & Hcd & H).
  destruct cv as [| | |s| |]; try discriminate Hcd.
  unfold path_arg, ret in Hcd. injection Hcd as <- <-.
  repeat match type of H with
         | bind _ _ _ = (Ok _, _) => apply bind_ok in H as (? & ? & _ & H)
         end.
  unfold ret in H. injection H as <- _ _. exact Hcv.
Qed.

(** [process_positions] as a whole, for the cache directory of the
    defaults. *)
Lemma cw_process_positions (oid : string) (positions dflts : pyval) (dry : bool)
    (cdir : string) :
  py_get dflts "cache_dir" (VStr "/var/cache/talos-sync") = Ok (VStr cdir) ->
  calls_within (cache_artifact cdir) (process_positions E oid positions dflts dry).
Proof.
  intros Hc w. unfold process_positions, bind.
  destruct (cw_prepare (cache_artifact cdir) oid positions dflts dry w) as (evs1 & Hl1 & Hp1).
  destruct (prepare E oid positions dflts dry w) as [[[[c items] need_push]|e] w1] eqn:Hpr;
    cbn [snd] in *; [|now exists evs1].
  apply prepare_cache_dir_value in Hpr. rewrite Hc in Hpr. injection Hpr as ->.
  destruct (cw_check_push_tools (cache_artifact (cache_dir c)) need_push dry w1)
    as (evs2 & Hl2 & Hp2).
  destruct (check_push_tools E need_push dry w1) as [[[]|e] w2]; cbn [snd] in *.
  - destruct (cw_process_loop c items [] w2) as (evs3 & Hl3 & Hp3).
    exists (evs1 ++ evs2 ++ evs3)%list. rewrite Hl3, Hl2, Hl1, <- !app_assoc.
    split; [reflexivity|]. apply List.Forall_app. split; [exact Hp1|].
    apply List.Forall_app. now split.
  - exists (evs1 ++ evs2)%list. rewrite Hl2, Hl1, <- app_assoc.
    split; [reflexivity|]. apply List.Forall_app. now split.
Qed.
End ItemCalls.

Lemma prefix_app (a x : string) : String.prefix a (a ++ x) = true.
Proof.
  induction a as [|c a IH]; simpl; [apply prefix_empty|].
  destruct (Ascii.ascii_dec c c); [exact IH | contradiction].
Qed.

Lemma substring_app_ge (a b : string) (k : nat) :
  (String.length a <= k)%nat ->
  String.substring 0 k (a ++ b) = a ++ String.substring 0 (k - String.length a) b.
Proof.
  revert k. induction a as [|c a IH]; intros k Hk; simpl.
  - now rewrite Nat.sub_0_r.
  - destruct k as [|k]; [simpl in Hk; lia|]. simpl in *. rewrite IH by lia. reflexivity.
Qed.

Lemma path_join_cache_name (cdir rest : string) :
  exists y, path_join cdir ("talos-" ++ rest) = cdir ++ y /\ (6 <= String.length y)%nat.
Proof.
  unfold path_join. change (startswith ("talos-" ++ rest) "/") with false. cbv iota.
  destruct (String.eqb cdir "" || endswith cdir "/")%bool.
  - exists ("talos-" ++ rest). split; [reflexivity|]. simpl. lia.
  - exists ("/" ++ "talos-" ++ rest). split; [reflexivity|]. simpl. lia.
Qed.

(** The name of every file of a cached image begins with the cache
    directory. *)
Lemma cache_artifact_in_cache_dir (cdir p : string) :
  cache_artifact cdir p -> startswith p cdir = true.
Proof.
  intros [rest H]. destruct (path_join_cache_name cdir rest) as (y & Hjoin & Hy).
  rewrite Hjoin in H. clear Hjoin.
  unfold startswith, artifacts_of in H |- *.
  assert (Hstrip : String.prefix cdir (strip_xz_suffix (cdir ++ y)) = true
                   /\ (forall e, String.prefix cdir (strip_xz_suffix (cdir ++ y) ++ e) = true)).
  { unfold strip_xz_suffix. rewrite string_length_app.
    destruct (endswith (cdir ++ y) ".xz").
    - rewrite substring_app_ge by lia. split; [apply prefix_app|].
      intros e. rewrite string_app_assoc. apply prefix_app.
    - destruct (endswith (cdir ++ y) (".xz" ++ String nl "")).
      + rewrite substring_app_ge by lia. rewrite string_app_assoc.
        split; [apply prefix_app|]. intros e. rewrite string_app_assoc. apply prefix_app.
      + split; [apply prefix_app|]. intros e. rewrite string_app_assoc. apply prefix_app. }
  destruct Hstrip as [Hs1 Hs2].
  cbn [In] in H.
  destruct H as [<-|[<-|[<-|[<-|[<-|[<-|[]]]]]]];
    rewrite ?string_app_assoc; auto using prefix_app.
Qed.

(** X17: working through the positions of an order hands no path to the
    disk for writing, renaming or removing but the names of cached
    images: whatever the downloads, the tools and the disk do, and whether
    items succeed or fail, each such path is the [cache_dir] of the
    defaults joined with a name [talos-...], possibly with [.xz] dropped,
    and possibly followed by [.part] or [.sha256]; so it begins with the
    cache directory.  This is about the paths as they are written: where
    the version of an item holds [..], such a path leads out of the
    directory all the same. *)
Theorem process_positions_names_cache_files (E : Env) (oid : string)
    (positions dflts : pyval) (dry : bool) (cdir : string) (w : world) :
  py_get dflts "cache_dir" (VStr "/var/cache/talos-sync") = Ok (VStr cdir) ->
  exists calls,
    log (snd (process_positions E oid positions dflts dry w)) = (log w ++ calls)%list
    /\ forall ev p,
         In ev calls -> In p (changed_paths ev) ->
         startswith p cdir = true
         /\ exists rest, In p (artifacts_of (path_join cdir ("talos-" ++ rest))).
Proof.
  intros Hc.
  destruct (cw_process_positions E oid positions dflts dry cdir Hc w) as (calls & Hl & Hp).
  exists calls. split; [exact Hl|]. intros ev p Hev Hin.
  rewrite List.Forall_forall in Hp. specialize (Hp ev Hev).
  rewrite List.Forall_forall in Hp. specialize (Hp p Hin).
  split; [now apply cache_artifact_in_cache_dir | exact Hp].
Qed.

Lemma process_positions_names_cache_files_witness :
  exists calls,
    log (snd (process_positions (demo_env true) "o1" (VList [sample_item "a"]) (VDict []) false
                empty_world))
    = (log empty_world ++ calls)%list
    /\ forall ev p,
         In ev calls -> In p (changed_paths ev) ->
         startswith p "/var/cache/talos-sync" = true
         /\ exists rest,
              In p (artifacts_of (path_join "/var/cache/talos-sync" ("talos-" ++ rest))).
Proof.
  apply (process_positions_names_cache_files (demo_env true) "o1" (VList [sample_item "a"])
           (VDict []) false "/var/cache/talos-sync" empty_world).
  reflexivity.
Defined.

(** The paths written for an item whose version is [v1/../../../tmp/x]:
    they begin with the cache directory and name files in [/tmp]. *)
Example dotdot_version_paths :
  flat_map changed_paths
    (log (snd (process_positions (demo_env true) "o1" (VList [dotdot_item]) (VDict []) false
                 empty_world)))
  = [ "/var/cache/talos-sync/talos-v1/../../../tmp/x-nocloud-amd64.iso.part";
      "/var/cache/talos-sync/talos-v1/../../../tmp/x-nocloud-amd64.iso.part";
      "/var/cache/talos-sync/talos-v1/../../../tmp/x-nocloud-amd64.iso";
      "/var/cache/talos-sync/talos-v1/../../../tmp/x-nocloud-amd64.iso.sha256" ].
Proof. reflexivity. Qed.

(** ** Creating a schematic *)

(** X18: a schematic is created by one POST to the factory, whose body
    is the dump of the customization under the key [customization], and
    by nothing else; the call returns an id exactly when the answer is a
    mapping with the key [id], and then the id is the value of that key.
    Any other answer makes it raise. *)
Theorem post_schematic_and_get_id_spec (E : Env) (customization : pyval) (w : world) :
  let body := yaml_safe_dump E (VDict [("customization", customization)]) in
  snd (post_schematic_and_get_id E customization w)
  = add_log (IoHttpPost FACTORY_SCHEMATICS body) w
  /\ forall sid,
       fst (post_schematic_and_get_id E customization w) = Ok sid
       <-> exists d,
             http_post_resp E w FACTORY_SCHEMATICS body = Ok (VDict d)
             /\ assoc "id" d = Some sid.
Proof.
  cbv zeta. unfold post_schematic_and_get_id, bind, http_post_yaml_get_json, lift, raise.
  destruct (http_post_resp E w FACTORY_SCHEMATICS _) as [data|e] eqn:Hr.
  - destruct data as [|b|z|s|l|d]; cbn [py_contains py_getitem fst snd].
    + split; [reflexivity|]. intros sid. split; [discriminate | intros (d & [=] & _)].
    + split; [reflexivity|]. intros sid. split; [discriminate | intros (d & [=] & _)].
    + split; [reflexivity|]. intros sid. split; [discriminate | intros (d & [=] & _)].
    + destruct (contains_sub "id" s); cbn [negb fst snd]; (split; [reflexivity|]);
        intros sid; (split; [discriminate | intros (d & [=] & _)]).
    + destruct (existsb _ l); cbn [negb fst snd]; (split; [reflexivity|]);
        intros sid; (split; [discriminate | intros (d & [=] & _)]).
    + destruct (assoc "id" d) as [x|] eqn:Hid; cbn [negb fst snd]; (split; [reflexivity|]);
        intros sid; split.
      * intros [= <-]. eauto.
      * intros (d' & [= <-] & Hd'). congruence.
      * discriminate.
      * intros (d' & [= <-] & Hd'). congruence.
  - cbn [fst snd]. split; [reflexivity|].
    intros sid. split; [discriminate | intros (d & [=] & _)].
Qed.
